(** * SmartCartShop: order lifecycle and inventory consistency

    A shallow embedding of the REST handlers of the storefront backend
    ([backend/routes/orders.js], [cart.js], [products.js], [auth.js] and the
    sustainability router) over an explicit model of the relational store
    they reach through the ORM client.

    Conventions of the model.
    - A handler is a function from the store (and the request) to the store
      after the request and the HTTP response; a handler that only reads
      returns the store it got. Requests are handled one at a time.
    - A handler is the function its route registers after the middleware:
      it gets [req.userId] as [uid]. The middleware itself is not among
      the sources, and neither is the foreign key from cart lines and
      orders to users: any [uid] is served.
    - [prisma.$transaction] is a function to [option]: [None] is a thrown
      error, after which nothing of the transaction is kept. A throw
      anywhere in a handler lands in its [catch], which answers 500.
    - A value of a JSON body is any JSON value: a scalar, an array or an
      object. The routes hand some of them to the ORM client as they come,
      and in the [data] of an update the client takes an object such as
      [{ set: 5 }] or [{ decrement: 2 }] for an operation on the column.
    - [Int] columns hold 32-bit integers: a value or an id that a request
      supplies is refused outside that range, and a number with a fraction
      is cut to its integer part. The arithmetic the store does itself on a
      stored value ([increment], [decrement]) is exact.
    - A [Decimal] column keeps a number rounded to the scale of the column;
      the value in the model is the binary64 number [parseFloat] reads back
      from the column. The scale is the schema's.
    - Tables keyed by their primary key only ([Product], [Order], [User])
      are finite maps; tables that are listed ([CartItem], [OrderItem]) are
      lists in insertion order, the order [findMany] is taken to return.
    - Timestamps of rows are left out: no handler modelled here reads them.
      The clock is read by [jwt.sign] only, for the issue and expiry times
      of a token: registration and login take its reading as [now]. *)

From Stdlib Require Import ZArith Ascii String List Bool Lia DecimalString.
From Stdlib Require Import Floats.SpecFloat.
From stdpp Require Import base option list gmap strings sorting.

Local Open Scope string_scope.
Local Open Scope list_scope.
Local Open Scope Z_scope.

Set Warnings "-register-all".

(** ** JavaScript numbers and request values *)

Module Js.

(** binary64 *)
Definition float64 : Type := spec_float.
Definition prec : Z := 53.
Definition emax : Z := 1024.

Definition fadd : float64 -> float64 -> float64 := SFadd prec emax.
Definition fmul : float64 -> float64 -> float64 := SFmul prec emax.
Definition fdiv : float64 -> float64 -> float64 := SFdiv prec emax.
Definition flt : float64 -> float64 -> bool := SFltb.
Definition of_Z (z : Z) : float64 := binary_normalize prec emax z 0 false.

Definition is_nan (x : float64) : bool :=
  match x with S754_nan => true | _ => false end.
Definition is_zero (x : float64) : bool :=
  match x with S754_zero _ => true | _ => false end.
Definition is_finite (x : float64) : bool :=
  match x with S754_zero _ | S754_finite _ _ _ => true | _ => false end.

(** A number as a request carries it: an integral value, or a binary64
    value that is not integral. *)
Inductive num : Type :=
| NInt (z : Z)
| NFloat (x : float64).

Definition to_float (n : num) : float64 :=
  match n with NInt z => of_Z z | NFloat x => x end.

(** The values of a JSON body as [JSON.parse] builds them: scalars, arrays
    and plain objects (own data properties only, in the order of the
    text); [JUndefined] is an absent field. *)
Inductive val : Type :=
| JUndefined
| JNull
| JBool (b : bool)
| JNum (n : num)
| JStr (s : string)
| JArr (items : list val)
| JObj (fields : list (string * val)).

(** [!v] is [negb (truthy v)]. *)
Definition truthy (v : val) : bool :=
  match v with
  | JUndefined | JNull => false
  | JBool b => b
  | JNum (NInt z) => negb (z =? 0)
  | JNum (NFloat x) => negb (is_zero x || is_nan x)
  | JStr s => negb (String.eqb s "")
  | JArr _ | JObj _ => true
  end.

(** Whether the object has an own property [k]. *)
Definition has_key (k : string) (fields : list (string * val)) : bool :=
  existsb (fun f => String.eqb f.1 k) fields.

(** [a < b] on numbers. *)
Definition num_lt (a b : num) : bool :=
  match a, b with
  | NInt x, NInt y => x <? y
  | _, _ => flt (to_float a) (to_float b)
  end.

Definition num_add (a b : num) : num :=
  match a, b with
  | NInt x, NInt y => NInt (x + y)
  | _, _ => NFloat (fadd (to_float a) (to_float b))
  end.

(** What the language runtime and the libraries outside the repository
    compute: taken as given. *)
Class Runtime : Type := {
  (** [parseInt(v)]; [None] is [NaN], or the [TypeError] of a value that
      has no string: wherever a route calls it, both end in its [catch] *)
  parseInt : val -> option Z;
  (** [parseFloat(v)]; [NaN] also where the value has no string *)
  parseFloat : val -> float64;
  (** [ToNumber] of a string *)
  StringToNumber : string -> num;
  (** [ToString] of a number *)
  NumberToString : num -> string;
  (** [bcrypt.hash(password, 10)] *)
  bcrypt_hash : string -> string;
  (** [jwt.sign({userId, role}, secret, {expiresIn})] when the clock reads
      [now]: the token carries its issue and expiry times *)
  jwt_sign : Z -> string -> Z -> string
}.

Section Coercions.
Context `{Runtime}.

(** [ToString(v)]; [None] is a thrown [TypeError]. An array is the join
    of its elements, [null] and [undefined] among them as the empty
    string. A plain object is [[object Object]], unless it has an own
    property [toString]: that one is not a function, and neither it nor
    [valueOf] then gives a primitive. *)
Fixpoint ToString (v : val) : option string :=
  match v with
  | JUndefined => Some "undefined"
  | JNull => Some "null"
  | JBool b => Some (if b then "true" else "false")
  | JNum n => Some (NumberToString n)
  | JStr s => Some s
  | JArr items =>
      (fix join (l : list val) : option string :=
         match l with
         | [] => Some ""
         | x :: rest =>
             match (match x with
                    | JUndefined | JNull => Some ""
                    | _ => ToString x
                    end) with
             | None => None
             | Some s =>
                 match rest with
                 | [] => Some s
                 | _ =>
                     match join rest with
                     | None => None
                     | Some r => Some (String.append s (String.append "," r))
                     end
                 end
             end
         end) items
  | JObj fields =>
      if has_key "toString" fields then None else Some "[object Object]"
  end.

(** [ToPrimitive(v)]: an array or an object becomes its string. *)
Definition ToPrimitive (v : val) : option val :=
  match v with
  | JArr _ | JObj _ =>
      match ToString v with Some s => Some (JStr s) | None => None end
  | _ => Some v
  end.

(** [ToNumber] of a primitive *)
Definition PrimitiveToNumber (v : val) : num :=
  match v with
  | JNull => NInt 0
  | JBool b => NInt (if b then 1 else 0)
  | JNum n => n
  | JStr s => StringToNumber s
  | _ => NFloat S754_nan
  end.

(** [ToNumber(v)]; [None] is a thrown [TypeError]. *)
Definition ToNumber (v : val) : option num :=
  match ToPrimitive v with
  | Some p => Some (PrimitiveToNumber p)
  | None => None
  end.

(** [a < b] where one side is a number: the other goes through
    [ToNumber]. *)
Definition val_lt_num (a : val) (b : num) : option bool :=
  match ToNumber a with Some n => Some (num_lt n b) | None => None end.
Definition num_lt_val (a : num) (b : val) : option bool :=
  match ToNumber b with Some n => Some (num_lt a n) | None => None end.

(** [n + v] for a number [n]: concatenation when the primitive of [v] is a
    string. *)
Definition plus (n : num) (v : val) : option val :=
  match ToPrimitive v with
  | None => None
  | Some (JStr s) => Some (JStr (String.append (NumberToString n) s))
  | Some p => Some (JNum (num_add n (PrimitiveToNumber p)))
  end.
End Coercions.

(** The range of a 32-bit integer. *)
Definition int32 (z : Z) : bool :=
  (-2147483648 <=? z) && (z <=? 2147483647).

End Js.
Import Js.

(** ** The store *)

Record Product : Type := mkProduct {
  p_name : string;
  p_description : string;
  p_price : float64;
  p_imageUrl : option string;
  p_stock : Z;
  p_category : string;
  p_isEcoFriendly : bool;
  p_carbonFootprint : float64;
  p_plasticContent : float64
}.

Record CartItem : Type := mkCartItem {
  ci_id : Z;
  ci_userId : Z;
  ci_productId : Z;
  ci_quantity : Z
}.

Record Order : Type := mkOrder {
  o_userId : Z;
  o_total : float64;
  o_status : string
}.

Record OrderItem : Type := mkOrderItem {
  oi_id : Z;
  oi_orderId : Z;
  oi_productId : Z;
  oi_quantity : Z;
  oi_price : float64
}.

Record User : Type := mkUser {
  u_email : string;
  u_password : string;
  u_name : string;
  u_role : string;
  u_greenPoints : Z;
  u_totalCO2Saved : float64;
  u_totalPlasticSaved : float64
}.

(** The tables and the next value of each autoincrement key. *)
Record DB : Type := mkDB {
  products : gmap Z Product;
  cartItems : list CartItem;
  orders : gmap Z Order;
  orderItems : list OrderItem;
  users : gmap Z User;
  nextProductId : Z;
  nextCartItemId : Z;
  nextOrderId : Z;
  nextOrderItemId : Z;
  nextUserId : Z
}.

Definition set_stock (s : Z) (p : Product) : Product :=
  mkProduct (p_name p) (p_description p) (p_price p) (p_imageUrl p) s
            (p_category p) (p_isEcoFriendly p) (p_carbonFootprint p)
            (p_plasticContent p).

Definition add_stock (d : Z) (p : Product) : Product :=
  set_stock (p_stock p + d) p.

Definition set_quantity (q : Z) (c : CartItem) : CartItem :=
  mkCartItem (ci_id c) (ci_userId c) (ci_productId c) q.

Definition set_status (s : string) (o : Order) : Order :=
  mkOrder (o_userId o) (o_total o) s.

Definition with_products (ps : gmap Z Product) (db : DB) : DB :=
  mkDB ps (cartItems db) (orders db) (orderItems db) (users db)
       (nextProductId db) (nextCartItemId db) (nextOrderId db)
       (nextOrderItemId db) (nextUserId db).

Definition with_cartItems (cs : list CartItem) (db : DB) : DB :=
  mkDB (products db) cs (orders db) (orderItems db) (users db)
       (nextProductId db) (nextCartItemId db) (nextOrderId db)
       (nextOrderItemId db) (nextUserId db).

Definition with_orders (os : gmap Z Order) (db : DB) : DB :=
  mkDB (products db) (cartItems db) os (orderItems db) (users db)
       (nextProductId db) (nextCartItemId db) (nextOrderId db)
       (nextOrderItemId db) (nextUserId db).

Definition with_orderItems (ois : list OrderItem) (db : DB) : DB :=
  mkDB (products db) (cartItems db) (orders db) ois (users db)
       (nextProductId db) (nextCartItemId db) (nextOrderId db)
       (nextOrderItemId db) (nextUserId db).

(** ** Responses *)

(** The report of GET /cart-impact. *)
Record Impact : Type := mkImpact {
  totalCO2 : string;
  totalPlastic : string;
  ecoFriendlyItems : Z;
  totalItems : Z;
  potentialGreenPoints : Z;
  ecoPercentage : val
}.

Inductive body : Type :=
| BNull
| BError (error : string)
| BMessage (message : string)
| BOrder (id : Z) (o : Order) (items : list (OrderItem * Product))
| BCartItem (c : CartItem) (p : Product)
| BProduct (id : Z) (p : Product)
| BUser (id : Z) (u : User) (token : string)
| BImpact (i : Impact).

Record response : Type := mkResponse {
  r_status : nat;
  r_body : body
}.

Definition json (b : body) : response := mkResponse 200 b.
Definition status_json (code : nat) (b : body) : response := mkResponse code b.
Definition error_json (code : nat) (msg : string) : response :=
  mkResponse code (BError msg).

(** ** The schema

    The schema file is not among the sources. What the routes need from it
    and do not show themselves is taken as given: the column defaults a
    [create] leaves to the store, what a [Decimal] column keeps of a number,
    and what deleting a product does to the rows that refer to it. *)

Inductive referential_action : Type := Cascade | Restrict.

Class Schema : Type := {
  default_isEcoFriendly : bool;
  default_carbonFootprint : float64;
  default_plasticContent : float64;
  default_greenPoints : Z;
  default_totalCO2Saved : float64;
  default_totalPlasticSaved : float64;
  (** the number [parseFloat] reads back from a [Decimal] column (price,
      total) after a finite number is written to it *)
  decimal_column : float64 -> float64;
  cartItem_onProductDelete : referential_action;
  orderItem_onProductDelete : referential_action
}.

(** ** Columns

    Modelled from the spec: the schema is not among the sources. Stock
    and quantity are integers, prices and totals decimals, names and the
    like strings, the image reference optional. The client checks a value
    against the type of its column, and throws before it reaches the store
    when the value is of another type. *)
Module Column.
Section Columns.
Context `{Schema}.

(** The integer part of a number. *)
Definition trunc (x : float64) : option Z :=
  match x with
  | S754_zero _ => Some 0
  | S754_finite s m e =>
      let a := if 0 <=? e then Z.pos m * 2 ^ e else Z.pos m / 2 ^ (- e) in
      Some (if s then - a else a)
  | _ => None
  end.

(** A value for an [Int] column: a number in the 32-bit range, a fraction
    cut to its integer part. *)
Definition int (v : val) : option Z :=
  match v with
  | JNum (NInt z) => if int32 z then Some z else None
  | JNum (NFloat x) =>
      match trunc x with
      | Some z => if int32 z then Some z else None
      | None => None
      end
  | _ => None
  end.

Definition str (v : val) : option string :=
  match v with JStr s => Some s | _ => None end.

(** a nullable string column *)
Definition str_opt (v : val) : option (option string) :=
  match v with
  | JStr s => Some (Some s)
  | JNull | JUndefined => Some None
  | _ => None
  end.

(** A number for a [Decimal] column: what the column keeps of it. *)
Definition decimal (x : float64) : option float64 :=
  if is_finite x then Some (decimal_column x) else None.

(** What the [data] of an update can ask of an [Int] column. *)
Inductive int_write : Type :=
| ISet (n : Z)
| IIncrement (n : Z)
| IDecrement (n : Z)
| IMultiply (n : Z)
| IDivide (n : Z).

(** The object with the one property [op], as the client takes an
    operation: [{ op: x }]. *)
Definition operation (v : val) : option (string * val) :=
  match v with
  | JObj [(op, x)] => Some (op, x)
  | _ => None
  end.

(** A value for an [Int] column in the [data] of an update: a value to
    set, or one operation. *)
Definition int_data (v : val) : option int_write :=
  match operation v with
  | Some (op, x) =>
      match int x with
      | None => None
      | Some n =>
          if String.eqb op "set" then Some (ISet n)
          else if String.eqb op "increment" then Some (IIncrement n)
          else if String.eqb op "decrement" then Some (IDecrement n)
          else if String.eqb op "multiply" then Some (IMultiply n)
          else if String.eqb op "divide" then Some (IDivide n)
          else None
      end
  | None =>
      match int v with Some n => Some (ISet n) | None => None end
  end.

(** What the store makes of the column; [None] when it raises (a division
    by zero). *)
Definition int_apply (w : int_write) (old : Z) : option Z :=
  match w with
  | ISet n => Some n
  | IIncrement n => Some (old + n)
  | IDecrement n => Some (old - n)
  | IMultiply n => Some (old * n)
  | IDivide n => if n =? 0 then None else Some (Z.quot old n)
  end.

(** A value for a string column in the [data] of an update: a string, or
    [{ set: string }]. *)
Definition str_data (v : val) : option string :=
  match operation v with
  | Some (op, x) => if String.eqb op "set" then str x else None
  | None => str v
  end.

(** The same for a nullable string column. *)
Definition str_opt_data (v : val) : option (option string) :=
  match operation v with
  | Some (op, JStr x) => if String.eqb op "set" then Some (Some x) else None
  | Some (op, JNull) => if String.eqb op "set" then Some None else None
  | Some _ => None
  | None =>
      match v with
      | JStr x => Some (Some x)
      | JNull => Some None
      | _ => None
      end
  end.

End Columns.
End Column.

(** ** The ORM client *)

Module Prisma.

(** A sequence of store operations that may throw. *)
Definition Tx (A : Type) : Type := DB -> option (A * DB).

Definition ret {A} (a : A) : Tx A := fun db => Some (a, db).
Definition throw {A} : Tx A := fun _ => None.
Definition bind {A B} (m : Tx A) (k : A -> Tx B) : Tx B :=
  fun db => match m db with
            | Some (a, db') => k a db'
            | None => None
            end.

Declare Scope tx_scope.
Delimit Scope tx_scope with tx.
Notation "'await' x <- m ; k" := (bind m (fun x => k))
  (at level 10, x name, m at level 100, k at level 200) : tx_scope.

(** [for (const x of l) { await f(x) }] *)
Fixpoint for_of {A} (l : list A) (f : A -> Tx unit) : Tx unit :=
  match l with
  | [] => ret tt
  | x :: rest => bind (f x) (fun _ => for_of rest f)
  end.

(** [prisma.$transaction(f)]: all of [f], or nothing. *)
Definition transaction {A} (f : Tx A) (db : DB) : option (A * DB) := f db.

(** [where: { id: parseInt(v) }]: [None] when the client refuses the id,
    which is when it is [NaN] or outside the range of the column. *)
Definition where_int `{Runtime} (v : val) : option Z :=
  match parseInt v with
  | Some n => if int32 n then Some n else None
  | None => None
  end.

(** *** cartItem *)

Definition cartItem_where_user (uid : Z) (db : DB) : list CartItem :=
  filter (fun c => ci_userId c = uid) (cartItems db).

(** [include: { product: true }]. Modelled from the spec: the schema is
    not among the sources; a cart line is a (user, product) pair, so the
    relation is required, and a row whose product is gone makes the query
    throw. *)
Definition include_product (ps : gmap Z Product) (c : CartItem)
  : option (CartItem * Product) :=
  p ← ps !! ci_productId c; Some (c, p).

Definition cartItem_findMany_include (uid : Z) (db : DB)
  : option (list (CartItem * Product)) :=
  mapM (include_product (products db)) (cartItem_where_user uid db).

(** [findUnique({ where: { userId_productId: ... } })] *)
Definition cartItem_findUnique (uid pid : Z) (db : DB) : option CartItem :=
  List.find (fun c => bool_decide (ci_userId c = uid /\ ci_productId c = pid))
            (cartItems db).

(** [findFirst({ where: { id, userId } })] *)
Definition cartItem_findFirst (id uid : Z) (db : DB) : option CartItem :=
  List.find (fun c => bool_decide (ci_id c = id /\ ci_userId c = uid))
            (cartItems db).

(** [create]. Modelled from the spec: the schema is not among the sources;
    a cart line is unique per (user, product), the compound key
    [userId_productId] that [findUnique] names, so a second row under the
    same key makes the query throw. *)
Definition cartItem_create (uid pid q : Z) : Tx CartItem :=
  fun db =>
    match cartItem_findUnique uid pid db with
    | Some _ => None
    | None =>
        let c := mkCartItem (nextCartItemId db) uid pid q in
        Some (c, mkDB (products db) (cartItems db ++ [c]) (orders db)
                      (orderItems db) (users db) (nextProductId db)
                      (nextCartItemId db + 1) (nextOrderId db)
                      (nextOrderItemId db) (nextUserId db))
    end.

(** [update({ where: { id }, data: { quantity } })] *)
Definition cartItem_update (id : Z) (w : Column.int_write) : Tx CartItem :=
  fun db =>
    match List.find (fun c => bool_decide (ci_id c = id)) (cartItems db) with
    | None => None
    | Some c =>
        match Column.int_apply w (ci_quantity c) with
        | None => None
        | Some q =>
            Some (set_quantity q c,
                  with_cartItems
                    (map (fun c' => if bool_decide (ci_id c' = id)
                                    then set_quantity q c' else c')
                         (cartItems db)) db)
        end
    end.

(** [delete({ where: { id } })] *)
Definition cartItem_delete (id : Z) : Tx unit :=
  fun db =>
    match List.find (fun c => bool_decide (ci_id c = id)) (cartItems db) with
    | None => None
    | Some _ =>
        Some (tt, with_cartItems
                    (filter (fun c => ci_id c <> id) (cartItems db)) db)
    end.

(** [deleteMany({ where: { userId } })] *)
Definition cartItem_deleteMany (uid : Z) : Tx unit :=
  fun db =>
    Some (tt, with_cartItems
                (filter (fun c => ci_userId c <> uid) (cartItems db)) db).

(** *** product *)

(** [update({ where: { id }, data })]: throws when there is no such row. *)
Definition product_update (id : Z) (f : Product -> Product) : Tx Product :=
  fun db =>
    match products db !! id with
    | None => None
    | Some p => Some (f p, with_products (<[id := f p]> (products db)) db)
    end.

(** *** order and orderItem *)

(** [create({ data: { userId, total, status } })]: the [total] column is
    a [Decimal]. *)
Definition order_create `{Schema} (uid : Z) (total : float64) (st : string)
  : Tx Z :=
  fun db =>
    let id := nextOrderId db in
    Some (id, mkDB (products db) (cartItems db)
                   (<[id := mkOrder uid (decimal_column total) st]>
                      (orders db))
                   (orderItems db) (users db) (nextProductId db)
                   (nextCartItemId db) (id + 1)
                   (nextOrderItemId db) (nextUserId db)).

Definition orderItem_create (oid pid q : Z) (price : float64) : Tx unit :=
  fun db =>
    let i := mkOrderItem (nextOrderItemId db) oid pid q price in
    Some (tt, mkDB (products db) (cartItems db) (orders db)
                   (orderItems db ++ [i]) (users db) (nextProductId db)
                   (nextCartItemId db) (nextOrderId db)
                   (nextOrderItemId db + 1) (nextUserId db)).

(** [findFirst({ where: { id, userId } })] *)
Definition order_findFirst (id uid : Z) (db : DB) : option Order :=
  o ← orders db !! id;
  if bool_decide (o_userId o = uid) then Some o else None.

Definition orderItems_of (id : Z) (db : DB) : list OrderItem :=
  filter (fun i => oi_orderId i = id) (orderItems db).

(** [include: { orderItems: { include: { product: true } } }] *)
Definition include_items (id : Z) (db : DB)
  : option (list (OrderItem * Product)) :=
  mapM (fun i => p ← products db !! oi_productId i; Some (i, p))
       (orderItems_of id db).

(** [update({ where: { id }, data: { status } })] *)
Definition order_update_status (id : Z) (st : string) : Tx Order :=
  fun db =>
    match orders db !! id with
    | None => None
    | Some o =>
        Some (set_status st o,
              with_orders (<[id := set_status st o]> (orders db)) db)
    end.

(** [delete({ where: { id } })]. Modelled from the spec: the schema is
    not among the sources; deleting an order deletes its items by cascade
    (so says the route's comment too). *)
Definition order_delete (id : Z) : Tx unit :=
  fun db =>
    match orders db !! id with
    | None => None
    | Some _ =>
        Some (tt, with_orderItems
                    (filter (fun i => oi_orderId i <> id) (orderItems db))
                    (with_orders (delete id (orders db)) db))
    end.

End Prisma.
Import Prisma.
Local Open Scope tx_scope.

(** ** Order routes ([backend/routes/orders.js]) *)

Module Orders.
Section Routes.
Context `{Runtime} `{Schema}.

(** [where: { id: parseInt(id) }] *)
Definition where_id (id : string) : option Z := where_int (JStr id).

Definition order_with_items (id : Z) (o : Order) (db : DB) : option body :=
  items ← include_items id db; Some (BOrder id o items).

(** GET /:id *)
Definition get (id : string) (uid : Z) (db : DB) : DB * response :=
  match where_id id with
  | None => (db, error_json 500 "Failed to fetch order")
  | Some n =>
      match order_findFirst n uid db with
      | None => (db, error_json 404 "Order not found")
      | Some order =>
          match order_with_items n order db with
          | None => (db, error_json 500 "Failed to fetch order")
          | Some b => (db, json b)
          end
      end
  end.

(** The loop that validates stock and accumulates the total; [inl] is
    the name of the first product that is short. *)
Fixpoint validate (cartItems : list (CartItem * Product)) (total : float64)
  : string + float64 :=
  match cartItems with
  | [] => inr total
  | (item, product) :: rest =>
      if p_stock product <? ci_quantity item then inl (p_name product)
      else validate rest
             (fadd total (fmul (p_price product) (of_Z (ci_quantity item))))
  end.

(** The body of the transaction of POST /. *)
Definition place (uid : Z) (total : float64)
           (cartItems : list (CartItem * Product)) : Tx Z :=
  await newOrder <- order_create uid total "pending";
  await _ <- for_of cartItems (fun line =>
      await _ <- orderItem_create newOrder (ci_productId line.1)
                   (ci_quantity line.1) (p_price line.2);
      await _ <- product_update (ci_productId line.1)
                   (add_stock (- ci_quantity line.1));
      ret tt);
  await _ <- cartItem_deleteMany uid;
  ret newOrder.

(** POST /: create an order from the cart. *)
Definition create (uid : Z) (db : DB) : DB * response :=
  match cartItem_findMany_include uid db with
  | None => (db, error_json 500 "Failed to create order")
  | Some cartItems =>
      if (length cartItems =? 0)%nat
      then (db, error_json 400 "Cart is empty")
      else
        match validate cartItems (of_Z 0) with
        | inl name =>
            (db, error_json 400
                   (String.append "Insufficient stock for " name))
        | inr total =>
            match transaction (place uid total cartItems) db with
            | None => (db, error_json 500 "Failed to create order")
            | Some (order, db') =>
                match orders db' !! order with
                | None => (db', status_json 201 BNull)
                | Some o =>
                    match order_with_items order o db' with
                    | None => (db', error_json 500 "Failed to create order")
                    | Some b => (db', status_json 201 b)
                    end
                end
            end
        end
  end.

Definition validStatuses : list string :=
  ["pending"; "processing"; "shipped"; "delivered"; "cancelled"].

(** [validStatuses.includes(v)]: only a string can be in the array. *)
Definition includes (l : list string) (v : val) : option string :=
  match v with
  | JStr s => if existsb (String.eqb s) l then Some s else None
  | _ => None
  end.

(** PUT /:id: update the status of an order. *)
Definition update (id : string) (status : val) (uid : Z) (db : DB)
  : DB * response :=
  match (if truthy status then includes validStatuses status else None) with
  | None => (db, error_json 400 "Invalid status")
  | Some st =>
      match where_id id with
      | None => (db, error_json 500 "Failed to update order")
      | Some n =>
          match order_findFirst n uid db with
          | None => (db, error_json 404 "Order not found")
          | Some _ =>
              match (await o <- order_update_status n st;
                     fun db' => b ← order_with_items n o db'; Some (b, db'))
                      db with
              | None => (db, error_json 500 "Failed to update order")
              | Some (b, db') => (db', json b)
              end
          end
      end
  end.

(** The body of the transaction of DELETE /:id. *)
Definition restore (n : Z) (items : list OrderItem) : Tx unit :=
  await _ <- for_of items (fun item =>
      await _ <- product_update (oi_productId item)
                   (add_stock (oi_quantity item));
      ret tt);
  order_delete n.

(** DELETE /:id: cancel an order (only if pending). *)
Definition cancel (id : string) (uid : Z) (db : DB) : DB * response :=
  match where_id id with
  | None => (db, error_json 500 "Failed to cancel order")
  | Some n =>
      match order_findFirst n uid db with
      | None => (db, error_json 404 "Order not found")
      | Some order =>
          if negb (String.eqb (o_status order) "pending")
          then (db, error_json 400 "Can only cancel pending orders")
          else
            match transaction (restore n (orderItems_of n db)) db with
            | None => (db, error_json 500 "Failed to cancel order")
            | Some (_, db') =>
                (db', json (BMessage "Order cancelled successfully"))
            end
      end
  end.

End Routes.
End Orders.


(** ** Cart routes ([backend/routes/cart.js]) *)

Module Cart.
Section Routes.
Context `{Runtime}.

(** POST /: add an item to the cart. *)
Definition add (productId quantity : val) (uid : Z) (db : DB)
  : DB * response :=
  if negb (truthy productId) || negb (truthy quantity)
  then (db, error_json 400 "Invalid product or quantity")
  else
    match val_lt_num quantity (NInt 1) with
    | None => (db, error_json 500 "Failed to add item to cart")
    | Some true => (db, error_json 400 "Invalid product or quantity")
    | Some false =>
        match where_int productId with
        | None => (db, error_json 500 "Failed to add item to cart")
        | Some pid =>
            match products db !! pid with
            | None => (db, error_json 404 "Product not found")
            | Some product =>
                match num_lt_val (NInt (p_stock product)) quantity with
                | None => (db, error_json 500 "Failed to add item to cart")
                | Some true => (db, error_json 400 "Insufficient stock")
                | Some false =>
                    let write : Tx CartItem :=
                      match cartItem_findUnique uid pid db with
                      | Some existingCartItem =>
                          match plus (NInt (ci_quantity existingCartItem))
                                     quantity with
                          | None => throw
                          | Some sum =>
                              match Column.int sum with
                              | None => throw
                              | Some q =>
                                  cartItem_update (ci_id existingCartItem)
                                                  (Column.ISet q)
                              end
                          end
                      | None =>
                          match Column.int quantity with
                          | None => throw
                          | Some q => cartItem_create uid pid q
                          end
                      end in
                    match (await c <- write;
                           fun db' => p ← products db' !! ci_productId c;
                                      Some (BCartItem c p, db')) db with
                    | None =>
                        (db, error_json 500 "Failed to add item to cart")
                    | Some (b, db') => (db', status_json 201 b)
                    end
                end
            end
        end
    end.

(** PUT /:id: update the quantity of a cart item. The [quantity] of the
    body goes into [data] as it came. *)
Definition update (id : string) (quantity : val) (uid : Z) (db : DB)
  : DB * response :=
  if negb (truthy quantity)
  then (db, error_json 400 "Invalid quantity")
  else
    match val_lt_num quantity (NInt 1) with
    | None => (db, error_json 500 "Failed to update cart item")
    | Some true => (db, error_json 400 "Invalid quantity")
    | Some false =>
        match where_int (JStr id) with
        | None => (db, error_json 500 "Failed to update cart item")
        | Some n =>
            match cartItem_findFirst n uid db with
            | None => (db, error_json 404 "Cart item not found")
            | Some cartItem =>
                match include_product (products db) cartItem with
                | None => (db, error_json 500 "Failed to update cart item")
                | Some (_, product) =>
                    match num_lt_val (NInt (p_stock product)) quantity with
                    | None =>
                        (db, error_json 500 "Failed to update cart item")
                    | Some true => (db, error_json 400 "Insufficient stock")
                    | Some false =>
                        match Column.int_data quantity with
                        | None =>
                            (db, error_json 500 "Failed to update cart item")
                        | Some w =>
                            match cartItem_update n w db with
                            | None =>
                                (db, error_json 500
                                       "Failed to update cart item")
                            | Some (c, db') =>
                                (db', json (BCartItem c product))
                            end
                        end
                    end
                end
            end
        end
    end.

(** DELETE /:id: remove one cart item. *)
Definition remove (id : string) (uid : Z) (db : DB) : DB * response :=
  match where_int (JStr id) with
  | None => (db, error_json 500 "Failed to remove item from cart")
  | Some n =>
      match cartItem_findFirst n uid db with
      | None => (db, error_json 404 "Cart item not found")
      | Some _ =>
          match cartItem_delete n db with
          | None => (db, error_json 500 "Failed to remove item from cart")
          | Some (_, db') => (db', json (BMessage "Item removed from cart"))
          end
      end
  end.

(** DELETE /: clear the cart. *)
Definition clear (uid : Z) (db : DB) : DB * response :=
  match cartItem_deleteMany uid db with
  | None => (db, error_json 500 "Failed to clear cart")
  | Some (_, db') => (db', json (BMessage "Cart cleared successfully"))
  end.

End Routes.
End Cart.

(** ** Product routes ([backend/routes/products.js]), admin only *)

Module Products.
Section Routes.
Context `{Runtime} `{Schema}.

Definition product_create (p : Product) : Tx Z :=
  fun db =>
    let id := nextProductId db in
    Some (id, mkDB (<[id := p]> (products db)) (cartItems db) (orders db)
                   (orderItems db) (users db) (id + 1)
                   (nextCartItemId db) (nextOrderId db)
                   (nextOrderItemId db) (nextUserId db)).

(** [a || b] *)
Definition or_else (a b : val) : val := if truthy a then a else b.

(** POST /: create a product. *)
Definition create (name description price imageUrl stock category : val)
           (db : DB) : DB * response :=
  if negb (truthy name) || negb (truthy description)
     || negb (truthy price) || negb (truthy category)
  then (db, error_json 400 "Missing required fields")
  else
    let data : option Product :=
      n ← Column.str name;
      d ← Column.str description;
      pr ← Column.decimal (parseFloat price);
      img ← Column.str_opt (or_else imageUrl JNull);
      st ← Column.int (or_else stock (JNum (NInt 0)));
      c ← Column.str category;
      Some (mkProduct n d pr img st c default_isEcoFriendly
                      default_carbonFootprint default_plasticContent) in
    match data with
    | None => (db, error_json 500 "Failed to create product")
    | Some p =>
        match product_create p db with
        | None => (db, error_json 500 "Failed to create product")
        | Some (id, db') => (db', status_json 201 (BProduct id p))
        end
    end.

(** One field of [updateData]: left out of it when the request leaves it
    out, refused when the column does not take the value. A field that is
    there goes into [data] as it came (the price through [parseFloat]). *)
Definition field {A} (v : val) (col : val -> option A) : option (option A) :=
  match v with
  | JUndefined => Some None
  | _ => match col v with Some a => Some (Some a) | None => None end
  end.

(** The [data] of the update, checked against the columns. *)
Record UpdateData : Type := mkUpdateData {
  d_name : option string;
  d_description : option string;
  d_price : option float64;
  d_imageUrl : option (option string);
  d_stock : option Column.int_write;
  d_category : option string
}.

(** [None] when the client refuses the request: the check does not look
    at the row. *)
Definition updateData (name description price imageUrl stock category : val)
  : option UpdateData :=
  n ← field name Column.str_data;
  d ← field description Column.str_data;
  pr ← field price (fun v => Column.decimal (parseFloat v));
  img ← field imageUrl Column.str_opt_data;
  st ← field stock Column.int_data;
  c ← field category Column.str_data;
  Some (mkUpdateData n d pr img st c).

(** The row after the update; [None] when the store raises. *)
Definition write (data : UpdateData) (p : Product) : option Product :=
  st ← match d_stock data with
       | None => Some (p_stock p)
       | Some w => Column.int_apply w (p_stock p)
       end;
  Some (mkProduct (default (p_name p) (d_name data))
                  (default (p_description p) (d_description data))
                  (default (p_price p) (d_price data))
                  (default (p_imageUrl p) (d_imageUrl data))
                  st
                  (default (p_category p) (d_category data))
                  (p_isEcoFriendly p) (p_carbonFootprint p)
                  (p_plasticContent p)).

(** PUT /:id: update a product. *)
Definition update (id : string)
           (name description price imageUrl stock category : val)
           (db : DB) : DB * response :=
  match updateData name description price imageUrl stock category with
  | None => (db, error_json 500 "Failed to update product")
  | Some data =>
      match where_int (JStr id) with
      | None => (db, error_json 500 "Failed to update product")
      | Some n =>
          match products db !! n with
          | None => (db, error_json 404 "Product not found")
          | Some p =>
              match write data p with
              | None => (db, error_json 500 "Failed to update product")
              | Some p' =>
                  (with_products (<[n := p']> (products db)) db,
                   json (BProduct n p'))
              end
          end
      end
  end.

Definition referenced_by_cart (n : Z) (db : DB) : bool :=
  existsb (fun c => bool_decide (ci_productId c = n)) (cartItems db).

Definition referenced_by_order (n : Z) (db : DB) : bool :=
  existsb (fun i => bool_decide (oi_productId i = n)) (orderItems db).

(** [delete({ where: { id } })] of a product that exists. *)
Definition product_delete (n : Z) : Tx unit :=
  fun db =>
    let blocked :=
      (match cartItem_onProductDelete with
       | Restrict => referenced_by_cart n db | Cascade => false end)
      || (match orderItem_onProductDelete with
          | Restrict => referenced_by_order n db | Cascade => false end) in
    if blocked then None
    else
      Some (tt, mkDB (delete n (products db))
                     (filter (fun c => ci_productId c <> n) (cartItems db))
                     (orders db)
                     (filter (fun i => oi_productId i <> n) (orderItems db))
                     (users db) (nextProductId db) (nextCartItemId db)
                     (nextOrderId db) (nextOrderItemId db) (nextUserId db)).

(** DELETE /:id: delete a product. *)
Definition remove (id : string) (db : DB) : DB * response :=
  match where_int (JStr id) with
  | None => (db, error_json 500 "Failed to delete product")
  | Some n =>
      match products db !! n with
      | None => (db, error_json 404 "Product not found")
      | Some _ =>
          match product_delete n db with
          | None => (db, error_json 500 "Failed to delete product")
          | Some (_, db') =>
              (db', json (BMessage "Product deleted successfully"))
          end
      end
  end.

End Routes.
End Products.

(** ** Registration ([backend/routes/auth.js]) *)

Module Auth.
Section Routes.
Context `{Runtime} `{Schema}.

Definition user_findUnique_email (email : string) (db : DB)
  : option (Z * User) :=
  List.find (fun iu => String.eqb (u_email iu.2) email)
            (map_to_list (users db)).

Definition user_create (u : User) : Tx Z :=
  fun db =>
    let id := nextUserId db in
    Some (id, mkDB (products db) (cartItems db) (orders db)
                   (orderItems db) (<[id := u]> (users db))
                   (nextProductId db) (nextCartItemId db) (nextOrderId db)
                   (nextOrderItemId db) (id + 1)).

(** [role === 'admin' ? 'admin' : 'user'] *)
Definition role_of (role : val) : string :=
  match role with
  | JStr r => if String.eqb r "admin" then "admin" else "user"
  | _ => "user"
  end.

(** POST /register, when the clock reads [now] *)
Definition register (now : Z) (email password name role : val) (db : DB)
  : DB * response :=
  if negb (truthy email) || negb (truthy password) || negb (truthy name)
  then (db, error_json 400 "All fields are required")
  else
    match Column.str email with
    | None => (db, error_json 500 "Failed to register user")
    | Some e =>
        match user_findUnique_email e db with
        | Some _ => (db, error_json 400 "User already exists")
        | None =>
            match Column.str password, Column.str name with
            | Some pw, Some n =>
                let u := mkUser e (bcrypt_hash pw) n (role_of role)
                                default_greenPoints default_totalCO2Saved
                                default_totalPlasticSaved in
                match user_create u db with
                | None => (db, error_json 500 "Failed to register user")
                | Some (id, db') =>
                    (db', status_json 201
                            (BUser id u (jwt_sign id (u_role u) now)))
                end
            | _, _ => (db, error_json 500 "Failed to register user")
            end
        end
    end.

End Routes.
End Auth.

(** ** Cart impact (the sustainability router) *)

Module Sustainability.
Section Routes.
Context `{Runtime}.

Definition pow10 (f : nat) : Z := 10 ^ Z.of_nat f.

(** The integer [n] for which [n / 10^f - m * 2^e] is closest to zero, the
    larger one of two. *)
Definition nearest (f : nat) (m : positive) (e : Z) : Z :=
  if 0 <=? e then Z.pos m * 2 ^ e * pow10 f
  else (2 * Z.pos m * pow10 f + 2 ^ (- e)) / 2 ^ (- e + 1).

Definition digits (n : Z) : string :=
  DecimalString.NilZero.string_of_uint (N.to_uint (Z.to_N n)).

Fixpoint zeros (k : nat) : string :=
  match k with O => "" | S k' => String "0"%char (zeros k') end.

(** The decimal digits of [n] with a point before the last [f] of them. *)
Definition point (f : nat) (n : Z) : string :=
  let m := digits n in
  match f with
  | O => m
  | _ =>
      let m := if (String.length m <=? f)%nat
               then String.append (zeros (f + 1 - String.length m)) m
               else m in
      let k := String.length m in
      String.append (substring 0 (k - f) m)
                    (String "."%char (substring (k - f) f m))
  end.

(** [x.toFixed(f)] *)
Definition toFixed (x : float64) (f : nat) : string :=
  match x with
  | S754_nan => "NaN"
  | S754_infinity false => "Infinity"
  | S754_infinity true => "-Infinity"
  | S754_zero _ => point f 0
  | S754_finite s m e =>
      if (if 0 <=? e then 10 ^ 21 <=? Z.pos m * 2 ^ e
          else 10 ^ 21 * 2 ^ (- e) <=? Z.pos m)
      then NumberToString (NFloat x)
      else String.append (if s then "-" else "") (point f (nearest f m e))
  end.

(** [Math.floor] of a product of integers *)
Definition Math_floor (z : Z) : Z := z.

Record Tally : Type := mkTally {
  t_totalCO2 : float64;
  t_totalPlastic : float64;
  t_ecoFriendlyCount : Z
}.

(** The body of the [forEach]. *)
Definition tally (t : Tally) (line : CartItem * Product) : Tally :=
  let (item, product) := line in
  mkTally
    (fadd (t_totalCO2 t)
          (fmul (p_carbonFootprint product) (of_Z (ci_quantity item))))
    (fadd (t_totalPlastic t)
          (fmul (p_plasticContent product) (of_Z (ci_quantity item))))
    (if p_isEcoFriendly product then t_ecoFriendlyCount t + 1
     else t_ecoFriendlyCount t).

Definition impact (cartItems : list (CartItem * Product)) : Impact :=
  let t := fold_left tally cartItems (mkTally (of_Z 0) (of_Z 0) 0) in
  let ecoFriendlyCount := t_ecoFriendlyCount t in
  let len := Z.of_nat (length cartItems) in
  mkImpact
    (toFixed (t_totalCO2 t) 2)
    (toFixed (t_totalPlastic t) 2)
    ecoFriendlyCount
    len
    (Math_floor (ecoFriendlyCount * 10))
    (if 0 <? len
     then JStr (toFixed (fmul (fdiv (of_Z ecoFriendlyCount) (of_Z len))
                              (of_Z 100)) 1)
     else JNum (NInt 0)).

(** GET /cart-impact *)
Definition cart_impact (uid : Z) (db : DB) : DB * response :=
  match cartItem_findMany_include uid db with
  | None => (db, error_json 500 "Failed to calculate impact")
  | Some cartItems => (db, json (BImpact (impact cartItems)))
  end.

End Routes.
End Sustainability.

(** ** The application: requests handled one after another *)

Module App.
Section Server.
Context `{Runtime} `{Schema}.

(** A request as its route sees it once the middleware has run: [uid] is
    [req.userId]; the product routes are behind the admin middleware. *)
Inductive request : Type :=
| Register (now : Z) (email password name role : val)
| CartAdd (uid : Z) (productId quantity : val)
| CartUpdate (uid : Z) (id : string) (quantity : val)
| CartRemove (uid : Z) (id : string)
| CartClear (uid : Z)
| CartImpact (uid : Z)
| Checkout (uid : Z)
| OrderGet (uid : Z) (id : string)
| OrderStatus (uid : Z) (id : string) (status : val)
| OrderCancel (uid : Z) (id : string)
| ProductCreate (name description price imageUrl stock category : val)
| ProductUpdate (id : string)
                (name description price imageUrl stock category : val)
| ProductDelete (id : string).

Definition handle (rq : request) (db : DB) : DB * response :=
  match rq with
  | Register now e p n r => Auth.register now e p n r db
  | CartAdd uid pid q => Cart.add pid q uid db
  | CartUpdate uid id q => Cart.update id q uid db
  | CartRemove uid id => Cart.remove id uid db
  | CartClear uid => Cart.clear uid db
  | CartImpact uid => Sustainability.cart_impact uid db
  | Checkout uid => Orders.create uid db
  | OrderGet uid id => Orders.get id uid db
  | OrderStatus uid id st => Orders.update id st uid db
  | OrderCancel uid id => Orders.cancel id uid db
  | ProductCreate n d p i s c => Products.create n d p i s c db
  | ProductUpdate id n d p i s c => Products.update id n d p i s c db
  | ProductDelete id => Products.remove id db
  end.

Definition empty_db : DB := mkDB ∅ [] ∅ [] ∅ 1 1 1 1 1.

(** The stores the server can be in, started on [db0], when every
    request it has handled satisfies [P]. *)
Inductive reachable_by (P : request -> Prop) (db0 : DB) : DB -> Prop :=
| reachable_start : reachable_by P db0 db0
| reachable_handle rq db :
    reachable_by P db0 db -> P rq -> reachable_by P db0 (handle rq db).1.

(** The stores the server can be in, started on [db0]. *)
Definition reachable : DB -> DB -> Prop := reachable_by (fun _ => True).

(** A quantity or a stock as the client's forms send it: not a number
    with a fraction and not an object. *)
Definition whole (v : val) : Prop :=
  match v with
  | JNum (NFloat _) | JObj _ => False
  | _ => True
  end.

(** The request carries no fraction and no object as a cart quantity. *)
Definition whole_quantities (rq : request) : Prop :=
  match rq with
  | CartAdd _ _ quantity | CartUpdate _ _ quantity => whole quantity
  | _ => True
  end.


(** Run a list of requests; the responses come back in order. *)
Fixpoint run (rqs : list request) (db : DB) : DB * list response :=
  match rqs with
  | [] => (db, [])
  | rq :: rest =>
      let out := handle rq db in
      let outs := run rest out.1 in
      (outs.1, out.2 :: outs.2)
  end.

End Server.
End App.

(** ** A runtime and a schema to evaluate examples with

    The runtime agrees with the language on what the examples below pass
    to it: numbers, strings that are decimal numerals without an exponent,
    and plain objects. It prints integral numbers only: no example has
    the string of a number with a fraction taken. The schema has [Decimal]
    columns of scale 2. *)

Module Example.

Definition digit (c : ascii) : option Z :=
  let n := Z.of_nat (nat_of_ascii c) in
  if (48 <=? n) && (n <=? 57) then Some (n - 48) else None.

(** The value of the longest prefix of decimal digits after [acc]. *)
Fixpoint digits_prefix (s : string) (acc : option Z) : option Z :=
  match s with
  | EmptyString => acc
  | String c rest =>
      match digit c with
      | Some d => digits_prefix rest (Some (10 * default 0 acc + d))
      | None => acc
      end
  end.

Definition parseInt_string (s : string) : option Z :=
  match s with
  | String "-"%char rest => Z.opp <$> digits_prefix rest None
  | String "+"%char rest => digits_prefix rest None
  | _ => digits_prefix s None
  end.

(** The decimal digits at the start of a string, and what follows them. *)
Fixpoint span_digits (s : string) : list Z * string :=
  match s with
  | EmptyString => ([], s)
  | String c rest =>
      match digit c with
      | Some d => let (ds, r) := span_digits rest in (d :: ds, r)
      | None => ([], s)
      end
  end.

Definition number_of (ds : list Z) : Z :=
  fold_left (fun a d => 10 * a + d) ds 0.

(** A numeral at the start of a string: sign, digits, and the digits after
    a point; then what follows the numeral. *)
Definition numeral (s : string) : bool * list Z * list Z * string :=
  let (neg, body) :=
    match s with
    | String "-"%char r => (true, r)
    | String "+"%char r => (false, r)
    | _ => (false, s)
    end in
  let (ip, rest) := span_digits body in
  match rest with
  | String "."%char r => let (fp, rest') := span_digits r in
                         (neg, ip, fp, rest')
  | _ => (neg, ip, [], rest)
  end.

(** The number a numeral stands for. *)
Definition numeral_value (neg : bool) (ip fp : list Z) : num :=
  match fp with
  | [] => NInt (if neg then - number_of ip else number_of ip)
  | _ =>
      let x := fdiv (of_Z (number_of (ip ++ fp)))
                    (of_Z (10 ^ Z.of_nat (length fp))) in
      NFloat (if neg then SFopp x else x)
  end.

Definition parseFloat_string (s : string) : float64 :=
  let '(neg, ip, fp, _) := numeral s in
  match ip, fp with
  | [], [] => S754_nan
  | _, _ => to_float (numeral_value neg ip fp)
  end.

(** [Number(s)]: the whole string has to be a numeral; the empty string
    is 0. *)
Definition StringToNumber_string (s : string) : num :=
  match s with
  | EmptyString => NInt 0
  | _ =>
      let '(neg, ip, fp, rest) := numeral s in
      match ip, fp, rest with
      | [], [], _ => NFloat S754_nan
      | _, _, EmptyString => numeral_value neg ip fp
      | _, _, _ => NFloat S754_nan
      end
  end.

(** [parseInt] of a value: of its string, which for an array starts with
    the string of its first element. *)
Fixpoint parseInt_val (v : val) : option Z :=
  match v with
  | JNum (NInt z) => Some z
  | JNum (NFloat x) => Column.trunc x
  | JStr s => parseInt_string s
  | JArr (x :: _) =>
      match x with
      | JUndefined | JNull => None
      | _ => parseInt_val x
      end
  | _ => None
  end.

Fixpoint parseFloat_val (v : val) : float64 :=
  match v with
  | JNum n => to_float n
  | JStr s => parseFloat_string s
  | JArr (x :: _) =>
      match x with
      | JUndefined | JNull => S754_nan
      | _ => parseFloat_val x
      end
  | _ => S754_nan
  end.

#[export] Instance runtime : Runtime := {|
  parseInt := parseInt_val;
  parseFloat := parseFloat_val;
  StringToNumber := StringToNumber_string;
  NumberToString n :=
    match n with
    | NInt z =>
        String.append (if z <? 0 then "-" else "")
                      (Sustainability.digits (Z.abs z))
    | NFloat _ => "NaN"
    end;
  bcrypt_hash pw := String.append "$2b$10$" pw;
  jwt_sign id role now :=
    String.append role
      (String.append (Sustainability.digits id)
         (String.append "@" (Sustainability.digits now)))
|}.

(** A number rounded to two decimal places, half away from zero: the
    binary64 value itself is rounded, which is what the column does on
    the numbers of the examples (none is within an ulp of a tie). *)
Definition round2 (x : float64) : float64 :=
  match x with
  | S754_finite s m e =>
      let n := Sustainability.nearest 2 m e in
      fdiv (of_Z (if s then - n else n)) (of_Z 100)
  | _ => x
  end.

#[export] Instance schema : Schema := {|
  default_isEcoFriendly := false;
  default_carbonFootprint := of_Z 0;
  default_plasticContent := of_Z 0;
  default_greenPoints := 0;
  default_totalCO2Saved := of_Z 0;
  default_totalPlasticSaved := of_Z 0;
  decimal_column := round2;
  cartItem_onProductDelete := Cascade;
  orderItem_onProductDelete := Restrict
|}.

(** Product A with 5 in stock, and user 7 with 3 of it in the cart. *)
Definition productA : Product :=
  mkProduct "A" "the first product" (of_Z 10) None 5 "misc" true
            (of_Z 2) (of_Z 1).

Definition lineA : CartItem := mkCartItem 1 7 1 3.

Definition shop : DB := mkDB {[1 := productA]} [lineA] ∅ [] ∅ 2 2 1 1 1.

(** The same with 2 in stock. *)
Definition shop_short : DB :=
  mkDB {[1 := set_stock 2 productA]} [lineA] ∅ [] ∅ 2 2 1 1 1.

(** User 7 has a shipped order 4 and a pending order 5; user 8 has the
    pending order 6. *)
Definition shop_orders : DB :=
  mkDB {[1 := productA]} []
       {[4 := mkOrder 7 (of_Z 10) "shipped"; 5 := mkOrder 7 (of_Z 20) "pending";
         6 := mkOrder 8 (of_Z 10) "pending"]}
       [mkOrderItem 1 4 1 1 (of_Z 10); mkOrderItem 2 5 1 2 (of_Z 10);
        mkOrderItem 3 6 1 1 (of_Z 10)]
       ∅ 2 1 7 4 1.

(** A cart of five lines, the first two of eco-flagged products. *)
Definition plain (name : string) : Product :=
  mkProduct name "" (of_Z 1) None 9 "misc" false (of_Z 3) (of_Z 4).

Definition eco (name : string) : Product :=
  mkProduct name "" (of_Z 1) None 9 "misc" true (of_Z 1) (of_Z 0).

Definition shop_five : DB :=
  mkDB {[1 := eco "a"; 2 := eco "b"; 3 := plain "c"; 4 := plain "d";
         5 := plain "e"]}
       [mkCartItem 1 7 1 1; mkCartItem 2 7 2 2; mkCartItem 3 7 3 1;
        mkCartItem 4 7 4 1; mkCartItem 5 7 5 3]
       ∅ [] ∅ 6 6 1 1 1.

(** An admin creates a product with stock -5. *)
Definition create_negative : App.request :=
  App.ProductCreate (JStr "B") (JStr "second") (JNum (NInt 4)) JUndefined
                    (JNum (NInt (-5))) (JStr "misc").

(** An admin creates A with 5 in stock; user 7 puts 1 in the cart, sets
    the line with an update-operation object, and checks out; user 8 buys
    10; user 7 cancels. *)
Definition set_negative_quantity : list App.request :=
  [App.ProductCreate (JStr "A") (JStr "first") (JNum (NInt 10)) JUndefined
                     (JNum (NInt 5)) (JStr "misc");
   App.CartAdd 7 (JNum (NInt 1)) (JNum (NInt 1));
   App.CartUpdate 7 "1" (JObj [("set", JNum (NInt (-5)))]);
   App.Checkout 7;
   App.CartAdd 8 (JNum (NInt 1)) (JNum (NInt 10));
   App.Checkout 8;
   App.OrderCancel 7 "1"].

End Example.

(** ** The routes that only read, login, preferences, ranking and the
    client's cart page

    A route that only reads is a function from the store to what it
    answers. *)

Inductive reply (A : Type) : Type :=
| Json (status : nat) (value : A)
| Failed (status : nat) (error : string).
Arguments Json {A} status value.
Arguments Failed {A} status error.

Module Queries.
Section Routes.
Context `{Runtime}.

(** GET /cart *)
Definition cart_get (uid : Z) (db : DB) : reply (list (CartItem * Product)) :=
  match cartItem_findMany_include uid db with
  | None => Failed 500 "Failed to fetch cart"
  | Some cartItems => Json 200 cartItems
  end.

(** GET /products/:id *)
Definition product_get (id : string) (db : DB) : reply (Z * Product) :=
  match where_int (JStr id) with
  | None => Failed 500 "Failed to fetch product"
  | Some n =>
      match products db !! n with
      | None => Failed 404 "Product not found"
      | Some product => Json 200 (n, product)
      end
  end.

End Routes.
End Queries.

(** [bcrypt.compare(password, hash)], taken as given like the runtime. *)
Class Bcrypt : Type := {
  bcrypt_compare : string -> string -> bool
}.

(** ** Login ([backend/routes/auth.js]) *)

Module Login.
Section Routes.
Context `{Runtime} `{Bcrypt}.

(** The [user] and [token] of a successful login. *)
Record Session : Type := mkSession {
  s_id : Z;
  s_email : string;
  s_name : string;
  s_role : string;
  s_token : string
}.

(** POST /login, when the clock reads [now] *)
Definition login (now : Z) (email password : val) (db : DB)
  : reply Session :=
  if negb (truthy email) || negb (truthy password)
  then Failed 400 "Email and password are required"
  else
    match Column.str email with
    | None => Failed 500 "Failed to login"
    | Some e =>
        match Auth.user_findUnique_email e db with
        | None => Failed 401 "Invalid credentials"
        | Some (id, user) =>
            match Column.str password with
            | None => Failed 500 "Failed to login"
            | Some pw =>
                if negb (bcrypt_compare pw (u_password user))
                then Failed 401 "Invalid credentials"
                else Json 200 (mkSession id (u_email user) (u_name user)
                                         (u_role user)
                                         (jwt_sign id (u_role user) now))
            end
        end
    end.

End Routes.
End Login.

(** ** Preferences (the sustainability router)

    The routes touch the preference table only, which has one row per
    user at most: a finite map from the user's id. *)

(** Modelled from the spec: the schema is not among the sources; a user's
    settings are the packaging preference, a notification opt-in and the
    footprint display toggle. *)
Record UserPreference : Type := mkUserPreference {
  packagingPreference : string;
  notifyGreenDeals : bool;
  showCarbonFootprint : bool
}.

(** The defaults of the table's columns: the schema is not among the
    sources. *)
Class PreferenceDefaults : Type := {
  default_packagingPreference : string;
  default_notifyGreenDeals : bool;
  default_showCarbonFootprint : bool
}.

Module Preferences.
Section Routes.
Context `{PreferenceDefaults}.

Definition bool_column (v : val) : option bool :=
  match v with JBool b => Some b | _ => None end.

(** A field of [data]: [undefined] leaves the column as it is (or at its
    default); a value of another type makes the query throw. *)
Definition data_field {A} (v : val) (col : val -> option A) (old : A)
  : option A :=
  match v with
  | JUndefined => Some old
  | _ => col v
  end.

Definition data (packaging notify footprint : val) (old : UserPreference)
  : option UserPreference :=
  p ← data_field packaging Column.str (packagingPreference old);
  n ← data_field notify bool_column (notifyGreenDeals old);
  f ← data_field footprint bool_column (showCarbonFootprint old);
  Some (mkUserPreference p n f).

Definition defaults : UserPreference :=
  mkUserPreference default_packagingPreference default_notifyGreenDeals
                   default_showCarbonFootprint.

(** GET /preferences: the row of the caller, created on first read. *)
Definition get (uid : Z) (prefs : gmap Z UserPreference)
  : gmap Z UserPreference * reply UserPreference :=
  match prefs !! uid with
  | Some preferences => (prefs, Json 200 preferences)
  | None => (<[uid := defaults]> prefs, Json 200 defaults)
  end.

(** PUT /preferences: [upsert]. *)
Definition put (packaging notify footprint : val) (uid : Z)
           (prefs : gmap Z UserPreference)
  : gmap Z UserPreference * reply UserPreference :=
  match data packaging notify footprint
             (default defaults (prefs !! uid)) with
  | None => (prefs, Failed 500 "Failed to update preferences")
  | Some preferences => (<[uid := preferences]> prefs, Json 200 preferences)
  end.

End Routes.
End Preferences.

(** ** Dashboard and leaderboard (the sustainability router) *)

Module Ranking.
Section Routes.

(** [orderBy: { greenPoints: 'desc' }]: [a] may come before [b]. The order
    among users with the same points is the store's; here it is the one
    of a stable sort. *)
Definition by_points_desc (a b : Z * User) : Prop :=
  u_greenPoints b.2 <= u_greenPoints a.2.

#[export] Instance by_points_desc_dec a b : Decision (by_points_desc a b).
Proof. unfold by_points_desc. apply _. Defined.

Definition users_by_points (db : DB) : list (Z * User) :=
  merge_sort by_points_desc (map_to_list (users db)).

(** The columns the leaderboard selects. *)
Record Entry : Type := mkEntry {
  e_name : string;
  e_greenPoints : Z;
  e_totalCO2Saved : float64;
  e_totalPlasticSaved : float64
}.

Definition entry (iu : Z * User) : Entry :=
  mkEntry (u_name iu.2) (u_greenPoints iu.2) (u_totalCO2Saved iu.2)
          (u_totalPlasticSaved iu.2).

(** GET /leaderboard *)
Definition leaderboard (db : DB) : reply (list Entry) :=
  Json 200 (entry <$> take 10 (users_by_points db)).

(** [l.findIndex(f)] *)
Fixpoint findIndex {A} (f : A -> bool) (l : list A) : Z :=
  match l with
  | [] => -1
  | x :: rest =>
      if f x then 0
      else let i := findIndex f rest in if i <? 0 then -1 else i + 1
  end.

(** The orders of the user with their items, each with its product. *)
Definition ecoOrders (uid : Z) (db : DB)
  : option (list (list (OrderItem * Product))) :=
  mapM (fun io => include_items io.1 db)
       (filter (fun io : Z * Order => o_userId io.2 = uid)
               (map_to_list (orders db))).

(** The [reduce] over the orders. *)
Definition ecoProductCount (orders : list (list (OrderItem * Product))) : Z :=
  fold_left
    (fun count orderItems =>
       count + Z.of_nat (length (List.filter
                                   (fun item => p_isEcoFriendly item.2)
                                   orderItems)))
    orders 0.

Record Dashboard : Type := mkDashboard {
  (** [...user]: nothing when there is no such user *)
  d_user : option (Z * float64 * float64);
  ecoProductsPurchased : Z;
  globalRank : Z;
  totalUsers : Z
}.

(** GET /dashboard *)
Definition dashboard (uid : Z) (db : DB) : reply Dashboard :=
  let user := (fun u => (u_greenPoints u, u_totalCO2Saved u,
                         u_totalPlasticSaved u)) <$> users db !! uid in
  match ecoOrders uid db with
  | None => Failed 500 "Failed to fetch dashboard"
  | Some orders =>
      let allUsers := users_by_points db in
      let userRank :=
        findIndex (fun u : Z * User => bool_decide (u.1 = uid)) allUsers + 1 in
      Json 200 (mkDashboard user (ecoProductCount orders) userRank
                            (Z.of_nat (length allUsers)))
  end.

End Routes.
End Ranking.

(** ** The client's cart page ([frontend/src/main.js]) *)

Module Client.

(** The total [renderCart] shows, before [toFixed(2)]: a [reduce] over the
    cart as GET /cart returned it. *)
Definition renderCart_total (cart : list (CartItem * Product)) : float64 :=
  fold_left (fun sum item =>
               fadd sum (fmul (p_price item.2) (of_Z (ci_quantity item.1))))
            cart (of_Z 0).

(** The number [updateCartBadge] shows. *)
Definition updateCartBadge (cart : list (CartItem * Product)) : Z :=
  fold_left (fun sum item => sum + ci_quantity item.1) cart 0.

End Client.

(** Instances to evaluate examples with. *)
Module Example2.

#[export] Instance bcrypt : Bcrypt := {|
  bcrypt_compare pw hash := String.eqb hash (String.append "$2b$10$" pw)
|}.

#[export] Instance preference_defaults : PreferenceDefaults := {|
  default_packagingPreference := "standard";
  default_notifyGreenDeals := true;
  default_showCarbonFootprint := true
|}.

(** Three users: 1 has 50 points, 2 has 80, 3 has 50. *)
Definition member (name : string) (points : Z) : User :=
  mkUser (String.append name "@shop.example") "$2b$10$secret" name "user"
         points (of_Z 0) (of_Z 0).

Definition club : DB :=
  mkDB ∅ [] ∅ [] {[1 := member "ann" 50; 2 := member "bob" 80;
                   3 := member "cy" 50]} 1 1 1 1 4.

(** An admin creates product A with 5 in stock, user 7 puts 3 of it in
    the cart and checks out. *)
Definition visit : list App.request :=
  [App.ProductCreate (JStr "A") (JStr "first") (JNum (NInt 10)) JUndefined
                     (JNum (NInt 5)) (JStr "misc");
   App.CartAdd 7 (JNum (NInt 1)) (JNum (NInt 3))].

Definition purchase : list App.request := visit ++ [App.Checkout 7].

Definition productA' : Product :=
  mkProduct "A" "first" (of_Z 10) None 5 "misc" false (of_Z 0) (of_Z 0).

Definition dee : User :=
  mkUser "dee@shop.example" "$2b$10$pw" "dee" "user" 0 (of_Z 0) (of_Z 0).

End Example2.

(** ** What the claims speak of *)

(** The sum over the cart lines of unit price times quantity, as the
    route's arithmetic adds it up: from 0, in cart order. *)
Definition cart_total (lines : list (CartItem * Product)) : float64 :=
  fold_left (fun t l => fadd t (fmul (p_price l.2) (of_Z (ci_quantity l.1))))
            lines (of_Z 0).

(** The quantity of product [pid] on the cart lines. *)
Definition purchased (pid : Z) (lines : list (CartItem * Product)) : Z :=
  foldr (fun l acc => if bool_decide (ci_productId l.1 = pid)
                      then ci_quantity l.1 + acc else acc) 0 lines.

(** The quantity of product [pid] on the items of an order. *)
Definition ordered (pid : Z) (items : list OrderItem) : Z :=
  foldr (fun i acc => if bool_decide (oi_productId i = pid)
                      then oi_quantity i + acc else acc) 0 items.

(** The order items that order [oid] gets from the cart lines, numbered
    from [first]: product, quantity and the unit price of the moment. *)
Fixpoint snapshot (oid first : Z) (lines : list (CartItem * Product))
  : list OrderItem :=
  match lines with
  | [] => []
  | l :: rest =>
      mkOrderItem first oid (ci_productId l.1) (ci_quantity l.1) (p_price l.2)
      :: snapshot oid (first + 1) rest
  end.



(** The sum over the items of an order of price times quantity, added up
    from 0 in item order. *)
Definition items_total (items : list OrderItem) : float64 :=
  fold_left (fun t i => fadd t (fmul (oi_price i) (of_Z (oi_quantity i))))
            items (of_Z 0).

(** How many users have more than [p] points, and how many have at least
    [p]. *)
Definition users_above (p : Z) (db : DB) : nat :=
  length (filter (fun iu : Z * User => p < u_greenPoints iu.2)
                 (map_to_list (users db))).

Definition users_at_least (p : Z) (db : DB) : nat :=
  length (filter (fun iu : Z * User => p <= u_greenPoints iu.2)
                 (map_to_list (users db))).

(** Every cart line and every order item refers to a product that is in
    the store. *)
Definition ref_inv (db : DB) : Prop :=
  Forall (fun c => is_Some (products db !! ci_productId c)) (cartItems db)
  /\ Forall (fun i => is_Some (products db !! oi_productId i)) (orderItems db).

(** The cart lines whose product is flagged eco-friendly, and the others. *)
Definition eco_lines (lines : list (CartItem * Product)) : nat :=
  length (filter (fun l => p_isEcoFriendly l.2 = true) lines).

Definition plain_lines (lines : list (CartItem * Product)) : nat :=
  length (filter (fun l => p_isEcoFriendly l.2 = false) lines).

(** Order ids are handed out by the sequence: none at or past its next
    value is in use. *)
Definition order_seq_fresh (db : DB) : Prop :=
  (forall id, is_Some (orders db !! id) -> id < nextOrderId db)
  /\ Forall (fun i => oi_orderId i < nextOrderId db) (orderItems db).

(** The cart table: its primary key and its compound key (user, product)
    are keys, every quantity is at least 1, and the next id is new. *)
Definition cart_ok (cs : list CartItem) (next : Z) : Prop :=
  NoDup (ci_id <$> cs)
  /\ NoDup ((fun c => (ci_userId c, ci_productId c)) <$> cs)
  /\ Forall (fun c => 1 <= ci_quantity c /\ ci_id c < next) cs.

Definition cart_inv (db : DB) : Prop :=
  cart_ok (cartItems db) (nextCartItemId db).

(** The order tables: ids come from the sequence and every item has a
    quantity of at least 1. *)
Definition order_inv (db : DB) : Prop :=
  order_seq_fresh db /\ Forall (fun i => 1 <= oi_quantity i) (orderItems db).

(** The same tables with [Q] for what is asked of a quantity: with
    nothing asked, what is left is that the keys are keys and the ids come
    from the sequences. *)
Definition cart_table (Q : Z -> Prop) (cs : list CartItem) (next : Z)
  : Prop :=
  NoDup (ci_id <$> cs)
  /\ NoDup ((fun c => (ci_userId c, ci_productId c)) <$> cs)
  /\ Forall (fun c => Q (ci_quantity c) /\ ci_id c < next) cs.

Definition tables (Q : Z -> Prop) (db : DB) : Prop :=
  cart_table Q (cartItems db) (nextCartItemId db)
  /\ order_seq_fresh db
  /\ Forall (fun i => Q (oi_quantity i)) (orderItems db).

(** The cart table with its keys, whatever the quantities. *)
Definition cart_keyed (db : DB) : Prop :=
  cart_table (fun _ => True) (cartItems db) (nextCartItemId db).

(** Every quantity that the request can write to a cart line satisfies
    [Q], when the quantity the line has does. *)
Definition writes `{Runtime} (Q : Z -> Prop) (rq : App.request) : Prop :=
  match rq with
  | App.CartAdd _ _ quantity =>
      (forall q0 sum q,
         Q q0 -> truthy quantity = true ->
         val_lt_num quantity (NInt 1) = Some false ->
         plus (NInt q0) quantity = Some sum -> Column.int sum = Some q ->
         Q q)
      /\ (forall q,
            truthy quantity = true ->
            val_lt_num quantity (NInt 1) = Some false ->
            Column.int quantity = Some q -> Q q)
  | App.CartUpdate _ _ quantity =>
      forall w q0 q,
        Q q0 -> truthy quantity = true ->
        val_lt_num quantity (NInt 1) = Some false ->
        Column.int_data quantity = Some w ->
        Column.int_apply w q0 = Some q -> Q q
  | _ => True
  end.

(** The stock of every product is at least 0. *)
Definition stock_nonneg (db : DB) : Prop :=
  forall id p, products db !! id = Some p -> 0 <= p_stock p.

(** Case analysis on the next [match] of the goal, or of a hypothesis. *)
Ltac split_match :=
  match goal with
  | |- context [match ?x with _ => _ end] => destruct x eqn:?
  end.

Ltac split_match_in_hyp :=
  match goal with
  | H : context [match ?x with _ => _ end] |- _ => destruct x eqn:?
  end.

(** ** Stock updates in a loop *)

Section StockLoops.

Lemma add_stock_0 p : add_stock 0 p = p.
Proof. destruct p; unfold add_stock, set_stock; simpl. f_equal. lia. Qed.

Lemma add_stock_add a b p : add_stock a (add_stock b p) = add_stock (b + a) p.
Proof. unfold add_stock, set_stock; simpl. f_equal. lia. Qed.

Lemma product_update_Some id f p db :
  products db !! id = Some p ->
  product_update id f db
  = Some (f p, with_products (<[id := f p]> (products db)) db).
Proof. intros Hp. unfold product_update. by rewrite Hp. Qed.

(** Adding [d] to the stock of [id], seen from any product [pid]. *)
Lemma lookup_insert_add_stock (ps : gmap Z Product) id d p pid k :
  ps !! id = Some p ->
  add_stock k <$> (<[id := add_stock d p]> ps !! pid)
  = add_stock ((if bool_decide (id = pid) then d else 0) + k) <$> ps !! pid.
Proof.
  intros Hp. case_bool_decide as Hid.
  - subst pid. rewrite lookup_insert_eq, Hp. simpl. by rewrite add_stock_add.
  - by rewrite lookup_insert_ne.
Qed.

(** The loop of the checkout transaction, run on a store that has every
    product of the cart. *)
Lemma place_loop oid lines : forall db,
  Forall (fun l => is_Some (products db !! ci_productId l.1)) lines ->
  exists ps',
    for_of lines (fun line =>
        await _ <- orderItem_create oid (ci_productId line.1)
                     (ci_quantity line.1) (p_price line.2);
        await _ <- product_update (ci_productId line.1)
                     (add_stock (- ci_quantity line.1));
        ret tt) db
    = Some (tt, mkDB ps' (cartItems db) (orders db)
                     (orderItems db ++ snapshot oid (nextOrderItemId db) lines)
                     (users db) (nextProductId db) (nextCartItemId db)
                     (nextOrderId db)
                     (nextOrderItemId db + Z.of_nat (length lines))
                     (nextUserId db))
    /\ forall pid,
        ps' !! pid = add_stock (- purchased pid lines) <$> products db !! pid.
Proof.
  induction lines as [|l rest IH]; intros db Hall.
  - exists (products db). split.
    + destruct db; simpl. by rewrite app_nil_r, Z.add_0_r.
    + intros pid. simpl. destruct (products db !! pid); simpl; [|done].
      by rewrite add_stock_0.
  - inversion Hall as [|? ? [p Hp] Hrest]; subst.
    simpl. unfold bind at 1. unfold bind at 1. simpl.
    unfold bind at 1. rewrite (product_update_Some _ _ p) by done.
    simpl.
    edestruct (IH (with_products (<[ci_productId l.1 := add_stock (- ci_quantity l.1) p]> (products db))
                   (mkDB (products db) (cartItems db) (orders db)
                     (orderItems db ++ [mkOrderItem (nextOrderItemId db) oid (ci_productId l.1) (ci_quantity l.1) (p_price l.2)])
                     (users db) (nextProductId db) (nextCartItemId db) (nextOrderId db) (nextOrderItemId db + 1) (nextUserId db))))
      as (ps' & Hrun & Hlook).
    { simpl. eapply Forall_impl; [exact Hrest|]. intros l' Hl'. simpl in *.
      rewrite lookup_insert. case_decide; [by eexists|done]. }
    exists ps'. split.
    + etrans; [exact Hrun|]. simpl. do 3 f_equal.
      * by rewrite <- app_assoc.
      * lia.
    + intros pid. rewrite Hlook. simpl.
      rewrite (lookup_insert_add_stock _ _ _ p) by done.
      f_equal. f_equal. case_bool_decide; lia.
Qed.


(** The loop of the cancellation transaction. *)
Lemma restore_loop items : forall db,
  Forall (fun i => is_Some (products db !! oi_productId i)) items ->
  exists ps',
    for_of items (fun item =>
        await _ <- product_update (oi_productId item)
                     (add_stock (oi_quantity item));
        ret tt) db
    = Some (tt, with_products ps' db)
    /\ forall pid,
        ps' !! pid = add_stock (ordered pid items) <$> products db !! pid.
Proof.
  induction items as [|i rest IH]; intros db Hall.
  - exists (products db). split.
    + by destruct db.
    + intros pid. simpl. destruct (products db !! pid); simpl; [|done].
      by rewrite add_stock_0.
  - inversion Hall as [|? ? [p Hp] Hrest]; subst.
    simpl. unfold bind at 1. unfold bind at 1.
    rewrite (product_update_Some _ _ p) by done. simpl.
    edestruct (IH (with_products
                     (<[oi_productId i := add_stock (oi_quantity i) p]>
                        (products db)) db))
      as (ps' & Hrun & Hlook).
    { simpl. eapply Forall_impl; [exact Hrest|]. intros i' Hi'. simpl in *.
      rewrite lookup_insert. case_decide; [by eexists|done]. }
    exists ps'. split.
    + etrans; [exact Hrun|]. done.
    + intros pid. rewrite Hlook. simpl.
      rewrite (lookup_insert_add_stock _ _ _ p) by done.
      f_equal. f_equal. case_bool_decide; lia.
Qed.

Lemma ordered_snapshot pid oid first lines :
  ordered pid (snapshot oid first lines) = purchased pid lines.
Proof.
  revert first. induction lines as [|l rest IH]; intros first; simpl; [done|].
  by rewrite IH.
Qed.

End StockLoops.

(** ** Reading the cart *)

Section CartReads.

Lemma findMany_include_Some uid db lines :
  cartItem_findMany_include uid db = Some lines ->
  lines.*1 = cartItem_where_user uid db
  /\ Forall (fun l => products db !! ci_productId l.1 = Some l.2) lines.
Proof.
  unfold cartItem_findMany_include. rewrite mapM_Some.
  generalize (cartItem_where_user uid db). intros cs Hall.
  induction Hall as [|c l cs ls Hcl _ IH]; [done|].
  destruct IH as [IH1 IH2]. unfold include_product in Hcl.
  destruct (products db !! ci_productId c) as [p|] eqn:Hp; simplify_eq/=.
  split; [by f_equal|]. by constructor.
Qed.

Lemma where_user_deleteMany uid (cs : list CartItem) :
  filter (fun c => ci_userId c = uid) (filter (fun c => ci_userId c <> uid) cs)
  = [].
Proof.
  induction cs as [|c cs IH]; [done|].
  rewrite (filter_cons (fun c => ci_userId c <> uid)).
  case_decide; [|done]. rewrite filter_cons. by case_decide.
Qed.

End CartReads.

(** ** Checkout *)

Section Checkout.
Context `{Runtime} `{Schema}.

Lemma validate_enough lines : forall t,
  Forall (fun l => ci_quantity l.1 <= p_stock l.2) lines ->
  Orders.validate lines t
  = inr (fold_left
           (fun t l => fadd t (fmul (p_price l.2) (of_Z (ci_quantity l.1))))
           lines t).
Proof.
  induction lines as [|[c p] rest IH]; intros t Hall; [done|].
  inversion Hall; subst. simpl in *.
  destruct (Z.ltb_spec (p_stock p) (ci_quantity c)); [lia|]. by apply IH.
Qed.

Lemma validate_short lines : forall t,
  Exists (fun l => p_stock l.2 < ci_quantity l.1) lines ->
  exists l, l ∈ lines /\ p_stock l.2 < ci_quantity l.1
            /\ Orders.validate lines t = inl (p_name l.2).
Proof.
  induction lines as [|[c p] rest IH]; intros t Hex.
  - by apply Exists_nil in Hex.
  - simpl. destruct (Z.ltb_spec (p_stock p) (ci_quantity c)) as [Hlt|Hge].
    + exists (c, p). split; [by left|done].
    + apply Exists_cons in Hex as [Hhd|Htl]; [simpl in Hhd; lia|].
      destruct (IH (fadd t (fmul (p_price p) (of_Z (ci_quantity c)))) Htl)
        as (l & Hl & Hlt & Hv).
      exists l. split; [by right|done].
Qed.

Lemma filter_snapshot oid first lines :
  filter (fun i => oi_orderId i = oid) (snapshot oid first lines)
  = snapshot oid first lines.
Proof.
  revert first. induction lines as [|l rest IH]; intros first; [done|].
  simpl. rewrite filter_cons. simpl. case_decide; [|done]. by rewrite IH.
Qed.

Lemma filter_not_snapshot oid first lines :
  filter (fun i => oi_orderId i <> oid) (snapshot oid first lines) = [].
Proof.
  revert first. induction lines as [|l rest IH]; intros first; [done|].
  simpl. rewrite filter_cons. simpl. case_decide; [done|]. by rewrite IH.
Qed.

Lemma filter_older_items oid (items : list OrderItem) :
  Forall (fun i => oi_orderId i < oid) items ->
  filter (fun i => oi_orderId i = oid) items = []
  /\ filter (fun i => oi_orderId i <> oid) items = items.
Proof.
  induction 1 as [|i items Hi _ [IH1 IH2]]; [done|].
  rewrite !filter_cons. repeat case_decide; try lia. by rewrite IH1, IH2.
Qed.

(** The checkout transaction on a store that has every product of the
    cart: it commits, and this is the store it leaves. *)
Lemma place_commits uid total lines db :
  Forall (fun l => is_Some (products db !! ci_productId l.1)) lines ->
  exists ps',
    transaction (Orders.place uid total lines) db
    = Some (nextOrderId db,
            mkDB ps' (filter (fun c => ci_userId c <> uid) (cartItems db))
                 (<[nextOrderId db
                    := mkOrder uid (decimal_column total) "pending"]>
                    (orders db))
                 (orderItems db
                  ++ snapshot (nextOrderId db) (nextOrderItemId db) lines)
                 (users db) (nextProductId db) (nextCartItemId db)
                 (nextOrderId db + 1)
                 (nextOrderItemId db + Z.of_nat (length lines))
                 (nextUserId db))
    /\ forall pid,
        ps' !! pid = add_stock (- purchased pid lines) <$> products db !! pid.
Proof.
  intros Hall. unfold transaction, Orders.place.
  unfold bind at 1. simpl. unfold bind at 1.
  edestruct (place_loop (nextOrderId db) lines
               (mkDB (products db) (cartItems db)
                     (<[nextOrderId db
                        := mkOrder uid (decimal_column total) "pending"]>
                        (orders db))
                     (orderItems db) (users db) (nextProductId db)
                     (nextCartItemId db) (nextOrderId db + 1)
                     (nextOrderItemId db) (nextUserId db)))
    as (ps' & Hrun & Hlook); [exact Hall|].
  exists ps'. split; [|exact Hlook].
  simpl in Hrun. rewrite Hrun. done.
Qed.

End Checkout.

Lemma include_snapshot (ps : gmap Z Product) oid lines : forall first,
  Forall (fun l => is_Some (ps !! ci_productId l.1)) lines ->
  exists sent,
    mapM (fun i => p ← ps !! oi_productId i; Some (i, p))
         (snapshot oid first lines) = Some sent
    /\ sent.*1 = snapshot oid first lines.
Proof.
  induction lines as [|l rest IH]; intros first Hall.
  - by exists [].
  - inversion Hall as [|? ? [p Hp] Hrest]; subst.
    destruct (IH (first + 1) Hrest) as (sent & Hm & Hs).
    eexists (_ :: sent). simpl. rewrite Hp. simpl. rewrite Hm. simpl.
    split; [done|]. by f_equal.
Qed.

(** Checkout of a cart that is not empty and is covered by the stock:
    the response and the store it leaves, written out. *)
Lemma create_commits `{Runtime} `{Schema} uid db lines :
  order_seq_fresh db ->
  cartItem_findMany_include uid db = Some lines ->
  lines <> [] ->
  Forall (fun l => ci_quantity l.1 <= p_stock l.2) lines ->
  exists ps' sent,
    Orders.create uid db
    = (mkDB ps' (filter (fun c => ci_userId c <> uid) (cartItems db))
            (<[nextOrderId db
               := mkOrder uid (decimal_column (cart_total lines)) "pending"]>
               (orders db))
            (orderItems db
             ++ snapshot (nextOrderId db) (nextOrderItemId db) lines)
            (users db) (nextProductId db) (nextCartItemId db)
            (nextOrderId db + 1)
            (nextOrderItemId db + Z.of_nat (length lines))
            (nextUserId db),
       status_json 201
         (BOrder (nextOrderId db)
                 (mkOrder uid (decimal_column (cart_total lines)) "pending")
                 sent))
    /\ sent.*1 = snapshot (nextOrderId db) (nextOrderItemId db) lines
    /\ (forall pid,
         ps' !! pid = add_stock (- purchased pid lines) <$> products db !! pid)
    /\ orders db !! nextOrderId db = None
    /\ filter (fun i => oi_orderId i = nextOrderId db) (orderItems db) = []
    /\ filter (fun i => oi_orderId i <> nextOrderId db) (orderItems db)
       = orderItems db.
Proof.
  intros [Hfresh Hold] Hread Hne Hstock.
  destruct (findMany_include_Some _ _ _ Hread) as [Hfst Hprod].
  assert (Hsome : Forall (fun l => is_Some (products db !! ci_productId l.1))
                         lines).
  { eapply Forall_impl; [exact Hprod|]. intros l Hl. simpl in *. eauto. }
  destruct (place_commits uid (cart_total lines) lines db Hsome)
    as (ps' & Hrun & Hlook).
  assert (Hnone : orders db !! nextOrderId db = None).
  { destruct (orders db !! nextOrderId db) eqn:Ho; [|done].
    assert (nextOrderId db < nextOrderId db); [|lia].
    apply Hfresh. rewrite Ho. by eexists. }
  destruct (filter_older_items _ _ Hold) as [Hold1 Hold2].
  destruct (include_snapshot ps' (nextOrderId db) lines (nextOrderItemId db))
    as (sent & Hmap & Hsent).
  { eapply Forall_impl; [exact Hsome|]. intros l [p Hp]. simpl.
    rewrite Hlook, Hp. by eexists. }
  assert (Hlen : (length lines =? 0)%nat = false) by (by destruct lines).
  exists ps', sent. unfold Orders.create. rewrite Hread, Hlen.
  rewrite (validate_enough lines (of_Z 0) Hstock).
  fold (cart_total lines). rewrite Hrun. cbn [orders].
  rewrite lookup_insert_eq.
  unfold Orders.order_with_items, include_items, orderItems_of.
  cbn [orderItems products cartItems users].
  rewrite filter_app, Hold1, filter_snapshot, app_nil_l, Hmap.
  cbn [mbind option_bind]. done.
Qed.


(** ** The claims about checkout *)

Section CheckoutClaims.
Context `{Runtime} `{Schema}.




(** C2. Checkout of an empty cart answers 400 [Cart is empty]; checkout of
    a cart with a line whose product has less stock than the line asks
    for answers 400 [Insufficient stock for] and the name of the first such
    product; in both cases, and whenever the answer is 400, the store after
    the call is the store before it. *)
Theorem checkout_rejected_unchanged uid db :
  (cartItem_where_user uid db = [] ->
   Orders.create uid db = (db, error_json 400 "Cart is empty"))
  /\ (forall lines,
        cartItem_findMany_include uid db = Some lines ->
        Exists (fun l => p_stock l.2 < ci_quantity l.1) lines ->
        exists l, l ∈ lines /\ p_stock l.2 < ci_quantity l.1
          /\ Orders.create uid db
             = (db, error_json 400
                      (String.append "Insufficient stock for " (p_name l.2))))
  /\ (forall db' r,
        Orders.create uid db = (db', r) -> r_status r = 400%nat -> db' = db).
Proof.
  split_and!.
  - intros Hempty. unfold Orders.create, cartItem_findMany_include.
    by rewrite Hempty.
  - intros lines Hread Hshort.
    destruct (validate_short lines (of_Z 0) Hshort) as (l & Hl & Hlt & Hv).
    exists l. split_and!; [done..|].
    unfold Orders.create. rewrite Hread.
    destruct lines; [by apply Exists_nil in Hshort|]. simpl length.
    cbn [Nat.eqb]. by rewrite Hv.
  - intros db' r. unfold Orders.create.
    destruct (cartItem_findMany_include uid db) as [lines|];
      [|by intros [= <- <-]].
    destruct (length lines =? 0)%nat; [by intros [= <- <-]|].
    destruct (Orders.validate lines (of_Z 0)); [by intros [= <- <-]|].
    destruct (transaction _ db) as [[order db1]|]; [|by intros [= <- <-]].
    destruct (orders db1 !! order); [|by intros [= <- <-]].
    destruct (Orders.order_with_items _ _ _); by intros [= <- <-].
Qed.

End CheckoutClaims.

(** ** Cancellation and status updates *)

Section OrderClaims.
Context `{Runtime} `{Schema}.

Lemma validate_inr lines : forall t total,
  Orders.validate lines t = inr total ->
  Forall (fun l => ci_quantity l.1 <= p_stock l.2) lines.
Proof.
  induction lines as [|[c p] rest IH]; intros t total Hv; [done|].
  simpl in Hv. destruct (Z.ltb_spec (p_stock p) (ci_quantity c)); [done|].
  constructor; [done|]. by eapply IH.
Qed.

(** A checkout that answers 201 was one of a cart that is not empty and is
    covered by the stock. *)
Lemma create_201_inv uid db db1 r :
  Orders.create uid db = (db1, r) -> r_status r = 201%nat ->
  exists lines,
    cartItem_findMany_include uid db = Some lines /\ lines <> []
    /\ Forall (fun l => ci_quantity l.1 <= p_stock l.2) lines.
Proof.
  unfold Orders.create.
  destruct (cartItem_findMany_include uid db) as [lines|];
    [|by intros [= <- <-]].
  destruct lines as [|l lines]; [by intros [= <- <-]|]. simpl length.
  cbn [Nat.eqb].
  destruct (Orders.validate _ _) eqn:Hv; [by intros [= <- <-]|].
  intros _ _. exists (l :: lines). split_and!; [done..|].
  by eapply validate_inr.
Qed.

Lemma snapshot_products (ps : gmap Z Product) oid lines : forall first,
  Forall (fun l => is_Some (ps !! ci_productId l.1)) lines ->
  Forall (fun i => is_Some (ps !! oi_productId i)) (snapshot oid first lines).
Proof.
  induction lines as [|l rest IH]; intros first Hall; simpl; [done|].
  inversion Hall; subst. constructor; [done|]. by apply IH.
Qed.

(** C3. On a store whose order ids come from the sequence, when a
    checkout answers 201, cancelling the order it created right away
    (under its id, which the client takes: it is in the 32-bit range of
    the key) succeeds, and leaves every product as it was before the
    checkout (stock and all), the order and its items gone, and nothing
    to fetch under the order's id. *)
Theorem cancel_undoes_checkout uid db db1 r id :
  order_seq_fresh db ->
  Orders.create uid db = (db1, r) ->
  r_status r = 201%nat ->
  Orders.where_id id = Some (nextOrderId db) ->
  exists db2 o sent,
    r_body r = BOrder (nextOrderId db) o sent
    /\ Orders.cancel id uid db1
       = (db2, json (BMessage "Order cancelled successfully"))
    /\ products db2 = products db
    /\ orders db2 = orders db
    /\ orders db2 !! nextOrderId db = None
    /\ orderItems db2 = orderItems db
    /\ orderItems_of (nextOrderId db) db2 = []
    /\ Orders.get id uid db2 = (db2, error_json 404 "Order not found").
Proof.
  intros Hfresh Hcreate H201 Hid.
  destruct (create_201_inv _ _ _ _ Hcreate H201)
    as (lines & Hread & Hne & Hstock).
  destruct (create_commits uid db lines Hfresh Hread Hne Hstock)
    as (ps1 & sent & Hrun & Hsent & Hlook & Hnone & Hold1 & Hold2).
  rewrite Hrun in Hcreate. injection Hcreate as <- <-.
  set (oid := nextOrderId db) in *.
  set (items := snapshot oid (nextOrderItemId db) lines) in *.
  set (o := mkOrder uid (decimal_column (cart_total lines)) "pending") in *.
  match type of Hrun with _ = (?d, _) => set (db1 := d) in * end.
  assert (Hof : orderItems_of oid db1 = items).
  { unfold orderItems_of, db1. cbn [orderItems].
    rewrite filter_app, Hold1. apply filter_snapshot. }
  destruct (findMany_include_Some _ _ _ Hread) as [_ Hprod].
  destruct (restore_loop items db1) as (ps2 & Hloop & Hlook2).
  { apply snapshot_products. eapply Forall_impl; [exact Hprod|].
    intros l Hl. unfold db1. cbn [products]. simpl in Hl.
    rewrite Hlook, Hl. by eexists. }
  assert (Hps : ps2 = products db).
  { apply map_eq. intros pid. rewrite Hlook2. unfold db1. cbn [products].
    rewrite Hlook. unfold items. rewrite ordered_snapshot.
    destruct (products db !! pid) as [p|]; simpl; [|done].
    rewrite add_stock_add. f_equal.
    replace (- purchased pid lines + purchased pid lines) with 0 by lia.
    apply add_stock_0. }
  eexists _, o, sent. split; [done|].
  assert (Hfind : order_findFirst oid uid db1 = Some o).
  { unfold order_findFirst, db1. cbn [orders]. rewrite lookup_insert_eq.
    simpl. by rewrite bool_decide_eq_true_2. }
  unfold Orders.cancel. rewrite Hid. fold oid. rewrite Hfind, Hof.
  cbn [o_status o negb String.eqb Ascii.eqb Bool.eqb].
  unfold transaction, Orders.restore. unfold bind at 1. rewrite Hloop.
  unfold order_delete, with_products, db1. cbn [orders].
  rewrite lookup_insert_eq.
  cbn [with_orderItems with_orders orders orderItems products cartItems users
       nextProductId nextCartItemId nextOrderId nextOrderItemId nextUserId].
  split; [reflexivity|].
  cbn [orders orderItems products].
  rewrite delete_insert_id by done.
  unfold items. rewrite filter_app, Hold2, filter_not_snapshot, app_nil_r.
  split_and!; try done.
  unfold Orders.get. rewrite Hid. fold oid.
  unfold order_findFirst, with_orderItems, with_orders. cbn [orders].
  by rewrite Hnone.
Qed.

(** C5. Under an id in the 32-bit range of the key, cancelling an order
    that does not exist, or is another user's, answers 404
    [Order not found]; cancelling an order of the caller whose status is
    not pending answers 400 [Can only cancel pending orders]; and whenever
    the answer is not 200 (whatever the id) the store (every product, the
    order, its items) is what it was. *)
Theorem cancel_rejected_unchanged uid db id :
  (forall n, Orders.where_id id = Some n -> orders db !! n = None ->
     Orders.cancel id uid db = (db, error_json 404 "Order not found"))
  /\ (forall n o, Orders.where_id id = Some n ->
         orders db !! n = Some o -> o_userId o <> uid ->
         Orders.cancel id uid db = (db, error_json 404 "Order not found"))
  /\ (forall n o, Orders.where_id id = Some n ->
         orders db !! n = Some o -> o_userId o = uid ->
         o_status o <> "pending" ->
         Orders.cancel id uid db
         = (db, error_json 400 "Can only cancel pending orders"))
  /\ (forall db' r, Orders.cancel id uid db = (db', r) ->
         r_status r <> 200%nat -> db' = db).
Proof.
  unfold Orders.cancel, order_findFirst. split_and!.
  - by intros n -> ->.
  - intros n o -> -> Hne. simpl. by rewrite bool_decide_eq_false_2.
  - intros n o -> -> Hu Hst. simpl. rewrite bool_decide_eq_true_2 by done.
    destruct (String.eqb_spec (o_status o) "pending"); done.
  - intros db' r. destruct (Orders.where_id id) as [n|];
      [|by intros [= <- <-]].
    destruct (orders db !! n) as [o|]; simpl; [|by intros [= <- <-]].
    case_bool_decide; [|by intros [= <- <-]].
    destruct (negb _); [by intros [= <- <-]|].
    destruct (transaction _ db) as [[[] db1]|]; intros [= <- <-]; done.
Qed.

End OrderClaims.

Section StatusClaims.
Context `{Runtime} `{Schema}.

Lemma status_accepted s :
  s ∈ Orders.validStatuses ->
  (if truthy (JStr s) then Orders.includes Orders.validStatuses (JStr s)
   else None) = Some s.
Proof.
  unfold Orders.validStatuses. intros Hs.
  repeat (apply elem_of_cons in Hs as [->|Hs]; [reflexivity|]).
  by apply elem_of_nil in Hs.
Qed.

Lemma status_refused v :
  (forall s, v = JStr s -> s ∉ Orders.validStatuses) ->
  (if truthy v then Orders.includes Orders.validStatuses v else None) = None.
Proof.
  intros Hv. destruct (truthy v); [|done].
  destruct v as [| |b|n|s|l|fs]; try done. unfold Orders.includes.
  destruct (existsb _ _) eqn:Hex; [|done].
  apply existsb_exists in Hex as (s' & Hin & Heq).
  apply String.eqb_eq in Heq as <-. apply list_elem_of_In in Hin.
  by destruct (Hv s eq_refl).
Qed.

Lemma status_checked v st :
  (if truthy v then Orders.includes Orders.validStatuses v else None)
  = Some st ->
  v = JStr st /\ st ∈ Orders.validStatuses.
Proof.
  destruct (truthy v); [|done]. destruct v as [| |b|n|s|l|fs]; try done.
  unfold Orders.includes. destruct (existsb _ _) eqn:Hex; [|done].
  intros [= <-]. split; [done|].
  apply existsb_exists in Hex as (s' & Hin & Heq).
  apply String.eqb_eq in Heq as <-. by apply list_elem_of_In.
Qed.

(** C6. A status update whose value is not one of the five statuses (a
    missing one included) answers 400 [Invalid status] and changes nothing;
    with any of the five, on an order of the caller (under an id in the
    32-bit range of the key), whatever its status, it answers 200 and the
    order has the new status, with the user and the total it had; and
    whatever the value, the update leaves every product, order item, cart
    line and user as they were, and of the orders changes at most one, of
    which it changes the status only, to the value asked for. *)
Theorem status_update_only_status uid db id :
  (forall v, (forall s, v = JStr s -> s ∉ Orders.validStatuses) ->
     Orders.update id v uid db = (db, error_json 400 "Invalid status"))
  /\ (forall n o s,
        Orders.where_id id = Some n ->
        orders db !! n = Some o -> o_userId o = uid ->
        is_Some (include_items n db) ->
        s ∈ Orders.validStatuses ->
        exists o' sent,
          Orders.update id (JStr s) uid db
          = (with_orders (<[n := o']> (orders db)) db,
             json (BOrder n o' sent))
          /\ o_status o' = s
          /\ o_userId o' = o_userId o /\ o_total o' = o_total o)
  /\ (forall v db' r,
        Orders.update id v uid db = (db', r) ->
        products db' = products db
        /\ orderItems db' = orderItems db
        /\ cartItems db' = cartItems db
        /\ users db' = users db
        /\ forall k,
            orders db' !! k = orders db !! k
            \/ exists o o' s, s ∈ Orders.validStatuses
                 /\ v = JStr s
                 /\ orders db !! k = Some o
                 /\ orders db' !! k = Some o'
                 /\ o_status o' = s
                 /\ o_userId o' = o_userId o /\ o_total o' = o_total o).
Proof.
  split_and!.
  - intros v Hv. unfold Orders.update. by rewrite (status_refused v Hv).
  - intros n o s Hid Ho Hu [sent Hsent] Hs. eexists _, sent.
    unfold Orders.update. rewrite (status_accepted s Hs), Hid.
    unfold order_findFirst. rewrite Ho. simpl.
    rewrite bool_decide_eq_true_2 by done.
    unfold bind, order_update_status. rewrite Ho.
    unfold Orders.order_with_items.
    replace (include_items n (with_orders _ db)) with (Some sent); done.
  - intros v db' r. unfold Orders.update.
    destruct (if truthy v then _ else None) as [st|] eqn:Hst;
      [|intros [= <- <-]; split_and!; try done; by left].
    apply status_checked in Hst as [-> Hst].
    destruct (Orders.where_id id) as [n|];
      [|intros [= <- <-]; split_and!; try done; by left].
    destruct (order_findFirst n uid db) as [o0|] eqn:Hfind;
      [|intros [= <- <-]; split_and!; try done; by left].
    unfold bind, order_update_status.
    destruct (orders db !! n) as [o|] eqn:Ho;
      [|intros [= <- <-]; split_and!; try done; by left].
    destruct (Orders.order_with_items _ _ _); simpl;
      intros [= <- <-]; split_and!; try done; try (by left).
    intros k. destruct (decide (k = n)) as [->|Hk].
    + right. exists o, (set_status st o), st. cbn [with_orders orders].
      by rewrite lookup_insert_eq.
    + left. cbn [with_orders orders]. by rewrite lookup_insert_ne.
Qed.

End StatusClaims.

(** ** The cart *)

Section CartLemmas.

Lemma findUnique_Some uid pid db c :
  cartItem_findUnique uid pid db = Some c ->
  c ∈ cartItems db /\ ci_userId c = uid /\ ci_productId c = pid.
Proof.
  unfold cartItem_findUnique. intros Hf. apply find_some in Hf as [Hin Hp].
  apply bool_decide_eq_true in Hp as [Hu Hp]. by apply list_elem_of_In in Hin.
Qed.

(** The primary key finds the row. *)
Lemma find_by_id (cs : list CartItem) c :
  NoDup (ci_id <$> cs) -> c ∈ cs ->
  List.find (fun c' => bool_decide (ci_id c' = ci_id c)) cs = Some c.
Proof.
  induction cs as [|c0 cs IH]; intros Hnd Hin; [by apply elem_of_nil in Hin|].
  rewrite fmap_cons in Hnd. apply NoDup_cons in Hnd as [Hfresh Hnd].
  simpl. case_bool_decide as Hid.
  - apply elem_of_cons in Hin as [->|Hin]; [done|].
    destruct Hfresh. rewrite Hid. apply list_elem_of_fmap. by exists c.
  - apply elem_of_cons in Hin as [->|Hin]; [done|]. by apply IH.
Qed.

(** Changing quantities does not change what the compound key finds. *)
Lemma findUnique_map uid pid (f : CartItem -> CartItem) cs :
  (forall c, ci_userId (f c) = ci_userId c
             /\ ci_productId (f c) = ci_productId c) ->
  List.find (fun c => bool_decide (ci_userId c = uid /\ ci_productId c = pid))
            (map f cs)
  = f <$> List.find
            (fun c => bool_decide (ci_userId c = uid /\ ci_productId c = pid))
            cs.
Proof.
  intros Hf. induction cs as [|c cs IH]; [done|]. simpl.
  destruct (Hf c) as [-> ->]. by case_bool_decide.
Qed.

Lemma findUnique_app_new uid pid cs c :
  List.find (fun c => bool_decide (ci_userId c = uid /\ ci_productId c = pid))
            cs = None ->
  ci_userId c = uid -> ci_productId c = pid ->
  List.find (fun c => bool_decide (ci_userId c = uid /\ ci_productId c = pid))
            (cs ++ [c]) = Some c.
Proof.
  intros Hnone Hu Hp. induction cs as [|c0 cs IH]; simpl in *.
  - by rewrite bool_decide_eq_true_2.
  - destruct (bool_decide _); [done|]. by apply IH.
Qed.

End CartLemmas.

Section CartClaims.
Context `{Runtime}.

Lemma int32_true z : -2147483648 <= z <= 2147483647 -> int32 z = true.
Proof. unfold int32. intros [? ?]. apply andb_true_intro. split; lia. Qed.

Lemma int32_range z : int32 z = true -> -2147483648 <= z <= 2147483647.
Proof. unfold int32. intros [? ?]%andb_prop. lia. Qed.

(** Adding [q] of a product that is already on a line of the caller's
    cart: what the route answers and the store it leaves. *)
Lemma add_existing uid db productId pid p c q :
  truthy productId = true -> where_int productId = Some pid ->
  products db !! pid = Some p ->
  NoDup (ci_id <$> cartItems db) ->
  cartItem_findUnique uid pid db = Some c ->
  1 <= q -> q <= p_stock p ->
  -2147483648 <= ci_quantity c + q <= 2147483647 ->
  Cart.add productId (JNum (NInt q)) uid db
  = (with_cartItems
       (map (fun c' => if bool_decide (ci_id c' = ci_id c)
                       then set_quantity (ci_quantity c + q) c' else c')
            (cartItems db)) db,
     status_json 201 (BCartItem (set_quantity (ci_quantity c + q) c) p)).
Proof.
  intros Hpid Hparse Hp Hnd Hfind Hq1 Hq2 Hrange.
  destruct (findUnique_Some _ _ _ _ Hfind) as (Hin & Hu & Hpc).
  unfold Cart.add. rewrite Hpid.
  cbn [negb orb truthy val_lt_num ToNumber ToPrimitive PrimitiveToNumber
       num_lt].
  destruct (Z.eqb_spec q 0); [lia|]. destruct (Z.ltb_spec q 1); [lia|].
  cbn [negb orb]. rewrite Hparse, Hp.
  cbn [num_lt_val ToNumber ToPrimitive PrimitiveToNumber num_lt].
  destruct (Z.ltb_spec (p_stock p) q); [lia|].
  rewrite Hfind.
  cbn [plus ToPrimitive PrimitiveToNumber num_add Column.int].
  rewrite (int32_true _ Hrange).
  unfold bind, cartItem_update. rewrite (find_by_id _ _ Hnd Hin).
  cbn [Column.int_apply with_cartItems products set_quantity ci_productId].
  by rewrite Hpc, Hp.
Qed.

(** Adding [q] of a product that is on no line of the caller's cart. *)
Lemma add_new uid db productId pid p q :
  truthy productId = true -> where_int productId = Some pid ->
  products db !! pid = Some p ->
  cartItem_findUnique uid pid db = None ->
  1 <= q -> q <= p_stock p -> q <= 2147483647 ->
  Cart.add productId (JNum (NInt q)) uid db
  = (mkDB (products db)
          (cartItems db ++ [mkCartItem (nextCartItemId db) uid pid q])
          (orders db) (orderItems db) (users db) (nextProductId db)
          (nextCartItemId db + 1) (nextOrderId db) (nextOrderItemId db)
          (nextUserId db),
     status_json 201 (BCartItem (mkCartItem (nextCartItemId db) uid pid q) p)).
Proof.
  intros Hpid Hparse Hp Hfind Hq1 Hq2 Hmax.
  unfold Cart.add. rewrite Hpid.
  cbn [negb orb truthy val_lt_num ToNumber ToPrimitive PrimitiveToNumber
       num_lt].
  destruct (Z.eqb_spec q 0); [lia|]. destruct (Z.ltb_spec q 1); [lia|].
  cbn [negb orb]. rewrite Hparse, Hp.
  cbn [num_lt_val ToNumber ToPrimitive PrimitiveToNumber num_lt].
  destruct (Z.ltb_spec (p_stock p) q); [lia|].
  rewrite Hfind. cbn [Column.int].
  rewrite int32_true by lia.
  unfold bind, cartItem_create. rewrite Hfind.
  cbn [products ci_productId]. by rewrite Hp.
Qed.

(** C7. On a cart table whose ids are a key, adding an integer [q >= 1]
    of an existing product (under an id in the 32-bit range) whose stock
    covers [q] answers 201, as long as the quantity to store is in the
    32-bit range of its column. When the caller's cart has a line for the
    product, that line's quantity grows by [q], no line is added, and every
    other line is as it was; when it has none, one line is added at the
    end, with quantity [q]. Either way the cart then has the line under
    the key (user, product). *)
Theorem add_upserts uid db productId pid p q :
  truthy productId = true -> where_int productId = Some pid ->
  products db !! pid = Some p ->
  NoDup (ci_id <$> cartItems db) ->
  1 <= q -> q <= p_stock p ->
  (forall c, cartItem_findUnique uid pid db = Some c ->
     -2147483648 <= ci_quantity c + q <= 2147483647 ->
     exists db' c',
       Cart.add productId (JNum (NInt q)) uid db
       = (db', status_json 201 (BCartItem c' p))
       /\ ci_quantity c' = ci_quantity c + q
       /\ ci_id c' = ci_id c /\ ci_userId c' = uid /\ ci_productId c' = pid
       /\ length (cartItems db') = length (cartItems db)
       /\ cartItem_findUnique uid pid db' = Some c'
       /\ (forall x, x ∈ cartItems db -> ci_id x <> ci_id c ->
             x ∈ cartItems db')
       /\ products db' = products db)
  /\ (cartItem_findUnique uid pid db = None ->
      q <= 2147483647 ->
      exists db' c',
        Cart.add productId (JNum (NInt q)) uid db
        = (db', status_json 201 (BCartItem c' p))
        /\ ci_quantity c' = q
        /\ ci_id c' = nextCartItemId db
        /\ ci_userId c' = uid /\ ci_productId c' = pid
        /\ cartItems db' = cartItems db ++ [c']
        /\ cartItem_findUnique uid pid db' = Some c'
        /\ products db' = products db).
Proof.
  intros Hpid Hparse Hp Hnd Hq1 Hq2. split.
  - intros c Hfind Hrange.
    destruct (findUnique_Some _ _ _ _ Hfind) as (Hin & Hu & Hpc).
    eexists _, _. split; [by apply (add_existing _ _ _ pid)|].
    cbn [with_cartItems cartItems products set_quantity ci_quantity ci_id
         ci_userId ci_productId].
    split_and!; try done.
    + by rewrite length_map.
    + unfold cartItem_findUnique. cbn [with_cartItems cartItems].
      rewrite (findUnique_map uid pid).
      * unfold cartItem_findUnique in Hfind. rewrite Hfind. simpl.
        by rewrite bool_decide_eq_true_2.
      * intros x. by case_bool_decide.
    + intros x Hx Hne. apply list_elem_of_fmap. exists x.
      split; [|done]. by rewrite bool_decide_eq_false_2.
  - intros Hfind Hmax. eexists _, _. split; [by apply (add_new _ _ _ pid)|].
    cbn [cartItems products ci_quantity ci_id ci_userId ci_productId].
    split_and!; try done.
    unfold cartItem_findUnique. cbn [cartItems].
    by apply findUnique_app_new.
Qed.

(** C9. The stock check of an add looks at the quantity asked for, not at
    what the line will hold: when the caller's line already holds [q0] and
    [q0 + q] is more than the stock while [q] is not (and [q0 + q] is in
    the 32-bit range of the column), the add answers 201 and leaves the
    line with a quantity above the product's stock, which is what it
    was. *)
Theorem add_checks_increment_only uid db productId pid p c q :
  truthy productId = true -> where_int productId = Some pid ->
  products db !! pid = Some p ->
  NoDup (ci_id <$> cartItems db) ->
  cartItem_findUnique uid pid db = Some c ->
  1 <= q -> q <= p_stock p -> p_stock p < ci_quantity c + q ->
  -2147483648 <= ci_quantity c + q <= 2147483647 ->
  exists db' c',
    Cart.add productId (JNum (NInt q)) uid db
    = (db', status_json 201 (BCartItem c' p))
    /\ cartItem_findUnique uid pid db' = Some c'
    /\ ci_quantity c' = ci_quantity c + q
    /\ products db' !! pid = Some p
    /\ p_stock p < ci_quantity c'.
Proof.
  intros Hpid Hparse Hp Hnd Hfind Hq1 Hq2 Hover Hrange.
  eexists _, _. split; [by apply (add_existing _ _ _ pid)|].
  unfold cartItem_findUnique. cbn [with_cartItems cartItems products].
  split_and!; try done.
  rewrite (findUnique_map uid pid).
  - unfold cartItem_findUnique in Hfind. rewrite Hfind. simpl.
    by rewrite bool_decide_eq_true_2.
  - intros x. by case_bool_decide.
Qed.

End CartClaims.

(** ** Product creation *)

Section ProductClaims.
Context `{Runtime} `{Schema}.

(** C10. Product creation tests its required fields for truthiness: with
    the number 0 as price it answers 400 [Missing required fields],
    whatever the other fields, and stores nothing. With a name, a
    description and a category that are non-empty strings, a price that is
    truthy and parses to a finite number, an image that is a string or
    left out, and no stock, it answers 201 and stores the product with
    stock 0 (and with what the [Decimal] column keeps of the price). *)
Theorem create_tests_truthiness db :
  (forall name description imageUrl stock category,
     Products.create name description (JNum (NInt 0)) imageUrl stock category
                     db
     = (db, error_json 400 "Missing required fields"))
  /\ (forall n d price imageUrl img c,
        n <> "" -> d <> "" -> c <> "" ->
        truthy price = true -> is_finite (parseFloat price) = true ->
        Column.str_opt (Products.or_else imageUrl JNull) = Some img ->
        let p := mkProduct n d (decimal_column (parseFloat price)) img 0 c
                           default_isEcoFriendly default_carbonFootprint
                           default_plasticContent in
        Products.create (JStr n) (JStr d) price imageUrl JUndefined (JStr c)
                        db
        = (mkDB (<[nextProductId db := p]> (products db)) (cartItems db)
                (orders db) (orderItems db) (users db) (nextProductId db + 1)
                (nextCartItemId db) (nextOrderId db) (nextOrderItemId db)
                (nextUserId db),
           status_json 201 (BProduct (nextProductId db) p))
        /\ p_stock p = 0).
Proof.
  split.
  - intros name description imageUrl stock category. unfold Products.create.
    cbn [truthy Z.eqb negb]. by rewrite !orb_true_r.
  - intros n d price imageUrl img c Hn Hd Hc Hprice Hfin Himg p.
    split; [|done]. unfold Products.create. rewrite Hprice.
    cbn [truthy].
    destruct (String.eqb_spec n ""); [done|].
    destruct (String.eqb_spec d ""); [done|].
    destruct (String.eqb_spec c ""); [done|].
    cbn [negb orb Column.str mbind option_bind].
    unfold Column.decimal. rewrite Hfin. cbn [mbind option_bind].
    rewrite Himg. reflexivity.
Qed.

End ProductClaims.

(** ** Cart impact *)

Section ImpactClaims.
Context `{Runtime}.

Lemma tally_count lines : forall t,
  Sustainability.t_ecoFriendlyCount (fold_left Sustainability.tally lines t)
  = Sustainability.t_ecoFriendlyCount t + Z.of_nat (eco_lines lines).
Proof.
  unfold eco_lines.
  induction lines as [|[c p] rest IH]; intros t; simpl; [lia|].
  rewrite IH, filter_cons. simpl. destruct (p_isEcoFriendly p); simpl; lia.
Qed.

Lemma eco_plain_length lines :
  (eco_lines lines + plain_lines lines)%nat = length lines.
Proof.
  unfold eco_lines, plain_lines.
  induction lines as [|[c p] rest IH]; [done|].
  rewrite !filter_cons. simpl. destruct (p_isEcoFriendly p); simpl; lia.
Qed.

(** C8. For a cart of 2 eco-flagged lines and 3 others, cart-impact
    answers 200 with ecoFriendlyItems 2, totalItems 5, ecoPercentage the
    string 40.0 and potentialGreenPoints 20, the count of eco-flagged lines
    times 10; the store, the users' points and savings with it, is what it
    was. *)
Theorem cart_impact_two_of_five uid db lines :
  cartItem_findMany_include uid db = Some lines ->
  eco_lines lines = 2%nat -> plain_lines lines = 3%nat ->
  exists i,
    Sustainability.cart_impact uid db = (db, json (BImpact i))
    /\ ecoFriendlyItems i = 2
    /\ totalItems i = 5
    /\ ecoPercentage i = JStr "40.0"
    /\ potentialGreenPoints i
       = Sustainability.Math_floor (Z.of_nat (eco_lines lines) * 10)
    /\ potentialGreenPoints i = 20.
Proof.
  intros Hread Heco Hplain.
  assert (Hlen : length lines = 5%nat).
  { rewrite <- eco_plain_length, Heco, Hplain. done. }
  eexists. unfold Sustainability.cart_impact. rewrite Hread.
  split; [reflexivity|]. unfold Sustainability.impact.
  cbn [ecoFriendlyItems totalItems ecoPercentage potentialGreenPoints].
  rewrite tally_count, Hlen, Heco. cbn [Sustainability.t_ecoFriendlyCount].
  split_and!; try done.
Qed.

End ImpactClaims.

(** ** What every reachable store satisfies *)

Section TableInvariants.

Lemma NoDup_fmap_filter {A B} (f : A -> B) (P : A -> Prop)
      `{!forall x, Decision (P x)} (l : list A) :
  NoDup (f <$> l) -> NoDup (f <$> filter P l).
Proof.
  induction l as [|x l IH]; [done|].
  rewrite fmap_cons, NoDup_cons. intros [Hx Hl].
  rewrite filter_cons. case_decide; [|by apply IH].
  rewrite fmap_cons, NoDup_cons. split; [|by apply IH].
  intros (y & Hy & Hin)%list_elem_of_fmap.
  apply list_elem_of_filter in Hin as [_ Hin].
  apply Hx. apply list_elem_of_fmap. by exists y.
Qed.

Lemma Forall_filter_keep {A} (Q P : A -> Prop) `{!forall x, Decision (P x)}
      (l : list A) :
  Forall Q l -> Forall Q (filter P l).
Proof.
  rewrite !Forall_forall. intros Hall x Hx.
  apply list_elem_of_filter in Hx as [_ Hx]. by apply Hall.
Qed.

Lemma cart_table_filter (Q : Z -> Prop) (P : CartItem -> Prop)
      `{!forall c, Decision (P c)} cs next :
  cart_table Q cs next -> cart_table Q (filter P cs) next.
Proof.
  intros (Hid & Hkey & Hall). split_and!.
  - by apply NoDup_fmap_filter.
  - by apply NoDup_fmap_filter.
  - by apply Forall_filter_keep.
Qed.

Lemma cart_table_set_quantity (Q : Z -> Prop) cs next id q :
  Q q -> cart_table Q cs next ->
  cart_table Q (map (fun c => if bool_decide (ci_id c = id)
                              then set_quantity q c else c) cs) next.
Proof.
  intros Hq (Hid & Hkey & Hall). split_and!.
  - replace (ci_id <$> map _ cs) with (ci_id <$> cs); [done|].
    clear. induction cs as [|c cs IH]; [done|]. simpl.
    f_equal; [by case_bool_decide|apply IH].
  - replace (_ <$> map _ cs)
      with ((fun c => (ci_userId c, ci_productId c)) <$> cs); [done|].
    clear. induction cs as [|c cs IH]; [done|]. simpl.
    f_equal; [by case_bool_decide|apply IH].
  - clear -Hq Hall. induction Hall as [|c cs [Hc1 Hc2] _ IH]; simpl;
      constructor; try done.
    case_bool_decide; simpl; split; done.
Qed.

Lemma cart_table_new (Q : Z -> Prop) cs next uid pid q :
  Q q ->
  List.find (fun c => bool_decide (ci_userId c = uid /\ ci_productId c = pid))
            cs = None ->
  cart_table Q cs next ->
  cart_table Q (cs ++ [mkCartItem next uid pid q]) (next + 1).
Proof.
  intros Hq Hnone (Hid & Hkey & Hall). split_and!.
  - rewrite fmap_app. apply NoDup_app.
    split_and!; [done| |apply NoDup_singleton].
    intros i (c & -> & Hc)%list_elem_of_fmap Hi. simpl in Hi.
    apply list_elem_of_singleton in Hi.
    rewrite Forall_forall in Hall. destruct (Hall c Hc). lia.
  - rewrite fmap_app. apply NoDup_app.
    split_and!; [done| |apply NoDup_singleton].
    intros k (c & -> & Hc)%list_elem_of_fmap Hk. simpl in Hk.
    apply list_elem_of_singleton in Hk. injection Hk as Hu Hp.
    apply list_elem_of_In in Hc.
    pose proof (find_none _ _ Hnone c Hc) as Hf. simpl in Hf.
    by rewrite bool_decide_eq_true_2 in Hf.
  - apply Forall_app. split.
    + eapply Forall_impl; [exact Hall|]. simpl. intros c [? ?].
      split; [done|lia].
    + constructor; [|done]. simpl. split; [done|lia].
Qed.

(** The tables with every quantity at least 1 are the cart and the order
    tables well formed. *)
Lemma tables_inv db :
  tables (fun q => 1 <= q) db <-> cart_inv db /\ order_inv db.
Proof.
  unfold tables, cart_inv, order_inv, cart_ok, cart_table. tauto.
Qed.

Lemma tables_weaken (Q Q' : Z -> Prop) db :
  (forall q, Q q -> Q' q) -> tables Q db -> tables Q' db.
Proof.
  intros HQ ((Hid & Hkey & Hall) & Hfresh & Hqty).
  split; [split_and!|split]; try done.
  - eapply Forall_impl; [exact Hall|]. intros c [? ?]. split; [auto|done].
  - eapply Forall_impl; [exact Hqty|]. auto.
Qed.

(** A request that touches the cart lines only. *)
Lemma tables_cart_only (Q : Z -> Prop) db db' :
  cart_table Q (cartItems db') (nextCartItemId db') ->
  orders db' = orders db -> orderItems db' = orderItems db ->
  nextOrderId db' = nextOrderId db ->
  tables Q db -> tables Q db'.
Proof.
  intros Hcart Ho Hi Hn (_ & Hfresh & Hqty).
  unfold tables, order_seq_fresh. by rewrite Ho, Hi, Hn.
Qed.

(** A request that touches neither cart lines nor orders. *)
Lemma tables_same (Q : Z -> Prop) db db' :
  cartItems db' = cartItems db -> nextCartItemId db' = nextCartItemId db ->
  orders db' = orders db -> orderItems db' = orderItems db ->
  nextOrderId db' = nextOrderId db ->
  tables Q db -> tables Q db'.
Proof.
  intros Hc Hn Ho Hi Hno. unfold tables, order_seq_fresh.
  by rewrite Hc, Hn, Ho, Hi, Hno.
Qed.


End TableInvariants.

Section CartInvariants.
Context `{Runtime}.

(** Nothing is asked of a quantity: every request will do. *)
Lemma writes_any rq : writes (fun _ => True) rq.
Proof. by destruct rq. Qed.

(** A request that carries no fraction and no object as a quantity
    writes quantities of at least 1 only. *)
Lemma writes_whole rq :
  App.whole_quantities rq -> writes (fun q => 1 <= q) rq.
Proof.
  destruct rq; try done; cbn [App.whole_quantities writes]; intros Hwhole.
  - split.
    + intros q0 sum q Hq0 Htruthy.
      destruct quantity as [| |[]|[z|x]|s|l|fs]; try done;
        unfold val_lt_num, ToNumber, plus;
        cbn [ToPrimitive PrimitiveToNumber].
      * intros _ [= <-]. cbn [num_add Column.int].
        destruct (int32 _); [|done]. intros [= <-]. lia.
      * cbn [num_lt]. intros [= Hz] [= <-]. cbn [num_add Column.int].
        destruct (int32 _); [|done]. intros [= <-].
        apply Z.ltb_ge in Hz. lia.
      * by intros _ [= <-].
      * destruct (ToString (JArr l)); [|done]. by intros _ [= <-].
    + intros q _.
      destruct quantity as [| |b|[z|x]|s|l|fs]; try done.
      unfold val_lt_num, ToNumber.
      cbn [ToPrimitive PrimitiveToNumber num_lt].
      intros [= Hz]. cbn [Column.int]. destruct (int32 _); [|done].
      intros [= <-]. by apply Z.ltb_ge in Hz.
  - intros w q0 q Hq0 _.
    destruct quantity as [| |b|[z|x]|s|l|fs]; try done.
    unfold val_lt_num, ToNumber. cbn [ToPrimitive PrimitiveToNumber num_lt].
    intros [= Hz]. unfold Column.int_data. cbn [Column.operation Column.int].
    destruct (int32 _); [|done]. intros [= <-]. cbn [Column.int_apply].
    intros [= <-]. by apply Z.ltb_ge in Hz.
Qed.

Lemma add_tables Q productId quantity uid db :
  writes Q (App.CartAdd uid productId quantity) ->
  tables Q db -> tables Q (Cart.add productId quantity uid db).1.
Proof.
  intros [Hsum Hnew] Htab. pose proof Htab as (Hcart & _ & _).
  unfold Cart.add.
  destruct (truthy productId); [|done].
  destruct (truthy quantity) eqn:Htq; [|done]. cbn [negb orb].
  destruct (val_lt_num quantity (NInt 1)) as [[]|] eqn:Hlt; [done| |done].
  destruct (where_int productId) as [pid|]; [|done].
  destruct (products db !! pid) as [product|]; [|done].
  destruct (num_lt_val _ _) as [[]|]; [done| |done].
  destruct (cartItem_findUnique uid pid db) as [c|] eqn:Hfind.
  - destruct (plus _ _) as [sum|] eqn:Hplus; [|done].
    destruct (Column.int sum) as [q|] eqn:Hq; [|done].
    unfold bind, cartItem_update.
    destruct (List.find _ _); [|done].
    cbn [Column.int_apply with_cartItems products].
    match goal with |- context [?m ≫= _] => destruct m end; [|done].
    cbn [mbind option_bind fst]. apply (tables_cart_only Q db); [|done..].
    cbn [cartItems nextCartItemId].
    apply cart_table_set_quantity; [|done].
    eapply Hsum; [|done..].
    destruct (findUnique_Some _ _ _ _ Hfind) as [Hin _].
    destruct Hcart as (_ & _ & Hall). rewrite Forall_forall in Hall.
    by destruct (Hall c Hin).
  - destruct (Column.int quantity) as [q|] eqn:Hq; [|done].
    unfold bind, cartItem_create. rewrite Hfind.
    cbn [products].
    match goal with |- context [?m ≫= _] => destruct m end; [|done].
    cbn [mbind option_bind fst]. apply (tables_cart_only Q db); [|done..].
    cbn [cartItems nextCartItemId].
    apply cart_table_new; [by eapply Hnew|done..].
Qed.

Lemma cart_update_tables Q id quantity uid db :
  writes Q (App.CartUpdate uid id quantity) ->
  tables Q db -> tables Q (Cart.update id quantity uid db).1.
Proof.
  intros Hw Htab. pose proof Htab as (Hcart & _ & _).
  unfold Cart.update.
  destruct (truthy quantity) eqn:Htq; [|done]. cbn [negb].
  destruct (val_lt_num quantity (NInt 1)) as [[]|] eqn:Hlt; [done| |done].
  destruct (where_int (JStr id)) as [n|]; [|done].
  destruct (cartItem_findFirst n uid db); [|done].
  destruct (include_product _ _) as [[? product]|]; [|done].
  destruct (num_lt_val _ _) as [[]|]; [done| |done].
  destruct (Column.int_data quantity) as [w|] eqn:Hdata; [|done].
  unfold cartItem_update.
  destruct (List.find _ _) as [c'|] eqn:Hfind; [|done].
  destruct (Column.int_apply w _) as [q|] eqn:Happly; [|done].
  cbn [fst]. apply (tables_cart_only Q db); [|done..].
  cbn [with_cartItems cartItems nextCartItemId].
  apply cart_table_set_quantity; [|done].
  eapply Hw; [|done..].
  apply find_some in Hfind as [Hin _]. apply list_elem_of_In in Hin.
  destruct Hcart as (_ & _ & Hall). rewrite Forall_forall in Hall.
  by destruct (Hall c' Hin).
Qed.

Lemma cart_remove_tables Q id uid db :
  tables Q db -> tables Q (Cart.remove id uid db).1.
Proof.
  intros Htab. pose proof Htab as (Hcart & _ & _). unfold Cart.remove.
  destruct (where_int _) as [n|]; [|done].
  destruct (cartItem_findFirst n uid db); [|done].
  unfold cartItem_delete. destruct (List.find _ _); [|done].
  cbn [fst]. apply (tables_cart_only Q db); [|done..].
  cbn [with_cartItems cartItems nextCartItemId]. by apply cart_table_filter.
Qed.

Lemma cart_clear_tables Q uid db :
  tables Q db -> tables Q (Cart.clear uid db).1.
Proof.
  intros Htab. pose proof Htab as (Hcart & _ & _). unfold Cart.clear. simpl.
  apply (tables_cart_only Q db); [|done..]. by apply cart_table_filter.
Qed.


End CartInvariants.

Section OrderInvariants.
Context `{Runtime} `{Schema}.

(** What a checkout does to the store, whatever it answers. *)
Lemma create_shape uid db :
  (Orders.create uid db).1 = db
  \/ exists lines ps',
       cartItem_findMany_include uid db = Some lines
       /\ Forall (fun l => ci_quantity l.1 <= p_stock l.2) lines
       /\ (forall pid,
            ps' !! pid
            = add_stock (- purchased pid lines) <$> products db !! pid)
       /\ (Orders.create uid db).1
          = mkDB ps' (filter (fun c => ci_userId c <> uid) (cartItems db))
                 (<[nextOrderId db
                    := mkOrder uid (decimal_column (cart_total lines))
                               "pending"]>
                    (orders db))
                 (orderItems db
                  ++ snapshot (nextOrderId db) (nextOrderItemId db) lines)
                 (users db) (nextProductId db) (nextCartItemId db)
                 (nextOrderId db + 1)
                 (nextOrderItemId db + Z.of_nat (length lines))
                 (nextUserId db).
Proof.
  unfold Orders.create.
  destruct (cartItem_findMany_include uid db) as [lines|] eqn:Hread;
    [|by left].
  destruct (length lines =? 0)%nat; [by left|].
  destruct (Orders.validate lines (of_Z 0)) as [name|total] eqn:Hv;
    [by left|].
  pose proof (validate_inr _ _ _ Hv) as Hstock.
  assert (Ht : total = cart_total lines).
  { rewrite (validate_enough _ _ Hstock) in Hv. by injection Hv as <-. }
  rewrite Ht.
  destruct (findMany_include_Some _ _ _ Hread) as [_ Hprod].
  destruct (place_commits uid (cart_total lines) lines db)
    as (ps' & Hrun & Hlook).
  { eapply Forall_impl; [exact Hprod|]. intros l Hl. simpl in *. eauto. }
  rewrite Hrun. right. exists lines, ps'. split_and!; [done..|].
  by repeat split_match.
Qed.




Lemma Forall_snapshot (Q : OrderItem -> Prop) oid lines : forall first,
  (forall l k, l ∈ lines ->
     Q (mkOrderItem k oid (ci_productId l.1) (ci_quantity l.1) (p_price l.2)))
  -> Forall Q (snapshot oid first lines).
Proof.
  induction lines as [|l rest IH]; intros first HQ; simpl; [done|].
  constructor; [apply HQ; by left|]. apply IH. intros l' k Hl'.
  apply HQ. by right.
Qed.

Lemma create_tables Q uid db :
  tables Q db -> tables Q (Orders.create uid db).1.
Proof.
  intros Htab.
  destruct (create_shape uid db)
    as [->|(lines & ps' & Hread & Hok & Hlook & ->)]; [done|].
  destruct (findMany_include_Some _ _ _ Hread) as [Hfst Hprod].
  destruct Htab as ((Hid & Hkey & Hall) & [Hfresh Hold] & Hqty).
  split; [|split].
  - cbn [cartItems nextCartItemId]. by apply cart_table_filter.
  - split; cbn [orders orderItems nextOrderId].
    + intros id [Hid'|[_ Hid']]%lookup_insert_is_Some; [lia|].
      apply Hfresh in Hid'. lia.
    + apply Forall_app. split.
      * eapply Forall_impl; [exact Hold|]. simpl. intros. lia.
      * apply Forall_snapshot. intros. simpl. lia.
  - cbn [orderItems]. apply Forall_app. split; [done|].
    apply Forall_snapshot. intros l k Hl. simpl.
    assert (Hin : l.1 ∈ cartItem_where_user uid db).
    { rewrite <- Hfst. apply list_elem_of_fmap. by exists l. }
    apply list_elem_of_filter in Hin as [_ Hin].
    rewrite Forall_forall in Hall. by destruct (Hall _ Hin).
Qed.


(** The loop of the cancellation transaction, when it runs to its end. *)
Lemma restore_loop_inv items : forall db db',
  for_of items (fun item =>
      await _ <- product_update (oi_productId item)
                   (add_stock (oi_quantity item));
      ret tt) db = Some (tt, db') ->
  exists ps',
    db' = with_products ps' db
    /\ forall pid,
        ps' !! pid = add_stock (ordered pid items) <$> products db !! pid.
Proof.
  induction items as [|i rest IH]; intros db db' Hrun.
  - injection Hrun as <-. exists (products db). split; [by destruct db|].
    intros pid. simpl. destruct (products db !! pid); simpl; [|done].
    by rewrite add_stock_0.
  - simpl in Hrun. unfold bind at 1 in Hrun. unfold bind at 1 in Hrun.
    unfold product_update at 1 in Hrun.
    destruct (products db !! oi_productId i) as [p|] eqn:Hp; [|done].
    simpl in Hrun. apply IH in Hrun as (ps' & -> & Hlook).
    exists ps'. split; [done|]. intros pid. rewrite Hlook. simpl.
    rewrite (lookup_insert_add_stock _ _ _ p) by done.
    f_equal. f_equal. case_bool_decide; lia.
Qed.


(** What a cancellation does to the store, whatever it answers. *)
Lemma cancel_shape id uid db :
  (Orders.cancel id uid db).1 = db
  \/ exists n ps',
       (forall pid,
          ps' !! pid
          = add_stock (ordered pid (orderItems_of n db)) <$> products db !! pid)
       /\ (Orders.cancel id uid db).1
          = with_orderItems
              (filter (fun i => oi_orderId i <> n) (orderItems db))
              (with_orders (delete n (orders db)) (with_products ps' db)).
Proof.
  unfold Orders.cancel.
  destruct (Orders.where_id id) as [n|]; [|by left].
  destruct (order_findFirst n uid db); [|by left].
  destruct (negb _); [by left|].
  unfold transaction, Orders.restore.
  match goal with
  | |- context [bind (for_of ?items ?f) ?k db] =>
      change (bind (for_of items f) k db)
        with (match for_of items f db with
              | Some (a, db') => k a db'
              | None => None
              end);
      destruct (for_of items f db) as [[[] db1]|] eqn:Hloop
  end; [|by left].
  apply restore_loop_inv in Hloop as (ps' & -> & Hlook).
  unfold order_delete. cbn [with_products orders].
  destruct (orders db !! n); [|by left].
  right. exists n, ps'. split; [exact Hlook|reflexivity].
Qed.

Lemma cancel_tables Q id uid db :
  tables Q db -> tables Q (Orders.cancel id uid db).1.
Proof.
  intros Htab.
  destruct (cancel_shape id uid db) as [->|(n & ps' & Hlook & ->)]; [done|].
  destruct Htab as (Hcart & [Hfresh Hold] & Hqty).
  split; [done|split].
  - split; cbn [with_orderItems with_orders with_products orders orderItems
                nextOrderId].
    + intros k [_ Hk]%lookup_delete_is_Some. by apply Hfresh.
    + by apply Forall_filter_keep.
  - cbn [with_orderItems orderItems]. by apply Forall_filter_keep.
Qed.


(** What a status update does to the store, whatever it answers. *)
Lemma update_shape id status uid db :
  (Orders.update id status uid db).1 = db
  \/ exists n o st,
       orders db !! n = Some o
       /\ (Orders.update id status uid db).1
          = with_orders (<[n := set_status st o]> (orders db)) db.
Proof.
  unfold Orders.update.
  destruct (if truthy status then _ else None) as [st|]; [|by left].
  destruct (Orders.where_id id) as [n|]; [|by left].
  destruct (order_findFirst n uid db) as [o0|]; [|by left].
  unfold bind, order_update_status.
  destruct (orders db !! n) as [o|] eqn:Ho; [|by left].
  destruct (Orders.order_with_items _ _ _); [|by left].
  right. by exists n, o, st.
Qed.

Lemma status_tables Q id status uid db :
  tables Q db -> tables Q (Orders.update id status uid db).1.
Proof.
  intros Htab.
  destruct (update_shape id status uid db) as [->|(n & o & st & Ho & ->)];
    [done|].
  destruct Htab as (Hcart & [Hfresh Hold] & Hqty).
  split; [done|split; [|done]].
  split; cbn [with_orders orders orderItems nextOrderId]; [|done].
  intros k [<-|[_ Hk]]%lookup_insert_is_Some; apply Hfresh; [|done].
  rewrite Ho. by eexists.
Qed.

End OrderInvariants.

Section CatalogInvariants.
Context `{Runtime} `{Schema}.

Lemma product_create_shape name description price imageUrl stock category
      db :
  let db' := (Products.create name description price imageUrl stock category
                              db).1 in
  db' = db
  \/ exists p st,
       Column.int (Products.or_else stock (JNum (NInt 0))) = Some st
       /\ p_stock p = st
       /\ db' = mkDB (<[nextProductId db := p]> (products db)) (cartItems db)
                     (orders db) (orderItems db) (users db)
                     (nextProductId db + 1) (nextCartItemId db)
                     (nextOrderId db) (nextOrderItemId db) (nextUserId db).
Proof.
  unfold Products.create.
  destruct (_ || _); [by left|].
  destruct (Column.str name) as [n|]; [|by left].
  destruct (Column.str description) as [d|]; [|by left].
  destruct (Column.decimal _) as [pr|]; [|by left].
  destruct (Column.str_opt _) as [img|]; [|by left].
  destruct (Column.int _) as [st|] eqn:Hst; [|by left].
  destruct (Column.str category) as [c|]; [|by left].
  cbn [mbind option_bind Products.product_create fst].
  right. eexists _, st. split; [done|]. split; [|reflexivity]. done.
Qed.

Lemma product_update_shape id name description price imageUrl stock category
      db :
  let db' := (Products.update id name description price imageUrl stock
                              category db).1 in
  db' = db
  \/ exists n p p' data,
       products db !! n = Some p
       /\ Products.field stock Column.int_data
          = Some (Products.d_stock data)
       /\ Products.write data p = Some p'
       /\ db' = with_products (<[n := p']> (products db)) db.
Proof.
  unfold Products.update.
  destruct (Products.updateData _ _ _ _ _ _) as [data|] eqn:Hdata;
    [|by left].
  destruct (where_int _) as [n|]; [|by left].
  destruct (products db !! n) as [p|] eqn:Hp; [|by left].
  destruct (Products.write data p) as [p'|] eqn:Hw; [|by left].
  right. exists n, p, p', data. split_and!; try done.
  unfold Products.updateData in Hdata.
  destruct (Products.field name _) as [n'|]; [|done].
  destruct (Products.field description _) as [d'|]; [|done].
  destruct (Products.field price _) as [pr'|]; [|done].
  destruct (Products.field imageUrl _) as [img'|]; [|done].
  destruct (Products.field stock _) as [st'|]; [|done].
  destruct (Products.field category _) as [c'|]; [|done].
  cbn [mbind option_bind] in Hdata. by injection Hdata as <-.
Qed.

Lemma product_remove_shape id db :
  (Products.remove id db).1 = db
  \/ exists n,
       (Products.remove id db).1
       = mkDB (delete n (products db))
              (filter (fun c => ci_productId c <> n) (cartItems db))
              (orders db)
              (filter (fun i => oi_productId i <> n) (orderItems db))
              (users db) (nextProductId db) (nextCartItemId db)
              (nextOrderId db) (nextOrderItemId db) (nextUserId db).
Proof.
  unfold Products.remove.
  destruct (where_int _) as [n|]; [|by left].
  destruct (products db !! n); [|by left].
  unfold Products.product_delete. destruct (_ || _); [by left|].
  right. by exists n.
Qed.

Lemma register_shape now email password name role db :
  (Auth.register now email password name role db).1 = db
  \/ exists u,
       (Auth.register now email password name role db).1
       = mkDB (products db) (cartItems db) (orders db) (orderItems db)
              (<[nextUserId db := u]> (users db)) (nextProductId db)
              (nextCartItemId db) (nextOrderId db) (nextOrderItemId db)
              (nextUserId db + 1).
Proof.
  unfold Auth.register.
  destruct (_ || _); [by left|].
  destruct (Column.str email) as [e|]; [|by left].
  destruct (Auth.user_findUnique_email e db); [by left|].
  destruct (Column.str password) as [pw|]; [|by left].
  destruct (Column.str name) as [n|]; [|by left].
  cbn [Auth.user_create fst]. right. by eexists.
Qed.

(** Whatever the request writes to a cart line, the keys stay keys and the
    ids stay those of the sequences; the quantities stay as [Q] asks when
    the request writes such quantities only. *)
Lemma handle_tables Q rq db :
  writes Q rq -> tables Q db -> tables Q (App.handle rq db).1.
Proof.
  intros Hw Htab. destruct rq; cbn [App.handle].
  - destruct (register_shape now email password name role db)
      as [->|[u ->]]; [done|]. by eapply tables_same.
  - by apply add_tables.
  - by apply cart_update_tables.
  - by apply cart_remove_tables.
  - by apply cart_clear_tables.
  - unfold Sustainability.cart_impact.
    by destruct (cartItem_findMany_include _ _).
  - by apply create_tables.
  - unfold Orders.get. by repeat split_match.
  - by apply status_tables.
  - by apply cancel_tables.
  - destruct (product_create_shape name description price imageUrl stock
                                   category db)
      as [->|(p & st & _ & _ & ->)]; [done|]. by eapply tables_same.
  - destruct (product_update_shape id name description price imageUrl stock
                                   category db)
      as [->|(n & p & p' & data & _ & _ & _ & ->)]; [done|].
    by eapply tables_same.
  - destruct (product_remove_shape id db) as [->|[n ->]]; [done|].
    destruct Htab as (Hcart & [Hfresh Hold] & Hqty). split; [|split].
    + cbn [cartItems nextCartItemId]. by apply cart_table_filter.
    + split; cbn [orders orderItems nextOrderId]; [done|].
      by apply Forall_filter_keep.
    + cbn [orderItems]. by apply Forall_filter_keep.
Qed.



Lemma empty_db_inv :
  cart_inv App.empty_db /\ order_inv App.empty_db
  /\ stock_nonneg App.empty_db.
Proof.
  split_and!.
  - split_and!; simpl; constructor.
  - split; [split|]; simpl; try constructor.
    intros id [o Ho]. by rewrite lookup_empty in Ho.
  - intros id p Hp. simpl in Hp. by rewrite lookup_empty in Hp.
Qed.

(** The tables of every store reached by requests that write quantities
    as [Q] asks. *)
Lemma reachable_tables Q (P : App.request -> Prop) db0 db :
  (forall rq, P rq -> writes Q rq) ->
  tables Q db0 -> App.reachable_by P db0 db -> tables Q db.
Proof.
  intros HP Htab0. induction 1 as [|rq db _ IH Hrq]; [done|].
  apply handle_tables; [by apply HP|done].
Qed.

(** Started on well-formed tables, every store keeps the keys of the cart
    table and the order ids of the sequence, whatever the requests. *)
Lemma reachable_keys P db0 db :
  cart_inv db0 -> order_inv db0 ->
  App.reachable_by P db0 db -> cart_keyed db /\ order_seq_fresh db.
Proof.
  intros Hcart0 Horder0 Hreach.
  assert (Htab : tables (fun _ => True) db).
  { eapply (reachable_tables _ P db0); [intros; apply writes_any| |done].
    eapply tables_weaken; [|by apply tables_inv]. done. }
  by destruct Htab as (? & ? & _).
Qed.

(** When no request carries a fraction or an object as a cart quantity,
    the quantities stay at least 1 as well. *)
Lemma reachable_inv (P : App.request -> Prop) db0 db :
  (forall rq, P rq -> App.whole_quantities rq) ->
  cart_inv db0 -> order_inv db0 ->
  App.reachable_by P db0 db -> cart_inv db /\ order_inv db.
Proof.
  intros HP Hcart0 Horder0 Hreach. apply tables_inv.
  eapply (reachable_tables _ P db0); [|by apply tables_inv|done].
  intros rq Hrq. by apply writes_whole, HP.
Qed.

Lemma reachable_run P rqs : forall db0 db,
  Forall P rqs -> App.reachable_by P db0 db ->
  App.reachable_by P db0 (App.run rqs db).1.
Proof.
  induction rqs as [|rq rest IH]; intros db0 db Hall Hdb; [done|].
  inversion Hall; subst. simpl. apply IH; [done|].
  by apply App.reachable_handle.
Qed.


(** Whatever the runtime and the schema: when the price parses, the first
    request of an admin can leave a product with stock -5. *)
Lemma create_negative_stock :
  is_finite (parseFloat (JNum (NInt 4))) = true ->
  exists p,
    products (App.handle Example.create_negative App.empty_db).1 !! 1 = Some p
    /\ p_stock p = -5.
Proof.
  intros Hfin. eexists. simpl. unfold Products.create. simpl.
  unfold Column.decimal. rewrite Hfin. simpl.
  split; [apply lookup_insert_eq|done].
Qed.

End CatalogInvariants.

(** ** The claims at the scenarios of the specification *)

Section Scenarios.
Import Example.


(** Scenario 2: the same with 2 in stock. *)
Example checkout_short_of_stock :
  Orders.create 7 shop_short
  = (shop_short, error_json 400 "Insufficient stock for A").
Proof. reflexivity. Qed.

Example checkout_empty_cart :
  Orders.create 8 shop = (shop, error_json 400 "Cart is empty").
Proof. reflexivity. Qed.

(** Scenario 3: the order of scenario 1, cancelled. *)
Lemma cancel_undoes_checkout_witness :
  exists db2,
    Orders.cancel "1" 7 (Orders.create 7 shop).1
    = (db2, json (BMessage "Order cancelled successfully"))
    /\ products db2 = products shop
    /\ Orders.get "1" 7 db2 = (db2, error_json 404 "Order not found").
Proof.
  destruct (cancel_undoes_checkout 7 shop (Orders.create 7 shop).1
              (Orders.create 7 shop).2 "1")
    as (db2 & o & sent & _ & Hrun & Hps & _ & _ & _ & _ & Hget).
  - split; [|constructor]. intros id [o Ho]. unfold shop in Ho. simpl in Ho.
    by rewrite lookup_empty in Ho.
  - by destruct (Orders.create 7 shop).
  - reflexivity.
  - reflexivity.
  - by exists db2.
Defined.

Lemma cancel_rejected_unchanged_witness :
  Orders.cancel "9" 7 shop_orders
  = (shop_orders, error_json 404 "Order not found")
  /\ Orders.cancel "6" 7 shop_orders
     = (shop_orders, error_json 404 "Order not found")
  /\ Orders.cancel "4" 7 shop_orders
     = (shop_orders, error_json 400 "Can only cancel pending orders").
Proof.
  split_and!.
  - destruct (cancel_rejected_unchanged (H:=runtime) 7 shop_orders "9")
      as (Hnone & _).
    by apply (Hnone 9).
  - destruct (cancel_rejected_unchanged (H:=runtime) 7 shop_orders "6")
      as (_ & Hother & _).
    by apply (Hother 6 (mkOrder 8 (of_Z 10) "pending")).
  - destruct (cancel_rejected_unchanged (H:=runtime) 7 shop_orders "4")
      as (_ & _ & Hshipped & _).
    by apply (Hshipped 4 (mkOrder 7 (of_Z 10) "shipped")).
Defined.

Example status_update_to_cancelled :
  exists sent,
    Orders.update "5" (JStr "cancelled") 7 shop_orders
    = (with_orders (<[5 := mkOrder 7 (of_Z 20) "cancelled"]>
                      (orders shop_orders)) shop_orders,
       json (BOrder 5 (mkOrder 7 (of_Z 20) "cancelled") sent))
    /\ Orders.update "5" (JStr "refunded") 7 shop_orders
       = (shop_orders, error_json 400 "Invalid status")
    /\ Orders.update "5" JUndefined 7 shop_orders
       = (shop_orders, error_json 400 "Invalid status").
Proof. eexists. split_and!; reflexivity. Qed.

(** The pending order 5 of user 7 is set to [cancelled]: the order has
    the new status, its user and its total, and the stock of A is the 5 it
    was: a status update restores nothing. *)
Lemma status_update_only_status_witness :
  exists db' o' sent,
    Orders.update "5" (JStr "cancelled") 7 shop_orders
    = (db', json (BOrder 5 o' sent))
    /\ orders db' !! 5 = Some o'
    /\ o_status o' = "cancelled" /\ o_userId o' = 7 /\ o_total o' = of_Z 20
    /\ products db' = products shop_orders
    /\ products db' !! 1 = Some productA
    /\ orderItems db' = orderItems shop_orders.
Proof.
  destruct (status_update_only_status (H:=runtime) 7 shop_orders "5")
    as (_ & Hok & Hrest).
  destruct (Hok 5 (mkOrder 7 (of_Z 20) "pending") "cancelled")
    as (o' & sent & Hrun & Hs & Hu & Ht).
  - reflexivity.
  - reflexivity.
  - reflexivity.
  - eexists. reflexivity.
  - apply list_elem_of_In. simpl. tauto.
  - destruct (Hrest _ _ _ Hrun) as (Hps & His & _).
    eexists _, o', sent. split_and!; done.
Defined.

Lemma add_upserts_witness :
  (exists db' c',
     Cart.add (JNum (NInt 1)) (JNum (NInt 2)) 7 shop
     = (db', status_json 201 (BCartItem c' productA))
     /\ ci_quantity c' = 5 /\ ci_id c' = 1
     /\ length (cartItems db') = 1%nat
     /\ cartItem_findUnique 7 1 db' = Some c')
  /\ (exists db' c',
        Cart.add (JNum (NInt 1)) (JNum (NInt 2)) 8 shop
        = (db', status_json 201 (BCartItem c' productA))
        /\ ci_quantity c' = 2 /\ ci_id c' = 2
        /\ cartItems db' = [lineA; c']).
Proof.
  assert (Hnd : NoDup (ci_id <$> cartItems shop)).
  { repeat constructor. set_solver. }
  assert (Hq : 2 <= p_stock productA) by (simpl; lia).
  pose proof (add_upserts (H:=runtime) 7 shop (JNum (NInt 1)) 1 productA 2
                eq_refl eq_refl eq_refl Hnd ltac:(lia) Hq) as [Hold _].
  pose proof (add_upserts (H:=runtime) 8 shop (JNum (NInt 1)) 1 productA 2
                eq_refl eq_refl eq_refl Hnd ltac:(lia) Hq) as [_ Hnew].
  split.
  - destruct (Hold lineA eq_refl ltac:(simpl; lia))
      as (db' & c' & Hrun & Hqty & Hid & _ & _ & Hlen & Hfind & _).
    by exists db', c'.
  - destruct (Hnew eq_refl ltac:(lia))
      as (db' & c' & Hrun & Hqty & Hid & _ & _ & Hcs & _).
    by exists db', c'.
Defined.

(** The cart holds 3 of A, 5 are in stock, and 4 more are added. *)
Lemma add_checks_increment_only_witness :
  exists db' c',
    Cart.add (JNum (NInt 1)) (JNum (NInt 4)) 7 shop
    = (db', status_json 201 (BCartItem c' productA))
    /\ ci_quantity c' = 7 /\ products db' !! 1 = Some productA
    /\ p_stock productA = 5.
Proof.
  assert (Hnd : NoDup (ci_id <$> cartItems shop)).
  { repeat constructor. set_solver. }
  assert (Hq : 4 <= p_stock productA) by (simpl; lia).
  assert (Hover : p_stock productA < ci_quantity lineA + 4) by (simpl; lia).
  assert (Hrange : -2147483648 <= ci_quantity lineA + 4 <= 2147483647)
    by (simpl; lia).
  destruct (add_checks_increment_only (H:=runtime) 7 shop (JNum (NInt 1)) 1
              productA lineA 4 eq_refl eq_refl eq_refl Hnd eq_refl
              ltac:(lia) Hq Hover Hrange)
    as (db' & c' & Hrun & _ & Hc & Hp & _).
  exists db', c'. split_and!; [exact Hrun|exact Hc|exact Hp|reflexivity].
Defined.

(** The same add past the 32-bit range of the column: the cart holds 3,
    the stock covers the 2147483647 asked for, and the route answers
    500. *)
Example add_past_int_range :
  let db := with_products {[1 := set_stock 2147483647 productA]} shop in
  Cart.add (JNum (NInt 1)) (JNum (NInt 2147483647)) 7 db
  = (db, error_json 500 "Failed to add item to cart").
Proof. reflexivity. Qed.

Example create_product_price_0 :
  Products.create (JStr "B") (JStr "second") (JNum (NInt 0)) JUndefined
                  (JNum (NInt 3)) (JStr "misc") shop
  = (shop, error_json 400 "Missing required fields")
  /\ products
       (Products.create (JStr "B") (JStr "second") (JNum (NInt 4)) JUndefined
                        JUndefined (JStr "misc") shop).1 !! 2
     = Some (mkProduct "B" "second" (of_Z 4) None 0 "misc" false (of_Z 0)
                       (of_Z 0)).
Proof. split; reflexivity. Qed.

(** Scenario 6 *)
Lemma cart_impact_two_of_five_witness :
  exists i,
    Sustainability.cart_impact 7 shop_five = (shop_five, json (BImpact i))
    /\ ecoFriendlyItems i = 2 /\ totalItems i = 5
    /\ ecoPercentage i = JStr "40.0" /\ potentialGreenPoints i = 20.
Proof.
  destruct (cart_impact_two_of_five 7 shop_five
              [(mkCartItem 1 7 1 1, eco "a"); (mkCartItem 2 7 2 2, eco "b");
               (mkCartItem 3 7 3 1, plain "c"); (mkCartItem 4 7 4 1, plain "d");
               (mkCartItem 5 7 5 3, plain "e")])
    as (i & Hrun & He & Ht & Hp & _ & Hg); try reflexivity.
  by exists i.
Defined.



(** An update-operation object as a cart quantity is neither falsy nor
    less than 1, and the store takes it as the operation it names: user 7
    sets the line to -5 and checks out, which raises the stock of A from 5
    to 10; user 8 buys the 10; user 7 cancels, and the stock of A is -5. No
    request of these is an admin's write of a negative stock. *)
Example operation_object_negative_stock :
  let out := App.run set_negative_quantity App.empty_db in
  r_status <$> out.2 = [201; 201; 200; 201; 201; 201; 200]%nat
  /\ p_stock <$> products out.1 !! 1 = Some (-5)
  /\ ~ Forall App.whole_quantities set_negative_quantity.
Proof.
  split_and!; [reflexivity..|].
  intros Hall. inversion Hall as [|? ? _ Hrest]; subst.
  inversion Hrest as [|? ? _ Hrest']; subst.
  inversion Hrest' as [|? ? Hobj _]; subst. exact Hobj.
Qed.

(** The same through an admin's update of the stock: [{decrement: 100}]
    is no negative number, and leaves the 5 of A at -95. *)
Example operation_object_stock :
  p_stock
    <$> products
          (Products.update "1" JUndefined JUndefined JUndefined JUndefined
             (JObj [("decrement", JNum (NInt 100))]) JUndefined shop).1 !! 1
  = Some (-95).
Proof. reflexivity. Qed.

(** A fraction as the stock: the column keeps its integer part. *)
Example fraction_stock :
  p_stock
    <$> products
          (Products.create (JStr "B") (JStr "second") (JNum (NInt 4))
             JUndefined (JNum (NFloat (SFopp (fdiv (of_Z 3) (of_Z 2)))))
             (JStr "misc") shop).1 !! 2
  = Some (-1).
Proof. reflexivity. Qed.

End Scenarios.

(** ** The cart routes, beyond add *)

Section CartMore.
Context `{Runtime}.

(** The primary key and the owner find the row. *)
Lemma findFirst_by_id (cs : list CartItem) c uid :
  NoDup (ci_id <$> cs) -> c ∈ cs -> ci_userId c = uid ->
  List.find (fun c' => bool_decide (ci_id c' = ci_id c /\ ci_userId c' = uid))
            cs = Some c.
Proof.
  intros Hnd Hin Hu.
  induction cs as [|c0 cs IH]; [by apply elem_of_nil in Hin|].
  rewrite fmap_cons in Hnd. apply NoDup_cons in Hnd as [Hfresh Hnd].
  simpl. apply elem_of_cons in Hin as [<-|Hin].
  - by rewrite bool_decide_eq_true_2.
  - case_bool_decide as Hid; [|by apply IH].
    destruct Hid as [Hid _]. destruct Hfresh. rewrite Hid.
    apply list_elem_of_fmap. by exists c.
Qed.


(** X2. PUT /cart/:id refuses a missing quantity and an integer below 1 with
    400 [Invalid quantity], an id in the 32-bit range under which the
    caller has no line with 404, and an integer quantity above the stock
    with 400 [Insufficient stock]; whenever it does not answer 200, the
    store is what it was. *)
Theorem update_rejected_unchanged uid db id :
  Cart.update id JUndefined uid db = (db, error_json 400 "Invalid quantity")
  /\ (forall q, q < 1 ->
        Cart.update id (JNum (NInt q)) uid db
        = (db, error_json 400 "Invalid quantity"))
  /\ (forall n q, 1 <= q -> where_int (JStr id) = Some n ->
        (forall c, c ∈ cartItems db -> ci_id c = n -> ci_userId c <> uid) ->
        Cart.update id (JNum (NInt q)) uid db
        = (db, error_json 404 "Cart item not found"))
  /\ (forall c p q,
        where_int (JStr id) = Some (ci_id c) ->
        NoDup (ci_id <$> cartItems db) ->
        c ∈ cartItems db -> ci_userId c = uid ->
        products db !! ci_productId c = Some p ->
        1 <= q -> p_stock p < q ->
        Cart.update id (JNum (NInt q)) uid db
        = (db, error_json 400 "Insufficient stock"))
  /\ (forall quantity db' r,
        Cart.update id quantity uid db = (db', r) ->
        r_status r <> 200%nat -> db' = db).
Proof.
  split_and!.
  - done.
  - intros q Hq. unfold Cart.update.
    cbn [truthy val_lt_num ToNumber ToPrimitive PrimitiveToNumber
         num_lt].
    destruct (Z.ltb_spec q 1); [|lia]. by destruct (negb _).
  - intros n q Hq Hid Hforeign. unfold Cart.update.
    cbn [truthy val_lt_num ToNumber ToPrimitive PrimitiveToNumber
         num_lt].
    destruct (Z.eqb_spec q 0); [lia|]. destruct (Z.ltb_spec q 1); [lia|].
    cbn [negb orb]. rewrite Hid. unfold cartItem_findFirst.
    destruct (List.find _ _) as [c|] eqn:Hf; [|done].
    apply find_some in Hf as [Hin [Hn Hu]%bool_decide_eq_true].
    apply list_elem_of_In in Hin. by destruct (Hforeign c Hin Hn).
  - intros c p q Hid Hnd Hin Hu Hp Hq1 Hq2. unfold Cart.update.
    cbn [truthy val_lt_num ToNumber ToPrimitive PrimitiveToNumber
         num_lt].
    destruct (Z.eqb_spec q 0); [lia|]. destruct (Z.ltb_spec q 1); [lia|].
    cbn [negb orb]. rewrite Hid. unfold cartItem_findFirst.
    rewrite (findFirst_by_id _ _ _ Hnd Hin Hu).
    unfold include_product. rewrite Hp. cbn [mbind option_bind].
    cbn [num_lt_val ToNumber ToPrimitive PrimitiveToNumber num_lt].
    by destruct (Z.ltb_spec (p_stock p) q); [|lia].
  - intros quantity db' r. unfold Cart.update.
    repeat (split_match; try (by intros [= <- <-])).
Qed.

(** X3. DELETE /cart/:id, under an id in the 32-bit range: on a line of
    the caller it removes the lines with that id and no other; on an id
    under which the caller has no line it answers 404 and changes
    nothing. *)
Theorem remove_deletes_line uid db id n :
  where_int (JStr id) = Some n ->
  ((exists c, c ∈ cartItems db /\ ci_id c = n /\ ci_userId c = uid) ->
   exists db',
     Cart.remove id uid db = (db', json (BMessage "Item removed from cart"))
     /\ (forall x, x ∈ cartItems db' <-> x ∈ cartItems db /\ ci_id x <> n)
     /\ products db' = products db /\ orders db' = orders db
     /\ orderItems db' = orderItems db)
  /\ ((forall c, c ∈ cartItems db -> ci_id c = n -> ci_userId c <> uid) ->
      Cart.remove id uid db = (db, error_json 404 "Cart item not found")).
Proof.
  intros Hid. unfold Cart.remove, cartItem_findFirst. rewrite Hid. split.
  - intros (c & Hin & Hn & Hu).
    destruct (List.find _ _) as [c'|] eqn:Hf.
    2:{ apply list_elem_of_In in Hin.
        pose proof (find_none _ _ Hf c Hin) as Hc. simpl in Hc.
        by rewrite bool_decide_eq_true_2 in Hc. }
    unfold cartItem_delete.
    destruct (List.find (fun c0 => bool_decide (ci_id c0 = n)) _) eqn:Hf2.
    2:{ apply list_elem_of_In in Hin.
        pose proof (find_none _ _ Hf2 c Hin) as Hc. simpl in Hc.
        by rewrite bool_decide_eq_true_2 in Hc. }
    eexists. split; [reflexivity|]. cbn [with_cartItems cartItems products
                                         orders orderItems].
    split_and!; try done. intros x. rewrite list_elem_of_filter. tauto.
  - intros Hforeign. destruct (List.find _ _) as [c|] eqn:Hf; [|done].
    apply find_some in Hf as [Hin [Hn Hu]%bool_decide_eq_true].
    apply list_elem_of_In in Hin. by destruct (Hforeign c Hin Hn).
Qed.

Lemma filter_idemp {A} (P : A -> Prop) `{!forall x, Decision (P x)}
      (l : list A) :
  filter P (filter P l) = filter P l.
Proof.
  induction l as [|x l IH]; [done|]. rewrite filter_cons.
  case_decide; [|done]. rewrite filter_cons. rewrite decide_True by done.
  by rewrite IH.
Qed.

Lemma filter_other_user uid uid' (cs : list CartItem) :
  uid' <> uid ->
  filter (fun c => ci_userId c = uid') (filter (fun c => ci_userId c <> uid) cs)
  = filter (fun c => ci_userId c = uid') cs.
Proof.
  intros Hne. induction cs as [|c cs IH]; [done|].
  rewrite !filter_cons. case_decide as Hc.
  - rewrite filter_cons. by rewrite IH.
  - rewrite decide_False; [done|]. intros Heq. congruence.
Qed.

(** X4. DELETE /cart always answers 200 and leaves the caller without a cart
    line and every other user's cart as it was; clearing a second time
    changes nothing more. *)
Theorem clear_empties_own_cart uid db :
  exists db',
    Cart.clear uid db = (db', json (BMessage "Cart cleared successfully"))
    /\ cartItem_where_user uid db' = []
    /\ (forall uid', uid' <> uid ->
          cartItem_where_user uid' db' = cartItem_where_user uid' db)
    /\ products db' = products db /\ orders db' = orders db
    /\ orderItems db' = orderItems db
    /\ Cart.clear uid db'
       = (db', json (BMessage "Cart cleared successfully")).
Proof.
  eexists. split; [reflexivity|].
  unfold cartItem_where_user. cbn [with_cartItems cartItems products orders
                                   orderItems].
  split_and!; try done.
  - apply where_user_deleteMany.
  - intros uid' Hne. by apply filter_other_user.
  - unfold Cart.clear, cartItem_deleteMany, with_cartItems.
    cbn [cartItems products orders orderItems users nextProductId
         nextCartItemId nextOrderId nextOrderItemId nextUserId].
    by rewrite filter_idemp.
Qed.

(** X5. POST /cart refuses a missing product or quantity and an integer
    quantity below 1 with 400, a product id in the 32-bit range without a
    product with 404 and an integer quantity above the stock with 400
    [Insufficient stock]; whenever it does not answer 201, the store is
    what it was. *)
Theorem add_rejected_unchanged uid db :
  (forall productId,
     Cart.add productId JUndefined uid db
     = (db, error_json 400 "Invalid product or quantity"))
  /\ (forall quantity,
        Cart.add JUndefined quantity uid db
        = (db, error_json 400 "Invalid product or quantity"))
  /\ (forall productId q, q < 1 ->
        Cart.add productId (JNum (NInt q)) uid db
        = (db, error_json 400 "Invalid product or quantity"))
  /\ (forall productId pid q,
        truthy productId = true -> where_int productId = Some pid ->
        1 <= q -> products db !! pid = None ->
        Cart.add productId (JNum (NInt q)) uid db
        = (db, error_json 404 "Product not found"))
  /\ (forall productId pid p q,
        truthy productId = true -> where_int productId = Some pid ->
        1 <= q -> products db !! pid = Some p -> p_stock p < q ->
        Cart.add productId (JNum (NInt q)) uid db
        = (db, error_json 400 "Insufficient stock"))
  /\ (forall productId quantity db' r,
        Cart.add productId quantity uid db = (db', r) ->
        r_status r <> 201%nat -> db' = db).
Proof.
  split_and!.
  - intros productId. unfold Cart.add. cbn [truthy negb].
    by rewrite orb_true_r.
  - done.
  - intros productId q Hq. unfold Cart.add.
    cbn [truthy val_lt_num ToNumber ToPrimitive PrimitiveToNumber
         num_lt].
    destruct (Z.ltb_spec q 1); [|lia]. by destruct (_ || _).
  - intros productId pid q Hpid Hparse Hq Hp. unfold Cart.add.
    rewrite Hpid. cbn [truthy val_lt_num ToNumber ToPrimitive PrimitiveToNumber
         num_lt].
    destruct (Z.eqb_spec q 0); [lia|]. destruct (Z.ltb_spec q 1); [lia|].
    cbn [negb orb]. by rewrite Hparse, Hp.
  - intros productId pid p q Hpid Hparse Hq Hp Hshort. unfold Cart.add.
    rewrite Hpid. cbn [truthy val_lt_num ToNumber ToPrimitive PrimitiveToNumber
         num_lt].
    destruct (Z.eqb_spec q 0); [lia|]. destruct (Z.ltb_spec q 1); [lia|].
    cbn [negb orb]. rewrite Hparse, Hp.
    cbn [num_lt_val ToNumber ToPrimitive PrimitiveToNumber num_lt].
    by destruct (Z.ltb_spec (p_stock p) q); [|lia].
  - intros productId quantity db' r. unfold Cart.add.
    repeat (split_match; try (by intros [= <- <-])).
    all: by intros [= <- <-].
Qed.

End CartMore.

(** ** The order routes together *)

Section OrdersMore.
Context `{Runtime} `{Schema}.

(** X6. Under an id in the 32-bit range, an order of another user is
    answered like an order that does not exist: fetching it, updating its
    status and cancelling it all answer 404 [Order not found] and change
    nothing. *)
Theorem foreign_order_not_found uid db id n :
  Orders.where_id id = Some n ->
  (orders db !! n = None
   \/ exists o, orders db !! n = Some o /\ o_userId o <> uid) ->
  Orders.get id uid db = (db, error_json 404 "Order not found")
  /\ (forall s, s ∈ Orders.validStatuses ->
        Orders.update id (JStr s) uid db
        = (db, error_json 404 "Order not found"))
  /\ Orders.cancel id uid db = (db, error_json 404 "Order not found").
Proof.
  intros Hid Hforeign.
  assert (Hfind : order_findFirst n uid db = None).
  { unfold order_findFirst. destruct Hforeign as [->|(o & -> & Hne)]; [done|].
    simpl. by rewrite bool_decide_eq_false_2. }
  split_and!.
  - unfold Orders.get. by rewrite Hid, Hfind.
  - intros s Hs. unfold Orders.update.
    by rewrite (status_accepted s Hs), Hid, Hfind.
  - unfold Orders.cancel. by rewrite Hid, Hfind.
Qed.

(** The store a checkout that answers 201 leaves. *)
Lemma create_201_store uid db db1 r :
  Orders.create uid db = (db1, r) -> r_status r = 201%nat ->
  exists lines ps',
    cartItem_findMany_include uid db = Some lines
    /\ db1 = mkDB ps' (filter (fun c => ci_userId c <> uid) (cartItems db))
                  (<[nextOrderId db
                     := mkOrder uid (decimal_column (cart_total lines))
                                "pending"]>
                     (orders db))
                  (orderItems db
                   ++ snapshot (nextOrderId db) (nextOrderItemId db) lines)
                  (users db) (nextProductId db) (nextCartItemId db)
                  (nextOrderId db + 1)
                  (nextOrderItemId db + Z.of_nat (length lines))
                  (nextUserId db).
Proof.
  intros Hrun H201.
  destruct (create_201_inv _ _ _ _ Hrun H201) as (lines & Hread & Hne & Hok).
  destruct (findMany_include_Some _ _ _ Hread) as [_ Hprod].
  destruct (place_commits uid (cart_total lines) lines db)
    as (ps' & Htx & _).
  { eapply Forall_impl; [exact Hprod|]. intros l Hl. simpl in *. eauto. }
  exists lines, ps'. split; [done|].
  unfold Orders.create in Hrun. rewrite Hread in Hrun.
  replace (length lines =? 0)%nat with false in Hrun by (by destruct lines).
  rewrite (validate_enough lines (of_Z 0) Hok) in Hrun.
  fold (cart_total lines) in Hrun. rewrite Htx in Hrun.
  by repeat split_match_in_hyp; injection Hrun as <- <-.
Qed.

(** X7. After a checkout that answered 201 the caller's cart is empty: the
    same checkout again answers 400 [Cart is empty] and creates no second
    order. *)
Theorem checkout_twice_rejected uid db db1 r :
  Orders.create uid db = (db1, r) -> r_status r = 201%nat ->
  Orders.create uid db1 = (db1, error_json 400 "Cart is empty").
Proof.
  intros Hrun H201.
  destruct (create_201_store _ _ _ _ Hrun H201) as (lines & ps' & _ & ->).
  unfold Orders.create, cartItem_findMany_include, cartItem_where_user.
  cbn [cartItems]. by rewrite where_user_deleteMany.
Qed.

(** X8. After a cancellation that answered 200 the order is gone: cancelling
    it again, or fetching it, answers 404 [Order not found]. *)
Theorem cancel_twice_not_found uid db db1 r id :
  Orders.cancel id uid db = (db1, r) -> r_status r = 200%nat ->
  Orders.cancel id uid db1 = (db1, error_json 404 "Order not found")
  /\ Orders.get id uid db1 = (db1, error_json 404 "Order not found").
Proof.
  unfold Orders.cancel at 1.
  destruct (Orders.where_id id) as [n|] eqn:Hid; [|by intros [= <- <-]].
  destruct (order_findFirst n uid db); [|by intros [= <- <-]].
  destruct (negb _); [by intros [= <- <-]|].
  destruct (transaction _ db) as [[[] db']|] eqn:Htx; [|by intros [= <- <-]].
  intros [= <- <-] _.
  assert (Hgone : orders db' !! n = None).
  { unfold transaction, Orders.restore in Htx.
    unfold bind at 1 in Htx.
    destruct (for_of _ _ db) as [[[] db2]|]; [|done].
    unfold order_delete in Htx. destruct (orders db2 !! n); [|done].
    injection Htx as <-. cbn [with_orderItems with_orders orders].
    apply lookup_delete_eq. }
  unfold Orders.cancel, Orders.get, order_findFirst.
  by rewrite Hid, Hgone.
Qed.

(** X9. Once a status update has moved an order of the caller off [pending]
    (to [cancelled] too), the cancel route refuses it with 400: the stock
    the order took is not given back by either route. *)
Theorem status_update_blocks_cancel uid db db1 r id s :
  Orders.update id (JStr s) uid db = (db1, r) -> r_status r = 200%nat ->
  s <> "pending" ->
  products db1 = products db
  /\ Orders.cancel id uid db1
     = (db1, error_json 400 "Can only cancel pending orders").
Proof.
  unfold Orders.update.
  destruct (if truthy (JStr s) then _ else None) as [st|] eqn:Hst;
    [|by intros [= <- <-]].
  apply status_checked in Hst as [[= <-] Hst].
  destruct (Orders.where_id id) as [n|] eqn:Hid; [|by intros [= <- <-]].
  destruct (order_findFirst n uid db) as [o0|] eqn:Hfind;
    [|by intros [= <- <-]].
  unfold bind, order_update_status.
  destruct (orders db !! n) as [o|] eqn:Ho; [|by intros [= <- <-]].
  destruct (Orders.order_with_items _ _ _); [|by intros [= <- <-]].
  intros [= <- <-] _ Hs. split; [done|].
  unfold order_findFirst in Hfind. rewrite Ho in Hfind. simpl in Hfind.
  case_bool_decide as Hu; [|done].
  unfold Orders.cancel, order_findFirst. rewrite Hid.
  cbn [with_orders orders]. rewrite lookup_insert_eq. simpl.
  case_bool_decide; [|done]. simpl.
  by destruct (String.eqb_spec s "pending").
Qed.

Lemma items_total_snapshot oid lines : forall first t,
  fold_left (fun t i => fadd t (fmul (oi_price i) (of_Z (oi_quantity i))))
            (snapshot oid first lines) t
  = fold_left
      (fun t l => fadd t (fmul (p_price l.2) (of_Z (ci_quantity l.1))))
      lines t.
Proof.
  induction lines as [|l rest IH]; intros first t; [done|]. simpl.
  apply IH.
Qed.

(** X10. The total of the order a checkout creates is what the [Decimal]
    column keeps of the sum over the order's own items of price times
    quantity. *)
Theorem order_total_is_items_total uid db db1 r :
  order_seq_fresh db ->
  Orders.create uid db = (db1, r) -> r_status r = 201%nat ->
  exists o,
    orders db1 !! nextOrderId db = Some o
    /\ o_total o
       = decimal_column (items_total (orderItems_of (nextOrderId db) db1)).
Proof.
  intros [_ Hold] Hrun H201.
  destruct (create_201_store _ _ _ _ Hrun H201) as (lines & ps' & _ & ->).
  destruct (filter_older_items _ _ Hold) as [Hold1 _].
  eexists. cbn [orders]. rewrite lookup_insert_eq. split; [done|].
  unfold orderItems_of. cbn [orderItems o_total].
  rewrite filter_app, Hold1, filter_snapshot, app_nil_l.
  unfold items_total, cart_total. f_equal. symmetry.
  apply items_total_snapshot.
Qed.

End OrdersMore.

(** ** The product routes *)

Section ProductsMore.
Context `{Runtime} `{Schema}.

(** X11. A product that POST /products creates has the eco flag, carbon
    footprint and plastic content of the column defaults, whatever the
    request says; it gets the next id, is what GET /products/:id then
    answers under that id (an id in the 32-bit range), and no other table
    changes. *)
Theorem create_then_get name description price imageUrl stock category
        db db' n p :
  Products.create name description price imageUrl stock category db
  = (db', status_json 201 (BProduct n p)) ->
  n = nextProductId db
  /\ products db' = <[n := p]> (products db)
  /\ p_isEcoFriendly p = default_isEcoFriendly
  /\ p_carbonFootprint p = default_carbonFootprint
  /\ p_plasticContent p = default_plasticContent
  /\ cartItems db' = cartItems db /\ orders db' = orders db
  /\ orderItems db' = orderItems db /\ users db' = users db
  /\ forall id, where_int (JStr id) = Some n ->
       Queries.product_get id db' = Json 200 (n, p).
Proof.
  unfold Products.create. destruct (_ || _); [done|].
  destruct (Column.str name) as [n'|]; [|done].
  destruct (Column.str description) as [d|]; [|done].
  destruct (Column.decimal _) as [pr|]; [|done].
  destruct (Column.str_opt _) as [img|]; [|done].
  destruct (Column.int _) as [st|]; [|done].
  destruct (Column.str category) as [c|]; [|done].
  cbn [mbind option_bind Products.product_create].
  intros [= <- <- <-]. cbn [products cartItems orders orderItems users].
  split_and!; try done.
  intros id Hid. unfold Queries.product_get. rewrite Hid. cbn [products].
  by rewrite lookup_insert_eq.
Qed.

Lemma field_omitted {A} (col : val -> option A) d :
  Products.field JUndefined col = Some d -> d = None.
Proof. by intros [= <-]. Qed.

(** X12. PUT /products/:id writes one product and nothing else; a field the
    request leaves out keeps its value, and the eco flag, carbon footprint
    and plastic content keep theirs whatever the request says. *)
Theorem update_keeps_omitted_fields id name description price imageUrl stock
        category db db' n p' :
  Products.update id name description price imageUrl stock category db
  = (db', json (BProduct n p')) ->
  exists p,
    where_int (JStr id) = Some n
    /\ parseInt (JStr id) = Some n
    /\ products db !! n = Some p
    /\ products db' = <[n := p']> (products db)
    /\ p_isEcoFriendly p' = p_isEcoFriendly p
    /\ p_carbonFootprint p' = p_carbonFootprint p
    /\ p_plasticContent p' = p_plasticContent p
    /\ (name = JUndefined -> p_name p' = p_name p)
    /\ (description = JUndefined -> p_description p' = p_description p)
    /\ (price = JUndefined -> p_price p' = p_price p)
    /\ (imageUrl = JUndefined -> p_imageUrl p' = p_imageUrl p)
    /\ (stock = JUndefined -> p_stock p' = p_stock p)
    /\ (category = JUndefined -> p_category p' = p_category p)
    /\ cartItems db' = cartItems db /\ orders db' = orders db
    /\ orderItems db' = orderItems db /\ users db' = users db.
Proof.
  unfold Products.update, Products.updateData.
  destruct (Products.field name _) as [n'|] eqn:Hn; [|done].
  destruct (Products.field description _) as [d'|] eqn:Hd; [|done].
  destruct (Products.field price _) as [pr'|] eqn:Hpr; [|done].
  destruct (Products.field imageUrl _) as [img'|] eqn:Hi; [|done].
  destruct (Products.field stock _) as [st'|] eqn:Hs; [|done].
  destruct (Products.field category _) as [c'|] eqn:Hc; [|done].
  cbn [mbind option_bind].
  destruct (where_int _) as [m|] eqn:Hid; [|done].
  destruct (products db !! m) as [p|] eqn:Hp; [|done].
  destruct (Products.write _ p) as [p1|] eqn:Hw; [|done].
  intros [= <- <- <-]. exists p.
  assert (Hparse : parseInt (JStr id) = Some m).
  { unfold where_int in Hid. destruct (parseInt (JStr id)) as [k|]; [|done].
    destruct (int32 k); [|done]. by injection Hid as ->. }
  unfold Products.write in Hw.
  cbn [Products.d_stock Products.d_name Products.d_description
       Products.d_price Products.d_imageUrl Products.d_category] in Hw.
  destruct (match st' with
            | Some w => Column.int_apply w (p_stock p)
            | None => Some (p_stock p)
            end) as [st|] eqn:Hst; [|done].
  cbn [mbind option_bind] in Hw. injection Hw as <-.
  cbn [with_products products cartItems orders orderItems users
       p_isEcoFriendly p_carbonFootprint p_plasticContent p_name
       p_description p_price p_imageUrl p_stock p_category].
  split_and!; try done; intros ->.
  - by rewrite (field_omitted _ _ Hn).
  - by rewrite (field_omitted _ _ Hd).
  - by rewrite (field_omitted _ _ Hpr).
  - by rewrite (field_omitted _ _ Hi).
  - rewrite (field_omitted _ _ Hs) in Hst. by injection Hst as <-.
  - by rewrite (field_omitted _ _ Hc).
Qed.

(** X13. DELETE /products/:id, when it answers 200, leaves no product under the
    id (which is in the 32-bit range) and no cart line or order item that
    refers to it, and keeps every other product; GET /products/:id then
    answers 404. For an id in the 32-bit range without a product it
    answers 404, and whenever it does not answer 200 the store is what it
    was. *)
Theorem remove_leaves_no_reference id db :
  (forall db' r, Products.remove id db = (db', r) -> r_status r = 200%nat ->
     exists n,
       where_int (JStr id) = Some n
       /\ products db' = delete n (products db)
       /\ Forall (fun c => ci_productId c <> n) (cartItems db')
       /\ Forall (fun i => oi_productId i <> n) (orderItems db')
       /\ orders db' = orders db /\ users db' = users db
       /\ Queries.product_get id db' = Failed 404 "Product not found")
  /\ (forall n, where_int (JStr id) = Some n -> products db !! n = None ->
        Products.remove id db = (db, error_json 404 "Product not found"))
  /\ (forall db' r, Products.remove id db = (db', r) ->
        r_status r <> 200%nat -> db' = db).
Proof.
  unfold Products.remove. split_and!.
  - intros db' r. destruct (where_int _) as [n|] eqn:Hid;
      [|by intros [= <- <-]].
    destruct (products db !! n); [|by intros [= <- <-]].
    unfold Products.product_delete. destruct (_ || _); [by intros [= <- <-]|].
    intros [= <- <-] _. exists n.
    cbn [products cartItems orderItems orders users].
    split_and!; try done.
    + apply Forall_forall. by intros c [Hc _]%list_elem_of_filter.
    + apply Forall_forall. by intros i [Hi _]%list_elem_of_filter.
    + unfold Queries.product_get. rewrite Hid. cbn [products].
      by rewrite lookup_delete_eq.
  - by intros n -> ->.
  - intros db' r. repeat (split_match; try (by intros [= <- <-])).
Qed.

(** Past the 32-bit range the id is refused before any row is looked
    for. *)
Lemma where_int_out_of_range v n :
  parseInt v = Some n -> int32 n = false -> where_int v = None.
Proof. unfold where_int. by intros -> ->. Qed.

End ProductsMore.

(** ** Registration and login *)

Section AuthMore.
Context `{Runtime} `{Schema} `{Bcrypt}.

Lemma findUnique_email_Some e db id u :
  Auth.user_findUnique_email e db = Some (id, u) ->
  users db !! id = Some u /\ u_email u = e.
Proof.
  unfold Auth.user_findUnique_email. intros Hf.
  apply find_some in Hf as [Hin He]. apply list_elem_of_In in Hin.
  apply elem_of_map_to_list in Hin. by apply String.eqb_eq in He.
Qed.

Lemma findUnique_email_None e db id u :
  Auth.user_findUnique_email e db = None ->
  users db !! id = Some u -> u_email u <> e.
Proof.
  unfold Auth.user_findUnique_email. intros Hf Hu He.
  apply elem_of_map_to_list, list_elem_of_In in Hu.
  pose proof (find_none _ _ Hf _ Hu) as Hno. simpl in Hno.
  apply String.eqb_neq in Hno. done.
Qed.

(** What a registration that answers 201 did. *)
Lemma register_201_inv now email password name role db db1 r :
  Auth.register now email password name role db = (db1, r) ->
  r_status r = 201%nat ->
  exists e pw n,
    email = JStr e /\ password = JStr pw /\ name = JStr n
    /\ Auth.user_findUnique_email e db = None
    /\ let u := mkUser e (bcrypt_hash pw) n (Auth.role_of role)
                       default_greenPoints default_totalCO2Saved
                       default_totalPlasticSaved in
       db1 = mkDB (products db) (cartItems db) (orders db) (orderItems db)
                  (<[nextUserId db := u]> (users db)) (nextProductId db)
                  (nextCartItemId db) (nextOrderId db) (nextOrderItemId db)
                  (nextUserId db + 1)
       /\ r = status_json 201
                (BUser (nextUserId db) u
                       (jwt_sign (nextUserId db) (Auth.role_of role) now)).
Proof.
  unfold Auth.register. destruct (_ || _); [by intros [= <- <-]|].
  destruct email as [| |b|x|e|l|fs]; try (by intros [= <- <-]).
  cbn [Column.str].
  destruct (Auth.user_findUnique_email e db) eqn:Hfind;
    [by intros [= <- <-]|].
  destruct password as [| |b|x|pw|l|fs]; try (by intros [= <- <-]).
  destruct name as [| |b|x|n|l|fs]; try (by intros [= <- <-]).
  cbn [Column.str Auth.user_create]. intros [= <- <-] _.
  by exists e, pw, n.
Qed.

(** X14. POST /register with a non-empty email, password and name, the email
    not yet in use: it answers 201 and stores the user under the next id,
    with the hash of the password and the column defaults, and sends a
    token signed for that id and role at the time of the request. The role
    is [admin] exactly when the request asks for it with the string
    [admin], and [user] otherwise; no other table changes. *)
Theorem register_creates_user now e pw n role db :
  e <> "" -> pw <> "" -> n <> "" ->
  Auth.user_findUnique_email e db = None ->
  exists u,
    Auth.register now (JStr e) (JStr pw) (JStr n) role db
    = (mkDB (products db) (cartItems db) (orders db) (orderItems db)
            (<[nextUserId db := u]> (users db)) (nextProductId db)
            (nextCartItemId db) (nextOrderId db) (nextOrderItemId db)
            (nextUserId db + 1),
       status_json 201
         (BUser (nextUserId db) u
                (jwt_sign (nextUserId db) (u_role u) now)))
    /\ u_email u = e /\ u_name u = n /\ u_password u = bcrypt_hash pw
    /\ u_greenPoints u = default_greenPoints
    /\ (role = JStr "admin" -> u_role u = "admin")
    /\ (role <> JStr "admin" -> u_role u = "user").
Proof.
  intros He Hpw Hn Hfind. eexists. split.
  - unfold Auth.register. cbn [truthy].
    destruct (String.eqb_spec e ""); [done|].
    destruct (String.eqb_spec pw ""); [done|].
    destruct (String.eqb_spec n ""); [done|].
    cbn [negb orb Column.str]. rewrite Hfind. reflexivity.
  - cbn [u_email u_name u_password u_greenPoints u_role].
    split_and!; try done.
    + by intros ->.
    + intros Hrole. destruct role as [| |b|x|s|l|fs]; try done. simpl.
      destruct (String.eqb_spec s "admin"); [by subst|done].
Qed.

(** X15. After a registration that answered 201, registering the same email
    again, whenever and whatever the password, name and role, answers 400
    [User already exists] and changes nothing. *)
Theorem register_twice_rejected now email password name role db db1 r :
  Auth.register now email password name role db = (db1, r) ->
  r_status r = 201%nat ->
  forall now' password' name' role',
    truthy password' = true -> truthy name' = true ->
    Auth.register now' email password' name' role' db1
    = (db1, error_json 400 "User already exists").
Proof.
  intros Hrun H201 now' password' name' role' Hpw Hn.
  destruct (register_201_inv _ _ _ _ _ _ _ _ Hrun H201)
    as (e & pw & n & -> & -> & -> & Hfind & Hdb1 & _).
  cbv zeta in Hdb1. subst db1.
  assert (He : truthy (JStr e) = true).
  { unfold Auth.register in Hrun. destruct (truthy (JStr e)); [done|].
    injection Hrun as _ Hr. by rewrite <- Hr in H201. }
  unfold Auth.register. rewrite He, Hpw, Hn. cbn [negb orb Column.str].
  match goal with
  | |- context [Auth.user_findUnique_email e ?d] =>
      destruct (Auth.user_findUnique_email e d) as [[id u]|] eqn:Hf
  end; [done|].
  eapply findUnique_email_None in Hf; [|cbn [users]; apply lookup_insert_eq].
  done.
Qed.

(** X16. POST /login with a non-empty email and password either answers 200,
    and then for a stored user with that email whose hash the password
    matches, with that user's id, name and role and a token signed for
    them at the time of the request; or it answers 401
    [Invalid credentials], the same for an unknown email as for a wrong
    password. *)
Theorem login_sound_and_uniform now e pw db :
  e <> "" -> pw <> "" ->
  Login.login now (JStr e) (JStr pw) db = Failed 401 "Invalid credentials"
  \/ exists id u,
       users db !! id = Some u /\ u_email u = e
       /\ bcrypt_compare pw (u_password u) = true
       /\ Login.login now (JStr e) (JStr pw) db
          = Json 200 (Login.mkSession id e (u_name u) (u_role u)
                                      (jwt_sign id (u_role u) now)).
Proof.
  intros He Hpw. unfold Login.login. cbn [truthy].
  destruct (String.eqb_spec e ""); [done|].
  destruct (String.eqb_spec pw ""); [done|].
  cbn [negb orb Column.str].
  destruct (Auth.user_findUnique_email e db) as [[id u]|] eqn:Hf;
    [|by left].
  destruct (bcrypt_compare pw (u_password u)) eqn:Hc; [|by left].
  right. exists id, u.
  destruct (findUnique_email_Some _ _ _ _ Hf) as [Hu Hemail].
  rewrite Hemail. done.
Qed.

(** X17. Register, then log in with the same email and password: when
    [bcrypt.compare] accepts a password against its own hash, the login
    answers 200 with the id, name and role of the registration. Each of
    the two answers carries a token of its own, signed for that id and
    role at the time of its request. *)
Theorem register_then_login now now' e pw n role db db1 id u token :
  Auth.register now (JStr e) (JStr pw) (JStr n) role db
  = (db1, status_json 201 (BUser id u token)) ->
  bcrypt_compare pw (bcrypt_hash pw) = true ->
  token = jwt_sign id (u_role u) now
  /\ Login.login now' (JStr e) (JStr pw) db1
     = Json 200 (Login.mkSession id e n (u_role u)
                                 (jwt_sign id (u_role u) now')).
Proof.
  intros Hrun Hcmp.
  destruct (register_201_inv _ _ _ _ _ _ _ _ Hrun eq_refl)
    as (e' & pw' & n' & [= <-] & [= <-] & [= <-] & Hfind & Hdb1 & Hr).
  cbv zeta in Hdb1, Hr. subst db1. injection Hr as -> -> ->.
  split; [done|].
  assert (He : truthy (JStr e) = true /\ truthy (JStr pw) = true).
  { unfold Auth.register in Hrun.
    destruct (truthy (JStr e)); [|by injection Hrun].
    destruct (truthy (JStr pw)); [done|by injection Hrun]. }
  destruct He as [He Hpw].
  unfold Login.login. rewrite He, Hpw. cbn [negb orb Column.str].
  match goal with
  | |- context [Auth.user_findUnique_email e ?d] =>
      destruct (Auth.user_findUnique_email e d) as [[k v]|] eqn:Hf
  end.
  - destruct (findUnique_email_Some _ _ _ _ Hf) as [Hk Hv].
    cbn [users] in Hk. apply lookup_insert_Some in Hk as [[<- <-]|[_ Hk]].
    + cbn [u_password u_email u_name u_role]. by rewrite Hcmp.
    + by destruct (findUnique_email_None _ _ _ _ Hfind Hk).
  - eapply findUnique_email_None in Hf; [|cbn [users]; apply lookup_insert_eq].
    done.
Qed.

End AuthMore.

(** ** The sustainability routes *)

Section ImpactMore.
Context `{Runtime}.

(** X18. Cart impact counts lines, not units: whatever the quantities, the
    report has the number of lines as totalItems, the number of lines with
    an eco-flagged product as ecoFriendlyItems, and ten times that as
    potentialGreenPoints. For an empty cart the percentage is the number 0
    (nothing is divided) and both totals read 0.00. *)
Theorem cart_impact_counts_lines uid db lines :
  cartItem_findMany_include uid db = Some lines ->
  exists i,
    Sustainability.cart_impact uid db = (db, json (BImpact i))
    /\ totalItems i = Z.of_nat (length lines)
    /\ ecoFriendlyItems i = Z.of_nat (eco_lines lines)
    /\ 0 <= ecoFriendlyItems i <= totalItems i
    /\ potentialGreenPoints i = 10 * ecoFriendlyItems i
    /\ (lines = [] ->
        ecoPercentage i = JNum (NInt 0)
        /\ totalCO2 i = "0.00" /\ totalPlastic i = "0.00").
Proof.
  intros Hread. eexists. unfold Sustainability.cart_impact. rewrite Hread.
  split; [reflexivity|]. unfold Sustainability.impact.
  cbn [ecoFriendlyItems totalItems ecoPercentage potentialGreenPoints
       totalCO2 totalPlastic].
  rewrite tally_count. cbn [Sustainability.t_ecoFriendlyCount].
  pose proof (eco_plain_length lines).
  unfold Sustainability.Math_floor.
  split_and!; try done; try lia.
  by intros ->.
Qed.

End ImpactMore.

Section RankingMore.

#[local] Instance by_points_desc_total : Total Ranking.by_points_desc.
Proof. intros a b. unfold Ranking.by_points_desc. lia. Qed.

#[local] Instance by_points_desc_trans : Transitive Ranking.by_points_desc.
Proof. intros a b c. unfold Ranking.by_points_desc. lia. Qed.

Lemma users_by_points_sorted db :
  StronglySorted Ranking.by_points_desc (Ranking.users_by_points db).
Proof. apply StronglySorted_merge_sort; apply _. Qed.

Lemma users_by_points_elem db id u :
  (id, u) ∈ Ranking.users_by_points db <-> users db !! id = Some u.
Proof.
  unfold Ranking.users_by_points.
  rewrite merge_sort_Permutation. apply elem_of_map_to_list.
Qed.

Lemma users_by_points_length db :
  length (Ranking.users_by_points db) = size (users db).
Proof.
  unfold Ranking.users_by_points.
  rewrite merge_sort_Permutation. apply length_map_to_list.
Qed.

(** X19. The leaderboard answers 200 with the ten users of most points, or all
    of them when there are fewer: the entries are in descending order of
    points, each is a stored user, and a user who is not among the ones
    listed has no more points than any entry. *)
Theorem leaderboard_top_ten db :
  exists entries,
    Ranking.leaderboard db = Json 200 entries
    /\ length entries = min 10 (size (users db))
    /\ StronglySorted (fun a b => Ranking.e_greenPoints b
                                  <= Ranking.e_greenPoints a) entries
    /\ (forall x, x ∈ entries ->
          exists id u, users db !! id = Some u /\ x = Ranking.entry (id, u))
    /\ (forall id u, users db !! id = Some u ->
          (id, u) ∈ take 10 (Ranking.users_by_points db)
          \/ forall x, x ∈ entries ->
               u_greenPoints u <= Ranking.e_greenPoints x).
Proof.
  eexists. split; [reflexivity|].
  pose proof (users_by_points_sorted db) as Hsorted.
  rewrite <- (take_drop 10 (Ranking.users_by_points db)) in Hsorted.
  split_and!.
  - by rewrite length_fmap, length_take, users_by_points_length.
  - eapply StronglySorted_fmap; [|by eapply StronglySorted_app_1_l].
    by intros [] [].
  - intros x ([id u] & -> & Hin)%list_elem_of_fmap. exists id, u.
    split; [|done]. apply users_by_points_elem.
    by eapply subseteq_take.
  - intros id u Hu. apply users_by_points_elem in Hu.
    rewrite <- (take_drop 10 (Ranking.users_by_points db)) in Hu.
    apply elem_of_app in Hu as [Hu|Hu]; [by left|]. right.
    intros x ([id' u'] & -> & Hin)%list_elem_of_fmap.
    apply (StronglySorted_app_1_elem_of _ _ _ _ _ Hsorted Hin Hu).
Qed.

End RankingMore.

Section PreferencesMore.
Context `{PreferenceDefaults}.

(** X20. GET /preferences answers 200 with the caller's row, which it creates
    with the defaults when there is none; reading again answers the same
    and changes nothing, and no other user's row is touched. *)
Theorem preferences_created_on_first_read uid prefs :
  exists p,
    Preferences.get uid prefs = (<[uid := p]> prefs, Json 200 p)
    /\ (prefs !! uid = None -> p = Preferences.defaults)
    /\ (forall old, prefs !! uid = Some old -> p = old)
    /\ (forall uid', uid' <> uid ->
          (Preferences.get uid prefs).1 !! uid' = prefs !! uid')
    /\ Preferences.get uid (Preferences.get uid prefs).1
       = Preferences.get uid prefs.
Proof.
  unfold Preferences.get. destruct (prefs !! uid) as [old|] eqn:Hold.
  - exists old. rewrite insert_id by done. cbn [fst]. rewrite Hold.
    split_and!; try done. by intros old' [= <-].
  - exists Preferences.defaults. cbn [fst]. rewrite lookup_insert_eq.
    split_and!; try done.
    intros uid' Hne. by rewrite lookup_insert_ne.
Qed.

(** X21. PUT /preferences, when it answers 200, stores what it answers: a read
    right after answers the same row. A field the request leaves out
    keeps the value of the caller's row, or the default when there was no
    row; no other user's row is touched. *)
Theorem preferences_put_then_get packaging notify footprint uid prefs
        prefs1 p :
  Preferences.put packaging notify footprint uid prefs
  = (prefs1, Json 200 p) ->
  Preferences.get uid prefs1 = (prefs1, Json 200 p)
  /\ (forall uid', uid' <> uid -> prefs1 !! uid' = prefs !! uid')
  /\ (forall s, packaging = JStr s -> packagingPreference p = s)
  /\ (forall b, notify = JBool b -> notifyGreenDeals p = b)
  /\ (forall b, footprint = JBool b -> showCarbonFootprint p = b)
  /\ let old := default Preferences.defaults (prefs !! uid) in
     (packaging = JUndefined
      -> packagingPreference p = packagingPreference old)
     /\ (notify = JUndefined -> notifyGreenDeals p = notifyGreenDeals old)
     /\ (footprint = JUndefined
         -> showCarbonFootprint p = showCarbonFootprint old).
Proof.
  unfold Preferences.put, Preferences.data.
  destruct (Preferences.data_field packaging _ _) as [pk|] eqn:Hpk;
    [|done].
  destruct (Preferences.data_field notify _ _) as [nt|] eqn:Hnt; [|done].
  destruct (Preferences.data_field footprint _ _) as [fp|] eqn:Hfp; [|done].
  cbn [mbind option_bind]. intros [= <- <-].
  cbn [packagingPreference notifyGreenDeals showCarbonFootprint].
  split_and!.
  - unfold Preferences.get. by rewrite lookup_insert_eq.
  - intros uid' Hne. by rewrite lookup_insert_ne.
  - intros s ->. by injection Hpk.
  - intros b ->. by injection Hnt.
  - intros b ->. by injection Hfp.
  - intros ->. by injection Hpk.
  - intros ->. by injection Hnt.
  - intros ->. by injection Hfp.
Qed.

End PreferencesMore.

Section DashboardMore.

Lemma findIndex_none {A} (f : A -> bool) (l : list A) :
  Forall (fun x => f x = false) l -> Ranking.findIndex f l = -1.
Proof.
  induction 1 as [|x l Hx _ IH]; [done|]. simpl. by rewrite Hx, IH.
Qed.

Lemma findIndex_first {A} (f : A -> bool) (l1 l2 : list A) x :
  Forall (fun y => f y = false) l1 -> f x = true ->
  Ranking.findIndex f (l1 ++ x :: l2) = Z.of_nat (length l1).
Proof.
  induction 1 as [|y l1 Hy _ IH]; intros Hx; simpl.
  - by rewrite Hx.
  - rewrite Hy, (IH Hx). destruct (Z.ltb_spec (Z.of_nat (length l1)) 0); lia.
Qed.

(** The first element that satisfies [f], when there is one. *)
Lemma first_occurrence {A} (f : A -> bool) (l : list A) x :
  x ∈ l -> f x = true ->
  exists l1 y l2,
    l = l1 ++ y :: l2 /\ Forall (fun z => f z = false) l1 /\ f y = true.
Proof.
  induction l as [|z l IH]; intros Hin Hx; [by apply elem_of_nil in Hin|].
  destruct (f z) eqn:Hz.
  - by exists [], z, l.
  - apply elem_of_cons in Hin as [->|Hin]; [congruence|].
    destruct (IH Hin Hx) as (l1 & y & l2 & -> & Hl1 & Hy).
    exists (z :: l1), y, l2. split_and!; [done| |done]. by constructor.
Qed.

Lemma filter_all {A} (P : A -> Prop) `{!forall x, Decision (P x)}
      (l : list A) :
  Forall P l -> filter P l = l.
Proof.
  induction 1 as [|x l Hx _ IH]; [done|].
  by rewrite filter_cons, decide_True, IH.
Qed.

Lemma filter_none {A} (P : A -> Prop) `{!forall x, Decision (P x)}
      (l : list A) :
  Forall (fun x => ~ P x) l -> filter P l = [].
Proof.
  induction 1 as [|x l Hx _ IH]; [done|].
  by rewrite filter_cons, decide_False, IH.
Qed.

Lemma users_by_points_perm db :
  Ranking.users_by_points db ≡ₚ map_to_list (users db).
Proof. unfold Ranking.users_by_points. apply merge_sort_Permutation. Qed.

(** X22. The dashboard's rank of a stored user is a position in the order by
    points: at least 1, above the number of users with more points, and
    at most the number of users with at least as many (so at most
    totalUsers, the number of users). For a caller who is not a stored
    user the rank is 0. *)
Theorem dashboard_rank_in_order uid db :
  is_Some (Ranking.ecoOrders uid db) ->
  exists d,
    Ranking.dashboard uid db = Json 200 d
    /\ Ranking.totalUsers d = Z.of_nat (size (users db))
    /\ (users db !! uid = None ->
        Ranking.globalRank d = 0 /\ Ranking.d_user d = None)
    /\ (forall u, users db !! uid = Some u ->
          Z.of_nat (users_above (u_greenPoints u) db) < Ranking.globalRank d
          /\ Ranking.globalRank d
             <= Z.of_nat (users_at_least (u_greenPoints u) db)
          /\ 1 <= Ranking.globalRank d <= Ranking.totalUsers d).
Proof.
  intros [orders Horders]. eexists. unfold Ranking.dashboard.
  rewrite Horders. split; [reflexivity|].
  cbn [Ranking.totalUsers Ranking.globalRank Ranking.d_user].
  split_and!.
  - by rewrite users_by_points_length.
  - intros Hnone. rewrite Hnone. split; [|done].
    rewrite findIndex_none; [done|]. apply Forall_forall.
    intros [k v] Hin. apply users_by_points_elem in Hin.
    apply bool_decide_eq_false_2. simpl. intros ->. congruence.
  - intros u Hu. pose proof Hu as Hin. apply users_by_points_elem in Hin.
    destruct (first_occurrence
                (fun x : Z * User => bool_decide (x.1 = uid)) _ _ Hin)
      as (l1 & [k v] & l2 & Hl & Hl1 & Hk); [by apply bool_decide_eq_true_2|].
    apply bool_decide_eq_true in Hk. simpl in Hk. subst k.
    assert (v = u) as ->.
    { assert (Hv : (uid, v) ∈ Ranking.users_by_points db).
      { rewrite Hl. apply elem_of_app. right. by left. }
      apply users_by_points_elem in Hv. congruence. }
    pose proof (users_by_points_sorted db) as Hsorted. rewrite Hl in Hsorted.
    apply StronglySorted_app in Hsorted as (Hbefore & _ & Hafter).
    apply StronglySorted_cons in Hafter as [Hafter _].
    rewrite Hl, (findIndex_first _ _ _ _ Hl1) by (by apply bool_decide_eq_true_2).
    assert (Habove : (users_above (u_greenPoints u) db <= length l1)%nat).
    { unfold users_above.
      rewrite <- (users_by_points_perm db), Hl, filter_app.
      rewrite (filter_none _ (_ :: l2)).
      - rewrite app_nil_r. apply length_filter.
      - constructor; [simpl; lia|].
        eapply Forall_impl; [exact Hafter|]. intros [k' v'].
        unfold Ranking.by_points_desc. simpl. lia. }
    assert (Hleast : (length l1 + 1
                      <= users_at_least (u_greenPoints u) db)%nat).
    { unfold users_at_least.
      rewrite <- (users_by_points_perm db), Hl, filter_app.
      rewrite (filter_all _ l1).
      - rewrite filter_cons, decide_True by (simpl; lia).
        rewrite length_app. simpl. lia.
      - apply Forall_forall. intros [k' v'] Hin'.
        pose proof (Hbefore (k', v') (uid, u) Hin') as Hr.
        unfold Ranking.by_points_desc in Hr. simpl in *. apply Hr. by left. }
    assert (Hsize : (users_at_least (u_greenPoints u) db
                     <= size (users db))%nat).
    { unfold users_at_least. rewrite <- length_map_to_list.
      apply length_filter. }
    rewrite <- Hl, users_by_points_length. lia.
Qed.

End DashboardMore.

(** ** What the client shows and what is charged *)

Section ClientMore.
Context `{Runtime} `{Schema}.

(** X23. The total of the order that a checkout creates is what the
    [Decimal] column keeps of the total the cart page computes from what
    GET /cart answered for that cart. *)
Theorem cart_page_total_is_charged uid db cart db1 r :
  Queries.cart_get uid db = Json 200 cart ->
  Orders.create uid db = (db1, r) -> r_status r = 201%nat ->
  exists o,
    orders db1 !! nextOrderId db = Some o
    /\ o_userId o = uid
    /\ o_total o = decimal_column (Client.renderCart_total cart).
Proof.
  unfold Queries.cart_get. intros Hget Hrun H201.
  destruct (create_201_store _ _ _ _ Hrun H201)
    as (lines & ps' & Hread & ->).
  rewrite Hread in Hget. injection Hget as <-.
  eexists. cbn [orders]. rewrite lookup_insert_eq. done.
Qed.

End ClientMore.

(** ** References to products *)

Section References.
Context `{Runtime} `{Schema}.

Lemma refs_mono {A} (f : A -> Z) (ps ps' : gmap Z Product) (l : list A) :
  (forall k, is_Some (ps !! k) -> is_Some (ps' !! k)) ->
  Forall (fun x => is_Some (ps !! f x)) l ->
  Forall (fun x => is_Some (ps' !! f x)) l.
Proof.
  intros Hk Hl. eapply Forall_impl; [exact Hl|]. intros x. apply Hk.
Qed.

Lemma refs_set_quantity (ps : gmap Z Product) id q cs :
  Forall (fun c => is_Some (ps !! ci_productId c)) cs ->
  Forall (fun c => is_Some (ps !! ci_productId c))
         (map (fun c => if bool_decide (ci_id c = id)
                        then set_quantity q c else c) cs).
Proof. induction 1; simpl; constructor; [by case_bool_decide|done]. Qed.

Lemma refs_delete {A} (f : A -> Z) (ps : gmap Z Product) n (l : list A) :
  Forall (fun x => is_Some (ps !! f x)) l ->
  Forall (fun x => is_Some (delete n ps !! f x))
         (filter (fun x => f x <> n) l).
Proof.
  rewrite !Forall_forall. intros Hall x Hx.
  apply list_elem_of_filter in Hx as [Hne Hx].
  rewrite lookup_delete_ne by done. by apply Hall.
Qed.

Lemma add_refs productId quantity uid db :
  ref_inv db -> ref_inv (Cart.add productId quantity uid db).1.
Proof.
  intros Href. pose proof Href as [Hc Ho]. unfold Cart.add.
  destruct (_ || _); [done|].
  destruct (val_lt_num _ _) as [[]|]; [done| |done].
  destruct (where_int productId) as [pid|]; [|done].
  destruct (products db !! pid) as [product|] eqn:Hp; [|done].
  destruct (num_lt_val _ _) as [[]|]; [done| |done].
  destruct (cartItem_findUnique uid pid db) as [c|] eqn:Hfind.
  - destruct (plus _ _) as [sum|]; [|done].
    destruct (Column.int sum) as [q|]; [|done].
    unfold bind, cartItem_update.
    destruct (List.find _ _); [|done].
    cbn [Column.int_apply with_cartItems products].
    match goal with |- context [?m ≫= _] => destruct m end; [|done].
    cbn [mbind option_bind fst]. split; [|done]. by apply refs_set_quantity.
  - destruct (Column.int quantity) as [q|]; [|done].
    unfold bind, cartItem_create. rewrite Hfind.
    cbn [products].
    match goal with |- context [?m ≫= _] => destruct m end; [|done].
    cbn [mbind option_bind fst]. split; [|done]. cbn [cartItems products].
    apply Forall_app. split; [done|].
    constructor; [|done]. simpl. rewrite Hp. by eexists.
Qed.

Lemma cart_update_refs id quantity uid db :
  ref_inv db -> ref_inv (Cart.update id quantity uid db).1.
Proof.
  intros Href. pose proof Href as [Hc Ho]. unfold Cart.update.
  destruct (negb _); [done|].
  destruct (val_lt_num _ _) as [[]|]; [done| |done].
  destruct (where_int _) as [n|]; [|done].
  destruct (cartItem_findFirst n uid db); [|done].
  destruct (include_product _ _) as [[? product]|]; [|done].
  destruct (num_lt_val _ _) as [[]|]; [done| |done].
  destruct (Column.int_data quantity) as [w|]; [|done].
  unfold cartItem_update.
  destruct (List.find _ _) as [c'|]; [|done].
  destruct (Column.int_apply w _) as [q|]; [|done].
  cbn [fst]. split; [|done]. by apply refs_set_quantity.
Qed.

Lemma cart_remove_refs id uid db :
  ref_inv db -> ref_inv (Cart.remove id uid db).1.
Proof.
  intros Href. pose proof Href as [Hc Ho]. unfold Cart.remove.
  destruct (where_int _) as [n|]; [|done].
  destruct (cartItem_findFirst n uid db); [|done].
  unfold cartItem_delete. destruct (List.find _ _); [|done].
  cbn [fst]. split; [|done]. by apply Forall_filter_keep.
Qed.

Lemma cart_clear_refs uid db :
  ref_inv db -> ref_inv (Cart.clear uid db).1.
Proof.
  intros [Hc Ho]. unfold Cart.clear. simpl.
  split; [|done]. by apply Forall_filter_keep.
Qed.

Lemma create_refs uid db :
  ref_inv db -> ref_inv (Orders.create uid db).1.
Proof.
  intros Href. pose proof Href as [Hc Ho].
  destruct (create_shape uid db)
    as [->|(lines & ps' & Hread & _ & Hlook & ->)]; [done|].
  assert (Hk : forall k, is_Some (products db !! k) -> is_Some (ps' !! k)).
  { intros k [p Hp]. rewrite Hlook, Hp. by eexists. }
  split; cbn [products cartItems orderItems].
  - apply Forall_filter_keep. by apply (refs_mono _ (products db)).
  - apply Forall_app. split; [by apply (refs_mono _ (products db))|].
    apply Forall_snapshot. intros l k Hl. simpl. apply Hk.
    destruct (findMany_include_Some _ _ _ Hread) as [_ Hprod].
    rewrite Forall_forall in Hprod. rewrite (Hprod l Hl). by eexists.
Qed.

Lemma cancel_refs id uid db :
  ref_inv db -> ref_inv (Orders.cancel id uid db).1.
Proof.
  intros Href. pose proof Href as [Hc Ho].
  destruct (cancel_shape id uid db) as [->|(n & ps' & Hlook & ->)]; [done|].
  assert (Hk : forall k, is_Some (products db !! k) -> is_Some (ps' !! k)).
  { intros k [p Hp]. rewrite Hlook, Hp. by eexists. }
  split; cbn [with_orderItems with_orders with_products products cartItems
              orderItems].
  - by apply (refs_mono _ (products db)).
  - apply Forall_filter_keep. by apply (refs_mono _ (products db)).
Qed.

Lemma status_refs id status uid db :
  ref_inv db -> ref_inv (Orders.update id status uid db).1.
Proof.
  intros Href.
  by destruct (update_shape id status uid db) as [->|(n & o & st & _ & ->)].
Qed.

Lemma product_create_refs name description price imageUrl stock category db :
  ref_inv db ->
  ref_inv (Products.create name description price imageUrl stock category
                           db).1.
Proof.
  intros Href. pose proof Href as [Hc Ho].
  destruct (product_create_shape name description price imageUrl stock
                                 category db)
    as [->|(p & st & _ & _ & ->)]; [done|].
  split; cbn [products cartItems orderItems];
    (eapply refs_mono; [|done]); intros k Hk;
    apply lookup_insert_is_Some'; by right.
Qed.

Lemma product_update_refs id name description price imageUrl stock category
      db :
  ref_inv db ->
  ref_inv (Products.update id name description price imageUrl stock category
                           db).1.
Proof.
  intros Href. pose proof Href as [Hc Ho].
  destruct (product_update_shape id name description price imageUrl stock
                                 category db)
    as [->|(n & p & p' & data & _ & _ & _ & ->)]; [done|].
  split; cbn [with_products products cartItems orderItems];
    (eapply refs_mono; [|done]); intros k Hk;
    apply lookup_insert_is_Some'; by right.
Qed.

Lemma product_remove_refs id db :
  ref_inv db -> ref_inv (Products.remove id db).1.
Proof.
  intros Href. pose proof Href as [Hc Ho].
  destruct (product_remove_shape id db) as [->|[n ->]]; [done|].
  split; cbn [products cartItems orderItems].
  - by apply (refs_delete ci_productId).
  - by apply (refs_delete oi_productId).
Qed.

Lemma handle_refs rq db : ref_inv db -> ref_inv (App.handle rq db).1.
Proof.
  intros Href. destruct rq; cbn [App.handle].
  - by destruct (register_shape now email password name role db)
      as [->|[u ->]].
  - by apply add_refs.
  - by apply cart_update_refs.
  - by apply cart_remove_refs.
  - by apply cart_clear_refs.
  - unfold Sustainability.cart_impact.
    by destruct (cartItem_findMany_include _ _).
  - by apply create_refs.
  - unfold Orders.get. by repeat split_match.
  - by apply status_refs.
  - by apply cancel_refs.
  - by apply product_create_refs.
  - by apply product_update_refs.
  - by apply product_remove_refs.
Qed.

Lemma reachable_refs P db0 db :
  ref_inv db0 -> App.reachable_by P db0 db -> ref_inv db.
Proof.
  intros Href0. induction 1 as [|rq db _ IH _]; [done|].
  by apply handle_refs.
Qed.

Lemma empty_db_refs : ref_inv App.empty_db.
Proof. split; constructor. Qed.


(** X24. Start the server on a store whose cart and order tables are well
    formed and whose cart lines and order items refer to products of the
    store (the empty store is one). In every store it reaches, whatever
    the requests: cart line ids and (user, product) pairs are keys, cart
    line ids and order ids are below the next id of their sequence, and
    every cart line and order item refers to a product that exists. When
    no request carried a fraction or an object as a cart quantity, the
    quantities of cart lines and order items are at least 1 as well. *)
Theorem reachable_stores_well_formed db0 db :
  cart_inv db0 -> order_inv db0 -> ref_inv db0 ->
  (App.reachable db0 db ->
   cart_keyed db /\ order_seq_fresh db /\ ref_inv db)
  /\ (App.reachable_by App.whole_quantities db0 db ->
      cart_inv db /\ order_inv db /\ ref_inv db).
Proof.
  intros Hcart Horder Href. split; intros Hreach.
  - destruct (reachable_keys _ _ _ Hcart Horder Hreach) as [? ?].
    split_and!; [done..|]. by eapply reachable_refs.
  - destruct (reachable_inv App.whole_quantities db0 db) as [? ?];
      [done..|].
    split_and!; [done..|]. by eapply reachable_refs.
Qed.



End References.

Section BadgeMore.
Context `{Runtime} `{Schema}.

Lemma badge_at_least (cart : list (CartItem * Product)) : forall acc,
  Forall (fun l => 1 <= ci_quantity l.1) cart ->
  acc + Z.of_nat (length cart)
  <= fold_left (fun sum item => sum + ci_quantity item.1) cart acc.
Proof.
  induction cart as [|l rest IH]; intros acc Hall; simpl; [lia|].
  inversion Hall as [|? ? Hl Hrest]; subst.
  specialize (IH (acc + ci_quantity l.1) Hrest). lia.
Qed.

(** X27. In every store the server reaches from a well-formed one by
    requests of which none carried a fraction or an object as a cart
    quantity, the number in the cart badge, computed from what GET /cart
    answered, is at least the number of lines, and it is 0 exactly when
    the cart is empty. *)
Theorem badge_zero_iff_empty db0 db uid cart :
  cart_inv db0 -> order_inv db0 ->
  App.reachable_by App.whole_quantities db0 db ->
  Queries.cart_get uid db = Json 200 cart ->
  Z.of_nat (length cart) <= Client.updateCartBadge cart
  /\ (Client.updateCartBadge cart = 0 <-> cart = []).
Proof.
  intros Hcart0 Horder0 Hreach.
  destruct (reachable_inv App.whole_quantities db0 db)
    as [(_ & _ & Hall) _]; [done..|].
  unfold Queries.cart_get.
  destruct (cartItem_findMany_include uid db) as [lines|] eqn:Hread; [|done].
  intros [= ->].
  destruct (findMany_include_Some _ _ _ Hread) as [Hfst _].
  assert (Hqty : Forall (fun l => 1 <= ci_quantity l.1) cart).
  { apply Forall_forall. intros l Hl.
    assert (Hin : l.1 ∈ cartItem_where_user uid db).
    { rewrite <- Hfst. by apply list_elem_of_fmap_2. }
    apply list_elem_of_filter in Hin as [_ Hin].
    rewrite Forall_forall in Hall. by destruct (Hall _ Hin). }
  pose proof (badge_at_least cart 0 Hqty) as Hge.
  unfold Client.updateCartBadge. split; [lia|]. split.
  - intros Hzero. destruct cart; [done|]. simpl length in Hge. lia.
  - by intros ->.
Qed.

End BadgeMore.

(** ** More scenarios *)

Section MoreScenarios.
Import Example Example2.

Lemma shop_seq_fresh : order_seq_fresh shop.
Proof.
  split; [|constructor]. intros id [o Ho]. unfold shop in Ho. simpl in Ho.
  by rewrite lookup_empty in Ho.
Qed.


(** Past the 32-bit range of the column the same update is refused, and
    so is an id past the range, before any line is looked for. *)
Example update_past_int_range :
  let db := with_products {[1 := set_stock 4294967296 productA]} shop in
  Cart.update "1" (JNum (NInt 2147483648)) 7 db
  = (db, error_json 500 "Failed to update cart item")
  /\ Cart.update "2147483648" (JNum (NInt 1)) 7 shop
     = (shop, error_json 500 "Failed to update cart item")
  /\ Cart.remove "2147483648" 7 shop
     = (shop, error_json 500 "Failed to remove item from cart")
  /\ Orders.get "2147483648" 7 shop
     = (shop, error_json 500 "Failed to fetch order")
  /\ Orders.cancel "2147483648" 7 shop
     = (shop, error_json 500 "Failed to cancel order")
  /\ Products.remove "2147483648" shop
     = (shop, error_json 500 "Failed to delete product").
Proof. split_and!; reflexivity. Qed.

Lemma remove_deletes_line_witness :
  exists db',
    Cart.remove "1" 7 shop = (db', json (BMessage "Item removed from cart"))
    /\ products db' = products shop.
Proof.
  destruct (remove_deletes_line (H:=runtime) 7 shop "1" 1 eq_refl)
    as [Hyes _].
  destruct Hyes as (db' & Hrun & _ & Hp & _).
  - exists lineA. split_and!; [simpl; left|reflexivity|reflexivity].
  - exists db'. split; [exact Hrun|exact Hp].
Defined.

Lemma foreign_order_not_found_witness :
  Orders.get "6" 7 shop_orders
  = (shop_orders, error_json 404 "Order not found")
  /\ Orders.cancel "6" 7 shop_orders
     = (shop_orders, error_json 404 "Order not found").
Proof.
  destruct (foreign_order_not_found (H:=runtime) 7 shop_orders "6" 6
              eq_refl)
    as (Hget & _ & Hcancel).
  - right. exists (mkOrder 8 (of_Z 10) "pending").
    split; [reflexivity|simpl; lia].
  - split; [exact Hget|exact Hcancel].
Defined.

Lemma checkout_twice_rejected_witness :
  Orders.create 7 (Orders.create 7 shop).1
  = ((Orders.create 7 shop).1, error_json 400 "Cart is empty").
Proof.
  apply (checkout_twice_rejected (H0:=schema) 7 shop _
           (Orders.create 7 shop).2).
  - apply surjective_pairing.
  - reflexivity.
Defined.

Lemma cancel_twice_not_found_witness :
  Orders.get "5" 7 (Orders.cancel "5" 7 shop_orders).1
  = ((Orders.cancel "5" 7 shop_orders).1, error_json 404 "Order not found").
Proof.
  destruct (cancel_twice_not_found (H:=runtime) 7 shop_orders
              (Orders.cancel "5" 7 shop_orders).1
              (Orders.cancel "5" 7 shop_orders).2 "5")
    as [_ Hget]; [apply surjective_pairing|reflexivity|exact Hget].
Defined.

Lemma status_update_blocks_cancel_witness :
  Orders.cancel "5" 7 (Orders.update "5" (JStr "shipped") 7 shop_orders).1
  = ((Orders.update "5" (JStr "shipped") 7 shop_orders).1,
     error_json 400 "Can only cancel pending orders").
Proof.
  destruct (status_update_blocks_cancel (H:=runtime) 7 shop_orders
              (Orders.update "5" (JStr "shipped") 7 shop_orders).1
              (Orders.update "5" (JStr "shipped") 7 shop_orders).2 "5"
              "shipped")
    as [_ Hcancel];
    [apply surjective_pairing|reflexivity|discriminate|exact Hcancel].
Defined.

Lemma order_total_is_items_total_witness :
  exists o,
    orders (Orders.create 7 shop).1 !! 1 = Some o
    /\ o_total o
       = decimal_column
           (items_total (orderItems_of 1 (Orders.create 7 shop).1)).
Proof.
  apply (order_total_is_items_total (H0:=schema) 7 shop _
           (Orders.create 7 shop).2).
  - exact shop_seq_fresh.
  - apply surjective_pairing.
  - reflexivity.
Defined.

(** Three at 0.1 each: the sum is 0.30000000000000004 and the order keeps
    0.3. *)
Example total_is_rounded :
  let tenth := fdiv (of_Z 1) (of_Z 10) in
  let db := with_products {[1 := mkProduct "A" "" tenth None 5 "misc" false
                                           (of_Z 0) (of_Z 0)]} shop in
  exists o,
    orders (Orders.create 7 db).1 !! 1 = Some o
    /\ o_total o = fdiv (of_Z 3) (of_Z 10)
    /\ o_total o <> items_total (orderItems_of 1 (Orders.create 7 db).1).
Proof.
  eexists. split_and!; [reflexivity|reflexivity|].
  vm_compute. discriminate.
Qed.

Lemma create_then_get_witness :
  Queries.product_get "1"
    (Products.create (JStr "A") (JStr "first") (JNum (NInt 10)) JUndefined
                     (JNum (NInt 5)) (JStr "misc") App.empty_db).1
  = Json 200 (1, productA').
Proof.
  destruct (create_then_get (H:=runtime) (H0:=schema)
              (JStr "A") (JStr "first") (JNum (NInt 10)) JUndefined
              (JNum (NInt 5)) (JStr "misc") App.empty_db
              (Products.create (JStr "A") (JStr "first") (JNum (NInt 10))
                               JUndefined (JNum (NInt 5)) (JStr "misc")
                               App.empty_db).1
              1 productA')
    as (_ & _ & _ & _ & _ & _ & _ & _ & _ & Hget); [reflexivity|].
  apply Hget. reflexivity.
Defined.

Lemma update_keeps_omitted_fields_witness :
  exists p,
    products shop !! 1 = Some p
    /\ p_name (set_stock 9 productA) = p_name p
    /\ p_price (set_stock 9 productA) = p_price p.
Proof.
  destruct (update_keeps_omitted_fields (H:=runtime) (H0:=schema)
              "1" JUndefined JUndefined JUndefined JUndefined
              (JNum (NInt 9)) JUndefined shop
              (Products.update "1" JUndefined JUndefined JUndefined
                               JUndefined (JNum (NInt 9)) JUndefined shop).1
              1 (set_stock 9 productA))
    as (p & _ & _ & Hp & _ & _ & _ & _ & Hname & _ & Hprice & _);
    [reflexivity|].
  exists p. split_and!; [exact Hp|by apply Hname|by apply Hprice].
Defined.

Lemma remove_leaves_no_reference_witness :
  Queries.product_get "1" (Products.remove "1" shop).1
  = Failed 404 "Product not found"
  /\ cartItems (Products.remove "1" shop).1 = [].
Proof.
  destruct (remove_leaves_no_reference (H:=runtime) (H0:=schema) "1" shop)
    as (Hok & _).
  destruct (Hok (Products.remove "1" shop).1 (Products.remove "1" shop).2)
    as (n & _ & _ & _ & _ & _ & _ & Hget);
    [apply surjective_pairing|reflexivity|].
  split; [exact Hget|reflexivity].
Defined.

Lemma register_creates_user_witness :
  exists u,
    (Auth.register 1000 (JStr "dee@shop.example") (JStr "pw") (JStr "dee")
                   JUndefined club).2
    = status_json 201 (BUser 4 u (jwt_sign 4 (u_role u) 1000))
    /\ u_role u = "user".
Proof.
  destruct (register_creates_user (H:=runtime) (H0:=schema)
              1000 "dee@shop.example" "pw" "dee" JUndefined club)
    as (u & Hrun & _ & _ & _ & _ & _ & Hrole);
    [discriminate|discriminate|discriminate|reflexivity|].
  exists u. split; [by rewrite Hrun|]. apply Hrole. discriminate.
Defined.

Lemma register_twice_rejected_witness :
  Auth.register 2000 (JStr "dee@shop.example") (JStr "other") (JStr "d")
    JUndefined
    (Auth.register 1000 (JStr "dee@shop.example") (JStr "pw") (JStr "dee")
                   JUndefined club).1
  = ((Auth.register 1000 (JStr "dee@shop.example") (JStr "pw") (JStr "dee")
                    JUndefined club).1,
     error_json 400 "User already exists").
Proof.
  apply (register_twice_rejected (H:=runtime) (H0:=schema) 1000
           (JStr "dee@shop.example") (JStr "pw") (JStr "dee") JUndefined club
           _ (Auth.register 1000 (JStr "dee@shop.example") (JStr "pw")
                            (JStr "dee") JUndefined club).2).
  - apply surjective_pairing.
  - reflexivity.
  - reflexivity.
  - reflexivity.
Defined.

Lemma login_sound_and_uniform_witness :
  Login.login 1000 (JStr "bob@shop.example") (JStr "secret") club
  = Failed 401 "Invalid credentials"
  \/ exists id u,
       users club !! id = Some u /\ u_email u = "bob@shop.example"
       /\ bcrypt_compare "secret" (u_password u) = true
       /\ Login.login 1000 (JStr "bob@shop.example") (JStr "secret") club
          = Json 200 (Login.mkSession id "bob@shop.example" (u_name u)
                                      (u_role u)
                                      (jwt_sign id (u_role u) 1000)).
Proof.
  apply (login_sound_and_uniform (H:=runtime) (H1:=bcrypt) 1000
           "bob@shop.example" "secret" club); discriminate.
Defined.

(** Registered when the clock reads 1000 and logged in at 2000: the same
    user, and a token of its own each time. *)
Lemma register_then_login_witness :
  (Auth.register 1000 (JStr "dee@shop.example") (JStr "pw") (JStr "dee")
                 JUndefined club).2
  = status_json 201 (BUser 4 dee "user4@1000")
  /\ Login.login 2000 (JStr "dee@shop.example") (JStr "pw")
       (Auth.register 1000 (JStr "dee@shop.example") (JStr "pw") (JStr "dee")
                      JUndefined club).1
     = Json 200 (Login.mkSession 4 "dee@shop.example" "dee" "user"
                                 "user4@2000").
Proof.
  destruct (register_then_login (H:=runtime) (H0:=schema) (H1:=bcrypt)
              1000 2000 "dee@shop.example" "pw" "dee" JUndefined club
              (Auth.register 1000 (JStr "dee@shop.example") (JStr "pw")
                             (JStr "dee") JUndefined club).1
              4 dee "user4@1000")
    as [_ Hlogin]; [reflexivity|reflexivity|].
  split; [reflexivity|exact Hlogin].
Defined.

Lemma cart_impact_counts_lines_witness :
  exists i,
    Sustainability.cart_impact 7 shop = (shop, json (BImpact i))
    /\ totalItems i = 1 /\ potentialGreenPoints i = 10.
Proof.
  destruct (cart_impact_counts_lines (H:=runtime) 7 shop [(lineA, productA)])
    as (i & Hrun & Htotal & Heco & _ & Hpoints & _); [reflexivity|].
  exists i. split_and!; [exact Hrun|exact Htotal|].
  rewrite Hpoints, Heco. reflexivity.
Defined.

Lemma preferences_put_then_get_witness :
  Preferences.get 7
    (Preferences.put (JStr "minimal") JUndefined (JBool false) 7 ∅).1
  = ((Preferences.put (JStr "minimal") JUndefined (JBool false) 7 ∅).1,
     Json 200 (mkUserPreference "minimal" true false)).
Proof.
  destruct (preferences_put_then_get (H:=preference_defaults)
              (JStr "minimal") JUndefined (JBool false) 7 ∅
              (Preferences.put (JStr "minimal") JUndefined (JBool false) 7
                               ∅).1
              (mkUserPreference "minimal" true false))
    as [Hget _]; [reflexivity|].
  exact Hget.
Defined.

Lemma dashboard_rank_in_order_witness :
  exists d,
    Ranking.dashboard 1 club = Json 200 d
    /\ Ranking.totalUsers d = 3
    /\ 1 <= Ranking.globalRank d <= Ranking.totalUsers d.
Proof.
  destruct (dashboard_rank_in_order 1 club)
    as (d & Hrun & Htotal & _ & Hsome); [by eexists|].
  destruct (Hsome (member "ann" 50) eq_refl) as (_ & _ & Hrank).
  exists d. split_and!; [exact Hrun|by rewrite Htotal|apply Hrank..].
Defined.

Lemma cart_page_total_is_charged_witness :
  exists o,
    orders (Orders.create 7 shop).1 !! 1 = Some o
    /\ o_userId o = 7
    /\ o_total o
       = decimal_column (Client.renderCart_total [(lineA, productA)]).
Proof.
  apply (cart_page_total_is_charged (H0:=schema) 7 shop
           [(lineA, productA)] _ (Orders.create 7 shop).2).
  - reflexivity.
  - apply surjective_pairing.
  - reflexivity.
Defined.

Lemma visit_whole : Forall App.whole_quantities visit.
Proof. repeat constructor. Qed.

Lemma purchase_whole : Forall App.whole_quantities purchase.
Proof. repeat constructor. Qed.

Lemma badge_zero_iff_empty_witness :
  1 <= Client.updateCartBadge [(mkCartItem 1 7 1 3, productA')].
Proof.
  destruct empty_db_inv as (Hcart & Horder & _).
  destruct (badge_zero_iff_empty (H:=runtime) (H0:=schema) App.empty_db
              (App.run visit App.empty_db).1 7
              [(mkCartItem 1 7 1 3, productA')] Hcart Horder)
    as [Hge _].
  - apply reachable_run; [exact visit_whole|apply App.reachable_start].
  - reflexivity.
  - exact Hge.
Defined.

(** After an update-operation object the badge is below 0 on a cart of one
    line. *)
Example badge_after_operation_object :
  let db := (App.run (firstn 3 set_negative_quantity) App.empty_db).1 in
  exists cart,
    Queries.cart_get 7 db = Json 200 cart
    /\ length cart = 1%nat /\ Client.updateCartBadge cart = -5.
Proof. eexists. split_and!; reflexivity. Qed.

Lemma reachable_stores_well_formed_witness :
  cart_inv (App.run purchase App.empty_db).1
  /\ order_inv (App.run purchase App.empty_db).1
  /\ ref_inv (App.run purchase App.empty_db).1.
Proof.
  destruct empty_db_inv as (Hcart & Horder & _).
  destruct (reachable_stores_well_formed (H:=runtime) (H0:=schema)
              App.empty_db (App.run purchase App.empty_db).1
              Hcart Horder empty_db_refs)
    as [_ Hwhole].
  apply Hwhole.
  apply reachable_run; [exact purchase_whole|apply App.reachable_start].
Defined.



End MoreScenarios.
